(** * Ergonomic risk analyzer: scoring and aggregation core

    A shallow embedding of the decision logic of the application
    ([app/models.py], [app/services.py], [app/questionnaire.py],
    [app/body_map.py], [app/webcam_capture.py], [app/homepage.py]):
    the enumerations, the RULA posture scorer, the GOTRAK discomfort
    scorer, the two risk classifiers, the body-part assessment record and
    the session aggregator; then the tables of users, assessments and
    captures with their services, the questionnaire, the capture
    component, the body map and the pages; followed by the properties
    proved about them. *)

From Stdlib Require Import ZArith QArith Qcanon Lia.
From stdpp Require Import base decidable option list strings gmap numbers.
From stdpp Require Import pretty.

Local Open Scope string_scope.
Local Open Scope Z_scope.

(** ** Python values and outcomes *)

(** Python checks no annotation at run time: a parameter annotated
    [SeverityLevel] receives whatever the caller passes.  The values
    considered here are [None], integers, strings and lists: the first
    three are hashable, a list is not, and only integers are ordered
    against an integer.  The enumerations of [app/models.py] all derive
    from [str]: a member compares equal to, and hashes like, its string
    value, so a member is the [PyStr] of its value. *)
#[warnings="-register-all"]
Inductive pyval : Type :=
  | PyNone
  | PyInt (z : Z)
  | PyStr (s : string)
  | PyList (items : list pyval).

#[global] Instance pyval_eq_dec : EqDecision pyval.
Proof.
  refine (fix go (x y : pyval) {struct x} : Decision (x = y) :=
            match x, y with
            | PyNone, PyNone => left _
            | PyInt a, PyInt b => cast_if (decide (a = b))
            | PyStr a, PyStr b => cast_if (decide (a = b))
            | PyList a, PyList b => cast_if (@list_eq_dec _ go a b)
            | _, _ => right _
            end); congruence.
Defined.

(** [hash(value)] succeeds. *)
Definition hashable (value : pyval) : bool :=
  match value with
  | PyList _ => false
  | _ => true
  end.

(** Exceptions raised by the modelled code.  [ValueError] carries the
    class whose call failed, [KeyError] the missing key and [TypeError]
    the operation the value does not support ("hash", "<="). *)
Inductive pyexn : Type :=
  | ValueError (msg : string)
  | KeyError (key : string)
  | TypeError (operation : string).

(** The outcome of a call: a returned value or a raised exception. *)
Inductive result (A : Type) : Type :=
  | Ok (a : A)
  | Raise (e : pyexn).
Arguments Ok {A} a.
Arguments Raise {A} e.

#[global] Instance result_ret : MRet result := fun A a => Ok a.
#[global] Instance result_bind : MBind result := fun A B k r =>
  match r with
  | Ok a => k a
  | Raise e => Raise e
  end.

Definition raises {A} (r : result A) : Prop := exists e, r = Raise e.

(** ** Enumerations ([app/models.py]) *)

Inductive SeverityLevel : Type := NO_PROBLEM | UNCOMFORTABLE | PAIN | SEVERE_PAIN.
Inductive FrequencyLevel : Type := NEVER | SOMETIMES | OFTEN | ALWAYS.
Inductive RiskLevel : Type := GREEN | YELLOW | RED.
Inductive BodyPartType : Type :=
  | NECK | SHOULDER_LEFT | SHOULDER_RIGHT | ARM_LEFT | ARM_RIGHT
  | ELBOW_LEFT | ELBOW_RIGHT | WRIST_LEFT | WRIST_RIGHT
  | HAND_LEFT | HAND_RIGHT | UPPER_BACK | LOWER_BACK
  | HIP_LEFT | HIP_RIGHT | THIGH_LEFT | THIGH_RIGHT
  | KNEE_LEFT | KNEE_RIGHT | ANKLE_LEFT | ANKLE_RIGHT.

#[global] Instance SeverityLevel_eq_dec : EqDecision SeverityLevel.
Proof. solve_decision. Defined.
#[global] Instance FrequencyLevel_eq_dec : EqDecision FrequencyLevel.
Proof. solve_decision. Defined.
#[global] Instance RiskLevel_eq_dec : EqDecision RiskLevel.
Proof. solve_decision. Defined.
#[global] Instance BodyPartType_eq_dec : EqDecision BodyPartType.
Proof. solve_decision. Defined.

Definition SeverityLevel_value (s : SeverityLevel) : string :=
  match s with
  | NO_PROBLEM => "No problem"
  | UNCOMFORTABLE => "Uncomfortable"
  | PAIN => "Pain"
  | SEVERE_PAIN => "Severe pain"
  end.

Definition FrequencyLevel_value (f : FrequencyLevel) : string :=
  match f with
  | NEVER => "Never"
  | SOMETIMES => "Sometimes"
  | OFTEN => "Often"
  | ALWAYS => "Always"
  end.

Definition RiskLevel_value (r : RiskLevel) : string :=
  match r with
  | GREEN => "Green"
  | YELLOW => "Yellow"
  | RED => "Red"
  end.

Definition BodyPartType_value (b : BodyPartType) : string :=
  match b with
  | NECK => "Neck"
  | SHOULDER_LEFT => "Left Shoulder"
  | SHOULDER_RIGHT => "Right Shoulder"
  | ARM_LEFT => "Left Arm"
  | ARM_RIGHT => "Right Arm"
  | ELBOW_LEFT => "Left Elbow"
  | ELBOW_RIGHT => "Right Elbow"
  | WRIST_LEFT => "Left Wrist"
  | WRIST_RIGHT => "Right Wrist"
  | HAND_LEFT => "Left Hand"
  | HAND_RIGHT => "Right Hand"
  | UPPER_BACK => "Upper Back"
  | LOWER_BACK => "Lower Back"
  | HIP_LEFT => "Left Hip"
  | HIP_RIGHT => "Right Hip"
  | THIGH_LEFT => "Left Thigh"
  | THIGH_RIGHT => "Right Thigh"
  | KNEE_LEFT => "Left Knee"
  | KNEE_RIGHT => "Right Knee"
  | ANKLE_LEFT => "Left Ankle"
  | ANKLE_RIGHT => "Right Ankle"
  end.

(** A member seen as the run-time value it is. *)
Definition sev (s : SeverityLevel) : pyval := PyStr (SeverityLevel_value s).
Definition freq (f : FrequencyLevel) : pyval := PyStr (FrequencyLevel_value f).
Definition bpt (b : BodyPartType) : pyval := PyStr (BodyPartType_value b).

Definition all_SeverityLevel : list SeverityLevel :=
  [NO_PROBLEM; UNCOMFORTABLE; PAIN; SEVERE_PAIN].
Definition all_FrequencyLevel : list FrequencyLevel :=
  [NEVER; SOMETIMES; OFTEN; ALWAYS].
Definition all_BodyPartType : list BodyPartType :=
  [NECK; SHOULDER_LEFT; SHOULDER_RIGHT; ARM_LEFT; ARM_RIGHT;
   ELBOW_LEFT; ELBOW_RIGHT; WRIST_LEFT; WRIST_RIGHT;
   HAND_LEFT; HAND_RIGHT; UPPER_BACK; LOWER_BACK;
   HIP_LEFT; HIP_RIGHT; THIGH_LEFT; THIGH_RIGHT;
   KNEE_LEFT; KNEE_RIGHT; ANKLE_LEFT; ANKLE_RIGHT].

(** Membership of the closed enumerations, on run-time values. *)
Definition is_severity (v : pyval) : Prop := exists s, v = sev s.
Definition is_frequency (v : pyval) : Prop := exists f, v = freq f.
Definition is_body_part (v : pyval) : Prop := exists b, v = bpt b.

(** The enumeration call [SeverityLevel(v)] / [FrequencyLevel(v)], as
    [_process_responses] uses it on the survey strings: lookup of the
    member by value, [ValueError] when there is none. *)
Definition enum_call {E} (value : E -> string) (members : list E) (cls : string)
    (v : pyval) : result E :=
  match v with
  | PyStr s =>
      match List.find (fun m => bool_decide (value m = s)) members with
      | Some m => Ok m
      | None => Raise (ValueError cls)
      end
  | _ => Raise (ValueError cls)
  end.

Definition SeverityLevel_call : pyval -> result SeverityLevel :=
  enum_call SeverityLevel_value all_SeverityLevel "SeverityLevel".
Definition FrequencyLevel_call : pyval -> result FrequencyLevel :=
  enum_call FrequencyLevel_value all_FrequencyLevel "FrequencyLevel".

(** ** Dictionaries keyed by enumeration members *)

(** [d.get(key, default)] on a dictionary whose keys are members of a
    [str] enumeration: the key is hashed first, which raises [TypeError]
    on a list, and only a string can be equal to a key. *)
Definition dict_get (d : gmap string Z) (key : pyval) (default_ : Z) : result Z :=
  match key with
  | PyStr s => Ok (default default_ (d !! s))
  | PyList _ => Raise (TypeError "hash")
  | _ => Ok default_
  end.

(** [d[key]] on a dictionary with string keys: [KeyError] when the key
    is missing. *)
Definition dict_getitem (d : gmap string Z) (key : string) : result Z :=
  match d !! key with
  | Some v => Ok v
  | None => Raise (KeyError key)
  end.

(** ** Angle measurements *)

(** A Python [float].  A finite binary64 value is a rational number, and
    Python compares a float with an integer by their exact values, so the
    comparisons of the posture scorer are exact on [Finite q]; infinities
    and NaN compare as IEEE 754 says (every ordered comparison with NaN is
    false). *)
Inductive pyfloat : Type :=
  | Finite (q : Q)
  | PosInf
  | NegInf
  | NaN.

(** [x < n] for a float [x] and an integer literal [n]. *)
Definition float_lt_int (x : pyfloat) (n : Z) : bool :=
  match x with
  | Finite q => negb (Qle_bool (inject_Z n) q)
  | PosInf => false
  | NegInf => true
  | NaN => false
  end.

(** ** RulaCalculationService ([app/services.py]) *)

Definition calculate_rula_score (angles : gmap string pyfloat) (body_part : pyval)
    : result (gmap string Z) :=
  let scores : gmap string Z := ∅ in
  if bool_decide (body_part = bpt NECK) then
    match angles !! "neck_flexion" with
    | Some neck_angle =>
        let scores :=
          if float_lt_int neck_angle 10 then <["position_score" := 1]> scores
          else if float_lt_int neck_angle 20 then <["position_score" := 2]> scores
          else <["position_score" := 3]> scores in
        position_score ← dict_getitem scores "position_score";
        let scores := <["final_score" := position_score]> scores in
        Ok scores
    | None => Ok scores
    end
  else if bool_decide (body_part = bpt ARM_LEFT)
          || bool_decide (body_part = bpt ARM_RIGHT) then
    let arm_key :=
      if bool_decide (body_part = bpt ARM_LEFT)
      then "left_upper_arm" else "right_upper_arm" in
    match angles !! arm_key with
    | Some arm_angle =>
        let scores :=
          if float_lt_int arm_angle 20 then <["position_score" := 1]> scores
          else if float_lt_int arm_angle 45 then <["position_score" := 2]> scores
          else if float_lt_int arm_angle 90 then <["position_score" := 3]> scores
          else <["position_score" := 4]> scores in
        position_score ← dict_getitem scores "position_score";
        let scores := <["final_score" := position_score]> scores in
        Ok scores
    | None => Ok scores
    end
  else if bool_decide (body_part = bpt UPPER_BACK) then
    match angles !! "trunk_flexion" with
    | Some trunk_angle =>
        let scores :=
          if float_lt_int trunk_angle 5 then <["position_score" := 1]> scores
          else if float_lt_int trunk_angle 20 then <["position_score" := 2]> scores
          else if float_lt_int trunk_angle 60 then <["position_score" := 3]> scores
          else <["position_score" := 4]> scores in
        position_score ← dict_getitem scores "position_score";
        let scores := <["final_score" := position_score]> scores in
        Ok scores
    | None => Ok scores
    end
  else
    (* Default scoring for other body parts *)
    let scores := <["position_score" := 2]> scores in
    let scores := <["final_score" := 2]> scores in
    Ok scores.

Definition get_risk_level_from_rula_score (rula_score : Z) : RiskLevel :=
  if rula_score <=? 2 then GREEN
  else if rula_score <=? 4 then YELLOW
  else RED.

(** ** GotrakService ([app/services.py]) *)

Definition severity_scores : gmap string Z :=
  list_to_map
    [ (SeverityLevel_value NO_PROBLEM, 1);
      (SeverityLevel_value UNCOMFORTABLE, 2);
      (SeverityLevel_value PAIN, 3);
      (SeverityLevel_value SEVERE_PAIN, 4) ].

Definition frequency_scores : gmap string Z :=
  list_to_map
    [ (FrequencyLevel_value NEVER, 1);
      (FrequencyLevel_value SOMETIMES, 2);
      (FrequencyLevel_value OFTEN, 3);
      (FrequencyLevel_value ALWAYS, 4) ].

Definition calculate_gotrak_score (severity frequency : pyval) : result Z :=
  severity_score ← dict_get severity_scores severity 1;
  frequency_score ← dict_get frequency_scores frequency 1;
  Ok (severity_score * frequency_score).

Definition get_gotrak_risk_level (gotrak_score : Z) : RiskLevel :=
  if gotrak_score <=? 4 then GREEN
  else if gotrak_score =? 6 then YELLOW
  else RED.

(** ** The risk classifiers on a value of any kind *)

(** [value <= n] for an integer literal [n]: [None], a string (a member
    of an enumeration included) and a list are not ordered against an
    integer. *)
Definition py_le_int (value : pyval) (n : Z) : result bool :=
  match value with
  | PyInt z => Ok (z <=? n)
  | _ => Raise (TypeError "<=")
  end.

(** [value == n] for an integer literal [n]: it never raises. *)
Definition py_eq_int (value : pyval) (n : Z) : bool :=
  bool_decide (value = PyInt n).

(** [get_gotrak_risk_level] and [get_risk_level_from_rula_score] as they
    run on whatever they are handed. *)
Definition get_gotrak_risk_level_untyped (gotrak_score : pyval) : result RiskLevel :=
  le_4 ← py_le_int gotrak_score 4;
  if le_4 : bool then Ok GREEN
  else if py_eq_int gotrak_score 6 then Ok YELLOW
  else Ok RED.

Definition get_risk_level_from_rula_score_untyped (rula_score : pyval)
    : result RiskLevel :=
  le_2 ← py_le_int rula_score 2;
  if le_2 : bool then Ok GREEN
  else
    le_4 ← py_le_int rula_score 4;
    if le_4 : bool then Ok YELLOW
    else Ok RED.

(** ** Decimal arithmetic *)

(** Python's [decimal.Decimal] in the default context, which the
    application never changes: precision 28, rounding ROUND_HALF_EVEN.
    A finite decimal is modelled by its value, a canonical rational; the
    constructor is exact, and every arithmetic operation returns the exact
    result rounded to the context precision.  Exponent limits (beyond
    10^999999) are out of reach of the scores handled here. *)
Module Decimal.

Definition t : Type := Qc.

Definition prec : Z := 28.

(** [Decimal(str(n))] for an integer [n]. *)
Definition of_int (n : Z) : t := Qc_of_Z n.

Fixpoint ndigits_fuel (fuel : nat) (n : Z) : Z :=
  match fuel with
  | O => 1
  | S fuel' => if n <? 10 then 1 else 1 + ndigits_fuel fuel' (n / 10)
  end.

(** Number of decimal digits of a positive integer. *)
Definition ndigits (n : Z) : Z := ndigits_fuel (Z.to_nat (Z.log2 n)) n.

(** Whether [num / den >= 10 ^ e], for positive [num] and [den]. *)
Definition ge_pow10 (num den e : Z) : bool :=
  if 0 <=? e then den * 10 ^ e <=? num else den <=? num * 10 ^ (- e).

(** The adjusted exponent of [num / den]: the exponent of its leading
    digit, floor (log10 (num / den)). *)
Definition adjusted (num den : Z) : Z :=
  let e := ndigits num - ndigits den in
  if ge_pow10 num den e then e else e - 1.

(** [num / den] rounded to the nearest integer, ties to even. *)
Definition round_half_even (num den : Z) : Z :=
  let q := num / den in
  let r := num mod den in
  match 2 * r ?= den with
  | Lt => q
  | Gt => q + 1
  | Eq => if Z.even q then q else q + 1
  end.

Definition pow10 (e : Z) : Qc :=
  if 0 <=? e then Qc_of_Z (10 ^ e) else (/ Qc_of_Z (10 ^ (- e)))%Qc.

(** Rounding of an exact result to [prec] significant digits. *)
Definition fix_ (x : Qc) : t :=
  let num := Z.abs (Qnum x) in
  let den := Z.pos (Qden x) in
  if num =? 0 then x
  else
    let s := adjusted num den - prec + 1 in
    let c :=
      if 0 <=? s then round_half_even num (den * 10 ^ s)
      else round_half_even (num * 10 ^ (- s)) den in
    (Qc_of_Z (Z.sgn (Qnum x) * c) * pow10 s)%Qc.

Definition add (a b : t) : t := fix_ (a + b)%Qc.
Definition div (a b : t) : t := fix_ (a / b)%Qc.

(** The builtin [sum] over decimals: it starts from the integer 0. *)
Definition sum (l : list t) : t := fold_left add l (of_int 0).

End Decimal.

(** ** Stored records ([app/models.py]) *)

(** A row of the [body_part_assessments] table.  The primary key is
    [id_] (the source's [id]); the two timestamps play no part in the
    scoring and are left out. *)
Record BodyPartAssessment : Type := {
  id_ : option Z;
  assessment_id : Z;
  body_part : BodyPartType;
  rula_score : option Decimal.t;
  angle_measurements : gmap string pyfloat;
  severity_level : option SeverityLevel;
  frequency_level : option FrequencyLevel;
  gotrak_risk_level : option RiskLevel;
  gotrak_score : option Z;
  additional_notes : string
}.

(** The table, rows in insertion order. *)
Definition Store : Type := list BodyPartAssessment.

(** What [session.add], [session.commit] and [session.refresh] do to a
    new row: it is stored with the next primary key and read back. *)
Definition session_refresh (db : Store) (row : BodyPartAssessment) : BodyPartAssessment :=
  {| id_ := Some (Z.of_nat (length db) + 1);
     assessment_id := row.(assessment_id);
     body_part := row.(body_part);
     rula_score := row.(rula_score);
     angle_measurements := row.(angle_measurements);
     severity_level := row.(severity_level);
     frequency_level := row.(frequency_level);
     gotrak_risk_level := row.(gotrak_risk_level);
     gotrak_score := row.(gotrak_score);
     additional_notes := row.(additional_notes) |}.

(** ** BodyPartAssessmentService ([app/services.py]) *)

Definition create_body_part_assessment (db : Store) (assessment_id : Z)
    (body_part : BodyPartType) (angles : gmap string pyfloat)
    (severity : SeverityLevel) (frequency : FrequencyLevel)
    : result (Store * BodyPartAssessment) :=
  (* Calculate RULA score *)
  rula_data ← calculate_rula_score angles (bpt body_part);
  let rula_score := Decimal.of_int (default 2 (rula_data !! "final_score")) in
  (* Calculate GOTRAK score and risk level *)
  gotrak_score ← calculate_gotrak_score (sev severity) (freq frequency);
  let gotrak_risk_level := get_gotrak_risk_level gotrak_score in
  let body_part_assessment :=
    {| id_ := None;
       assessment_id := assessment_id;
       body_part := body_part;
       rula_score := Some rula_score;
       angle_measurements := angles;
       severity_level := Some severity;
       frequency_level := Some frequency;
       gotrak_risk_level := Some gotrak_risk_level;
       gotrak_score := Some gotrak_score;
       additional_notes := "" |} in
  (* session.add, session.commit, session.refresh *)
  let body_part_assessment := session_refresh db body_part_assessment in
  Ok ((db ++ [body_part_assessment])%list, body_part_assessment).

Definition get_assessment_body_parts (db : Store) (assessment_id_ : Z)
    : list BodyPartAssessment :=
  List.filter (fun row => bool_decide (row.(assessment_id) = assessment_id_)) db.

(** ** GotrakQuestionnaireComponent ([app/questionnaire.py]) *)

(** The builtin [sum] over integers. *)
Definition py_sum (l : list Z) : Z := fold_left Z.add l 0.

(** [not self.assessment_id] for an [Optional[int]]: [None] and 0 are
    falsy. *)
Definition not_assessment_id (assessment_id : option Z) : bool :=
  match assessment_id with
  | None => true
  | Some n => n =? 0
  end.

Definition _calculate_overall_scores (self_assessment_id : option Z) (db : Store)
    : Decimal.t * RiskLevel :=
  if not_assessment_id self_assessment_id then (Decimal.of_int 2, GREEN)
  else
    (* Get all body part assessments *)
    let body_parts := get_assessment_body_parts db (default 0 self_assessment_id) in
    match body_parts with
    | [] => (Decimal.of_int 2, GREEN)
    | _ =>
        (* Calculate average RULA score *)
        let rula_scores := omap rula_score body_parts in
        let avg_rula :=
          match rula_scores with
          | _ :: _ =>
              Decimal.div (Decimal.sum rula_scores)
                          (Decimal.of_int (Z.of_nat (length rula_scores)))
          | [] => Decimal.of_int 2
          end in
        (* Determine overall risk level *)
        let high_risk_count :=
          py_sum (map (fun _ => 1)
            (List.filter (fun bp => bool_decide (bp.(gotrak_risk_level) = Some RED))
                         body_parts)) in
        let moderate_risk_count :=
          py_sum (map (fun _ => 1)
            (List.filter (fun bp => bool_decide (bp.(gotrak_risk_level) = Some YELLOW))
                         body_parts)) in
        let overall_risk :=
          if 0 <? high_risk_count then RED
          else if 1 <? moderate_risk_count then YELLOW
          else GREEN in
        (* Decimal(str(avg_rula)) reads back the decimal it prints *)
        (avg_rula, overall_risk)
    end.

(** ** Reference definitions, following the specification's wording *)

(** rank(no-problem)=1, rank(uncomfortable)=2, rank(pain)=3,
    rank(severe-pain)=4. *)
Definition rank_severity (s : SeverityLevel) : Z :=
  match s with
  | NO_PROBLEM => 1
  | UNCOMFORTABLE => 2
  | PAIN => 3
  | SEVERE_PAIN => 4
  end.

(** rank(never)=1, rank(sometimes)=2, rank(often)=3, rank(always)=4. *)
Definition rank_frequency (f : FrequencyLevel) : Z :=
  match f with
  | NEVER => 1
  | SOMETIMES => 2
  | OFTEN => 3
  | ALWAYS => 4
  end.

(** The total order green < yellow < red. *)
Definition risk_rank (r : RiskLevel) : Z :=
  match r with
  | GREEN => 0
  | YELLOW => 1
  | RED => 2
  end.

Definition risk_le (a b : RiskLevel) : Prop := risk_rank a <= risk_rank b.

Definition risk_max (a b : RiskLevel) : RiskLevel :=
  if risk_rank a <=? risk_rank b then b else a.

(** The discomfort classifications a sequence of body parts supplies. *)
Definition discomfort_levels (body_parts : list BodyPartAssessment) : list RiskLevel :=
  omap gotrak_risk_level body_parts.

(** How many of them are at a given level. *)
Definition count_level (r : RiskLevel) (body_parts : list BodyPartAssessment) : nat :=
  count_occ RiskLevel_eq_dec (discomfort_levels body_parts) r.

(** The highest of them (green when there is none). *)
Definition max_level (body_parts : list BodyPartAssessment) : RiskLevel :=
  fold_right risk_max GREEN (discomfort_levels body_parts).

(** The precedence rule: any red dominates, otherwise more than one
    yellow gives yellow, otherwise green. *)
Definition precedence_rule (high moderate : nat) : RiskLevel :=
  match high, moderate with
  | S _, _ => RED
  | O, S (S _) => YELLOW
  | O, _ => GREEN
  end.

(** The arithmetic mean of a list of integer posture scores, exactly. *)
Definition total (ks : list Z) : Z := fold_right Z.add 0 ks.

Definition mean (ks : list Z) : Qc :=
  (Qc_of_Z (total ks) / Qc_of_Z (Z.of_nat (length ks)))%Qc.

(** A stored row of session [aid] with the given posture score and
    discomfort level, every other field empty. *)
Definition row_of (aid : Z) (score : option Z) (level : option RiskLevel)
    : BodyPartAssessment :=
  {| id_ := None;
     assessment_id := aid;
     body_part := NECK;
     rula_score := Decimal.of_int <$> score;
     angle_measurements := ∅;
     severity_level := None;
     frequency_level := None;
     gotrak_risk_level := level;
     gotrak_score := None;
     additional_notes := "" |}.

(** Score of a measurement against an increasing list of upper bounds:
    the lowest tier whose bound the angle is below, the final tier
    catching everything above. *)
Fixpoint tier_score (bounds : list Z) (angle : pyfloat) : Z :=
  match bounds with
  | [] => 1
  | b :: rest => if float_lt_int angle b then 1 else 1 + tier_score rest angle
  end.

(** The threshold tables: the measurement key of a body part and its
    upper bounds.  Neck: <10, <20; left and right arm: <20, <45, <90;
    upper back: <5, <20, <60; no table for any other body part. *)
Definition posture_table (b : BodyPartType) : option (string * list Z) :=
  match b with
  | NECK => Some ("neck_flexion", [10; 20])
  | ARM_LEFT => Some ("left_upper_arm", [20; 45; 90])
  | ARM_RIGHT => Some ("right_upper_arm", [20; 45; 90])
  | UPPER_BACK => Some ("trunk_flexion", [5; 20; 60])
  | _ => None
  end.

(** [score_posture]: absent when the key of the body part's table is
    missing from the angles, the fixed default 2 without a table. *)
Definition score_posture (angles : gmap string pyfloat) (b : BodyPartType) : option Z :=
  match posture_table b with
  | Some (key, bounds) => tier_score bounds <$> angles !! key
  | None => Some 2
  end.

(** The final score the posture scorer reports, if any. *)
Definition final_score (angles : gmap string pyfloat) (body_part : pyval)
    : result (option Z) :=
  scores ← calculate_rula_score angles body_part;
  mret (scores !! "final_score").

(** The double nearest to 9.999, exactly. *)
Definition float_9_999 : pyfloat := Finite (5628936584259699 # 562949953421312).

(** ** More of the enumerations ([app/models.py]) *)

(** The enumeration call [BodyPartType(v)]. *)
Definition BodyPartType_call : pyval -> result BodyPartType :=
  enum_call BodyPartType_value all_BodyPartType "BodyPartType".

(** The name of a member, [member.name]. *)
Definition BodyPartType_name (b : BodyPartType) : string :=
  match b with
  | NECK => "NECK"
  | SHOULDER_LEFT => "SHOULDER_LEFT"
  | SHOULDER_RIGHT => "SHOULDER_RIGHT"
  | ARM_LEFT => "ARM_LEFT"
  | ARM_RIGHT => "ARM_RIGHT"
  | ELBOW_LEFT => "ELBOW_LEFT"
  | ELBOW_RIGHT => "ELBOW_RIGHT"
  | WRIST_LEFT => "WRIST_LEFT"
  | WRIST_RIGHT => "WRIST_RIGHT"
  | HAND_LEFT => "HAND_LEFT"
  | HAND_RIGHT => "HAND_RIGHT"
  | UPPER_BACK => "UPPER_BACK"
  | LOWER_BACK => "LOWER_BACK"
  | HIP_LEFT => "HIP_LEFT"
  | HIP_RIGHT => "HIP_RIGHT"
  | THIGH_LEFT => "THIGH_LEFT"
  | THIGH_RIGHT => "THIGH_RIGHT"
  | KNEE_LEFT => "KNEE_LEFT"
  | KNEE_RIGHT => "KNEE_RIGHT"
  | ANKLE_LEFT => "ANKLE_LEFT"
  | ANKLE_RIGHT => "ANKLE_RIGHT"
  end.

(** ** Assessments ([app/models.py], [AssessmentService]) *)

(** A row of the [assessments] table, timestamps left out. *)
Module Assessment.
Record t : Type := {
  id_ : option Z;
  user_id : Z;
  session_name : string;
  overall_rula_score : option Decimal.t;
  overall_risk_level : option RiskLevel;
  notes : string;
  is_completed : bool
}.
End Assessment.

(** [AssessmentService.create_assessment]: the row is built from the
    [AssessmentCreate] fields, stored with the next primary key and read
    back. *)
Definition create_assessment (tbl : list Assessment.t)
    (user_id : Z) (session_name notes : string)
    : list Assessment.t * Assessment.t :=
  let assessment :=
    {| Assessment.id_ := Some (Z.of_nat (length tbl) + 1);
       Assessment.user_id := user_id;
       Assessment.session_name := session_name;
       Assessment.overall_rula_score := None;
       Assessment.overall_risk_level := None;
       Assessment.notes := notes;
       Assessment.is_completed := false |} in
  ((tbl ++ [assessment])%list, assessment).

(** [session.get(Assessment, assessment_id)]: lookup by primary key. *)
Definition get_assessment (tbl : list Assessment.t) (assessment_id : Z)
    : option Assessment.t :=
  List.find (fun a => bool_decide (a.(Assessment.id_) = Some assessment_id)) tbl.

Definition get_user_assessments (tbl : list Assessment.t) (user_id : Z)
    : list Assessment.t :=
  List.filter (fun a => bool_decide (a.(Assessment.user_id) = user_id)) tbl.

(** Writing back the row fetched by [get_assessment]: the first row with
    that key is replaced. *)
Fixpoint store_assessment (tbl : list Assessment.t) (assessment_id : Z)
    (row : Assessment.t) : list Assessment.t :=
  match tbl with
  | [] => []
  | a :: rest =>
      if bool_decide (a.(Assessment.id_) = Some assessment_id) then row :: rest
      else a :: store_assessment rest assessment_id row
  end.

Definition complete_assessment (tbl : list Assessment.t) (assessment_id : Z)
    (overall_rula_score : Decimal.t) (overall_risk_level : RiskLevel)
    : list Assessment.t * option Assessment.t :=
  match get_assessment tbl assessment_id with
  | None => (tbl, None)
  | Some assessment =>
      let assessment :=
        {| Assessment.id_ := assessment.(Assessment.id_);
           Assessment.user_id := assessment.(Assessment.user_id);
           Assessment.session_name := assessment.(Assessment.session_name);
           Assessment.overall_rula_score := Some overall_rula_score;
           Assessment.overall_risk_level := Some overall_risk_level;
           Assessment.notes := assessment.(Assessment.notes);
           Assessment.is_completed := true |} in
      (store_assessment tbl assessment_id assessment, Some assessment)
  end.

(** ** Risk information of a body part ([BodyPartAssessmentService]) *)

Module BodyPartRiskInfo.
Record t : Type := {
  body_part_name : string;
  rula_score : option Decimal.t;
  severity_level : option SeverityLevel;
  frequency_level : option FrequencyLevel;
  gotrak_risk_level : option RiskLevel;
  gotrak_score : option Z;
  additional_notes : string
}.
End BodyPartRiskInfo.

(** The [BodyPartRiskInfo(...)] both readers build from a stored row. *)
Definition risk_info_of (bp : BodyPartAssessment) : BodyPartRiskInfo.t :=
  {| BodyPartRiskInfo.body_part_name := BodyPartType_value bp.(body_part);
     BodyPartRiskInfo.rula_score := bp.(rula_score);
     BodyPartRiskInfo.severity_level := bp.(severity_level);
     BodyPartRiskInfo.frequency_level := bp.(frequency_level);
     BodyPartRiskInfo.gotrak_risk_level := bp.(gotrak_risk_level);
     BodyPartRiskInfo.gotrak_score := bp.(gotrak_score);
     BodyPartRiskInfo.additional_notes := bp.(additional_notes) |}.

(** [get_body_part_risk_info]: the first row of that assessment and body
    part, if any. *)
Definition get_body_part_risk_info (db : Store) (assessment_id_ : Z)
    (body_part_ : BodyPartType) : option BodyPartRiskInfo.t :=
  match
    List.find (fun row => bool_decide (row.(assessment_id) = assessment_id_)
                          && bool_decide (row.(body_part) = body_part_)) db
  with
  | None => None
  | Some body_part_assessment => Some (risk_info_of body_part_assessment)
  end.

(** ** The survey questions ([GotrakService.get_default_questions]) *)

Module Question.
Record t : Type := {
  question_text : string;
  question_category : string;
  body_part : option BodyPartType;
  question_order : Z
}.
End Question.

Definition get_default_questions : list Question.t :=
  [ {| Question.question_text := "How often do you experience discomfort in your neck?";
       Question.question_category := "frequency";
       Question.body_part := Some NECK;
       Question.question_order := 1 |};
    {| Question.question_text := "How severe is the discomfort in your neck?";
       Question.question_category := "severity";
       Question.body_part := Some NECK;
       Question.question_order := 2 |};
    {| Question.question_text := "How often do you experience discomfort in your shoulders?";
       Question.question_category := "frequency";
       Question.body_part := Some SHOULDER_LEFT;
       Question.question_order := 3 |};
    {| Question.question_text := "How severe is the discomfort in your shoulders?";
       Question.question_category := "severity";
       Question.body_part := Some SHOULDER_LEFT;
       Question.question_order := 4 |};
    {| Question.question_text := "How often do you experience discomfort in your upper back?";
       Question.question_category := "frequency";
       Question.body_part := Some UPPER_BACK;
       Question.question_order := 5 |};
    {| Question.question_text := "How severe is the discomfort in your upper back?";
       Question.question_category := "severity";
       Question.body_part := Some UPPER_BACK;
       Question.question_order := 6 |};
    {| Question.question_text := "How often do you experience discomfort in your lower back?";
       Question.question_category := "frequency";
       Question.body_part := Some LOWER_BACK;
       Question.question_order := 7 |};
    {| Question.question_text := "How severe is the discomfort in your lower back?";
       Question.question_category := "severity";
       Question.body_part := Some LOWER_BACK;
       Question.question_order := 8 |} ].

(** ** The capture component ([WebcamCaptureComponent], [app/webcam_capture.py]) *)

(** What [PostureAnalysisService.analyze_posture] returns: a dictionary
    with the key [pose_detected] and, on success, the key [angles] (the
    constant landmarks are left out). *)
Module Analysis.
Record t : Type := {
  pose_detected : bool;
  angles : option (gmap string pyfloat);
  error : option string
}.
End Analysis.

Module WebcamCaptureComponent.
Record t : Type := {
  user_id : Z;
  assessment_id : option Z;
  latest_analysis : option Analysis.t
}.

Definition get_latest_analysis (self : t) : option Analysis.t :=
  self.(latest_analysis).
End WebcamCaptureComponent.

(** [x > n] for a float [x] and an integer literal [n]. *)
Definition float_gt_int (x : pyfloat) (n : Z) : bool :=
  match x with
  | Finite q => negb (Qle_bool q (inject_Z n))
  | PosInf => true
  | NegInf => false
  | NaN => false
  end.

(** [angles.get(key, 0)]. *)
Definition angles_get (angles : gmap string pyfloat) (key : string) : pyfloat :=
  default (Finite 0) (angles !! key).

(** The simple risk assessment of [_update_analysis_results]: the
    warnings listed under the measured angles. *)
Definition risk_items (angles : gmap string pyfloat) : list string :=
  let risk_items : list string := [] in
  let risk_items :=
    if float_gt_int (angles_get angles "neck_flexion") 20
    then (risk_items ++ ["Neck forward posture detected"])%list else risk_items in
  let risk_items :=
    if float_gt_int (angles_get angles "trunk_flexion") 15
    then (risk_items ++ ["Forward trunk lean detected"])%list else risk_items in
  let risk_items :=
    if existsb (fun side => float_gt_int (angles_get angles (side +:+ "_upper_arm")) 45)
               ["left"; "right"]
    then (risk_items ++ ["Elevated arm posture detected"])%list else risk_items in
  risk_items.

(** ** The questionnaire ([GotrakQuestionnaireComponent], [app/questionnaire.py]) *)

(** [l[i]] on a Python list: a negative index counts from the end;
    [None] stands for IndexError. *)
Definition list_getitem {A} (l : list A) (i : Z) : option A :=
  let n := Z.of_nat (length l) in
  let j := if i <? 0 then i + n else i in
  if (0 <=? j) && (j <? n) then l !! Z.to_nat j else None.

(** [enumerate(l)]. *)
Definition enumerate {A} (l : list A) : list (Z * A) :=
  imap (fun i x => (Z.of_nat i, x)) l.

(** The key of the [i]-th question, [f"q_{i}"]. *)
Definition question_key (i : Z) : string := "q_" +:+ pretty i.

(** What [_complete_assessment] tells the user. *)
Inductive Outcome : Type :=
  | NoAssessment                 (* "Error: No assessment found" *)
  | Completed (assessment_id : Z) (* "Assessment completed successfully!" *)
  | Failed (e : pyexn).          (* "Error completing assessment: ..." *)

Module GotrakQuestionnaireComponent.

(** The component: its attributes, the question shown in the question
    container and the visibility of the three navigation buttons (the
    progress bar and the rendering of the widgets are left out). *)
Record t : Type := {
  user_id : Z;
  assessment_id : option Z;
  responses : gmap string (gmap string string);
  current_question_index : Z;
  questions : list Question.t;
  question_container : option Question.t;
  prev_btn : bool;
  next_btn : bool;
  finish_btn : bool
}.

Definition set_assessment_id (self : t) (v : option Z) : t :=
  {| user_id := self.(user_id); assessment_id := v;
     responses := self.(responses);
     current_question_index := self.(current_question_index);
     questions := self.(questions);
     question_container := self.(question_container);
     prev_btn := self.(prev_btn); next_btn := self.(next_btn);
     finish_btn := self.(finish_btn) |}.

Definition set_responses (self : t) (v : gmap string (gmap string string)) : t :=
  {| user_id := self.(user_id); assessment_id := self.(assessment_id);
     responses := v;
     current_question_index := self.(current_question_index);
     questions := self.(questions);
     question_container := self.(question_container);
     prev_btn := self.(prev_btn); next_btn := self.(next_btn);
     finish_btn := self.(finish_btn) |}.

Definition set_current_question_index (self : t) (v : Z) : t :=
  {| user_id := self.(user_id); assessment_id := self.(assessment_id);
     responses := self.(responses);
     current_question_index := v;
     questions := self.(questions);
     question_container := self.(question_container);
     prev_btn := self.(prev_btn); next_btn := self.(next_btn);
     finish_btn := self.(finish_btn) |}.

Definition set_question_container (self : t) (v : option Question.t) : t :=
  {| user_id := self.(user_id); assessment_id := self.(assessment_id);
     responses := self.(responses);
     current_question_index := self.(current_question_index);
     questions := self.(questions);
     question_container := v;
     prev_btn := self.(prev_btn); next_btn := self.(next_btn);
     finish_btn := self.(finish_btn) |}.

Definition set_buttons (self : t) (prev next finish : bool) : t :=
  {| user_id := self.(user_id); assessment_id := self.(assessment_id);
     responses := self.(responses);
     current_question_index := self.(current_question_index);
     questions := self.(questions);
     question_container := self.(question_container);
     prev_btn := prev; next_btn := next; finish_btn := finish |}.

Definition __init__ (user_id : Z) : t :=
  {| user_id := user_id;
     assessment_id := None;
     responses := ∅;
     current_question_index := 0;
     questions := get_default_questions;
     question_container := None;
     prev_btn := true; next_btn := true; finish_btn := true |}.

Definition _create_assessment (self : t) (tbl : list Assessment.t)
    (session_timestamp : option string) : list Assessment.t * t :=
  let session_name :=
    "GOTRAK Assessment - " +:+ default "Unknown" session_timestamp in
  let '(tbl, assessment) := create_assessment tbl self.(user_id) session_name "" in
  match assessment.(Assessment.id_) with
  | Some id => (tbl, set_assessment_id self (Some id))
  | None => (tbl, self)
  end.

Definition _show_current_question (self : t) : option t :=
  if Z.of_nat (length self.(questions)) <=? self.(current_question_index) then Some self
  else
    question ← list_getitem self.(questions) self.(current_question_index);
    Some (set_question_container self (Some question)).

Definition _is_current_question_answered (self : t) : option bool :=
  let question_key := question_key self.(current_question_index) in
  question ← list_getitem self.(questions) self.(current_question_index);
  let response := default ∅ (self.(responses) !! question_key) in
  if String.eqb question.(Question.question_category) "frequency"
  then Some (bool_decide (is_Some (response !! "frequency")))
  else if String.eqb question.(Question.question_category) "severity"
  then Some (bool_decide (is_Some (response !! "severity")))
  else Some false.

Definition _are_all_questions_answered (self : t) : bool :=
  forallb
    (fun '(i, question) =>
       let question_key := question_key i in
       let response := default ∅ (self.(responses) !! question_key) in
       if String.eqb question.(Question.question_category) "frequency"
          && negb (bool_decide (is_Some (response !! "frequency")))
       then false
       else if String.eqb question.(Question.question_category) "severity"
               && negb (bool_decide (is_Some (response !! "severity")))
       then false
       else true)
    (enumerate self.(questions)).

Definition _update_navigation (self : t) : option t :=
  (* Previous button *)
  let prev := 0 <? self.(current_question_index) in
  (* Next button *)
  current_question_answered ← _is_current_question_answered self;
  let is_last_question :=
    Z.of_nat (length self.(questions)) - 1 <=? self.(current_question_index) in
  let next := current_question_answered && negb is_last_question in
  (* Finish button *)
  let all_questions_answered := _are_all_questions_answered self in
  Some (set_buttons self prev next all_questions_answered).

Definition create (self : t) (tbl : list Assessment.t)
    (session_timestamp : option string) : option (list Assessment.t * t) :=
  let '(tbl, self) := _create_assessment self tbl session_timestamp in
  self ← _show_current_question self;
  self ← _update_navigation self;
  Some (tbl, self).

Definition _save_response (self : t) (question_key response_type value : string)
    : option t :=
  let responses :=
    match self.(responses) !! question_key with
    | Some _ => self.(responses)
    | None => <[question_key := ∅]> self.(responses)
    end in
  let responses :=
    <[question_key := <[response_type := value]> (default ∅ (responses !! question_key))]>
      responses in
  _update_navigation (set_responses self responses).

Definition _previous_question (self : t) : option t :=
  if 0 <? self.(current_question_index) then
    let self := set_current_question_index self (self.(current_question_index) - 1) in
    self ← _show_current_question self;
    _update_navigation self
  else Some self.

Definition _next_question (self : t) : option t :=
  if self.(current_question_index) <? Z.of_nat (length self.(questions)) - 1 then
    let self := set_current_question_index self (self.(current_question_index) + 1) in
    self ← _show_current_question self;
    _update_navigation self
  else Some self.

(** The grouping dictionary of [_process_responses]: body part to the
    answers collected for it, in insertion order. *)
Definition grouped : Type := list (BodyPartType * gmap string pyval).

(** [body_part in d]. *)
Definition grouped_mem (d : grouped) (k : BodyPartType) : bool :=
  existsb (fun '(k', _) => bool_decide (k' = k)) d.

(** [d[k][field] = v] for a key already in [d]. *)
Fixpoint grouped_set (d : grouped) (k : BodyPartType) (field : string) (v : pyval)
    : grouped :=
  match d with
  | [] => []
  | (k', m) :: rest =>
      if bool_decide (k' = k) then (k', <[field := v]> m) :: rest
      else (k', m) :: grouped_set rest k field v
  end.

(** [response.get(field)]. *)
Definition response_get (response : gmap string string) (field : string) : pyval :=
  match response !! field with
  | Some s => PyStr s
  | None => PyNone
  end.

(** First loop of [_process_responses]: group responses by body part. *)
Definition group_responses (self : t) : grouped :=
  foldl
    (fun (body_part_responses : grouped) '(i, question) =>
       let question_key := question_key i in
       let response := default ∅ (self.(responses) !! question_key) in
       match question.(Question.body_part) with
       | Some body_part =>
           if negb (bool_decide (response = ∅)) then
             let body_part_responses :=
               if grouped_mem body_part_responses body_part then body_part_responses
               else (body_part_responses ++ [(body_part, ∅)])%list in
             if String.eqb question.(Question.question_category) "frequency" then
               grouped_set body_part_responses body_part "frequency"
                           (response_get response "frequency")
             else if String.eqb question.(Question.question_category) "severity" then
               grouped_set body_part_responses body_part "severity"
                           (response_get response "severity")
             else body_part_responses
           else body_part_responses
       | None => body_part_responses
       end)
    [] (enumerate self.(questions)).

(** The angles handed to the body-part aggregator: those of the latest
    analysis of the capture component, if there is one. *)
Definition latest_angles (webcam_component : option WebcamCaptureComponent.t)
    : gmap string pyfloat :=
  let latest_analysis :=
    match webcam_component with
    | Some c => WebcamCaptureComponent.get_latest_analysis c
    | None => None
    end in
  match latest_analysis with
  | Some a => default ∅ a.(Analysis.angles)
  | None => ∅
  end.

(** Second loop of [_process_responses]: one stored row per body part
    with both answers.  An exception leaves the rows stored so far. *)
Fixpoint create_assessments (items : grouped) (assessment_id : Z)
    (angles : gmap string pyfloat) (db : Store) : Store * result unit :=
  match items with
  | [] => (db, Ok ())
  | (body_part, responses) :: rest =>
      match responses !! "severity", responses !! "frequency" with
      | Some severity_value, Some frequency_value =>
          match SeverityLevel_call severity_value with
          | Raise e => (db, Raise e)
          | Ok severity =>
              match FrequencyLevel_call frequency_value with
              | Raise e => (db, Raise e)
              | Ok frequency =>
                  match create_body_part_assessment db assessment_id body_part
                          angles severity frequency with
                  | Raise e => (db, Raise e)
                  | Ok (db, _) => create_assessments rest assessment_id angles db
                  end
              end
          end
      | _, _ => create_assessments rest assessment_id angles db
      end
  end.

Definition _process_responses (self : t)
    (webcam_component : option WebcamCaptureComponent.t) (db : Store)
    : Store * result unit :=
  if not_assessment_id self.(assessment_id) then (db, Ok ())
  else
    (* Group responses by body part *)
    let body_part_responses := group_responses self in
    (* Create body part assessments *)
    let angles := latest_angles webcam_component in
    create_assessments body_part_responses (default 0 self.(assessment_id)) angles db.

Definition _complete_assessment (self : t)
    (webcam_component : option WebcamCaptureComponent.t)
    (tbl : list Assessment.t) (db : Store)
    : list Assessment.t * Store * Outcome :=
  if not_assessment_id self.(assessment_id) then (tbl, db, NoAssessment)
  else
    (* Process responses and create body part assessments *)
    match _process_responses self webcam_component db with
    | (db, Raise e) => (tbl, db, Failed e)
    | (db, Ok _) =>
        (* Calculate overall scores *)
        let '(overall_rula, overall_risk) :=
          _calculate_overall_scores self.(assessment_id) db in
        (* Complete the assessment *)
        let '(tbl, _) :=
          complete_assessment tbl (default 0 self.(assessment_id))
                              overall_rula overall_risk in
        (tbl, db, Completed (default 0 self.(assessment_id)))
    end.

End GotrakQuestionnaireComponent.

(** ** The body map ([InteractiveBodyMap], [app/body_map.py]) *)

(** What the information panel shows for a body part: with data, the
    header, the background class of the risk card, the text of its label
    and the colour class of that label, and the recommendations (the
    detail rows are left out); without data, the header alone. *)
Inductive Panel : Type :=
  | PanelInfo (header risk_bg label label_color : string)
              (recommendations : list string)
  | PanelNoData (header : string).

Module InteractiveBodyMap.

Record t : Type := {
  assessment_id : Z;
  selected_body_part : option BodyPartType;
  body_part_data : gmap string BodyPartRiskInfo.t
}.

(** [self.body_part_data[bp.body_part] = risk_info]; the dictionary is
    keyed by members, that is by their values. *)
Definition set_body_part_data (self : t) (bp : BodyPartAssessment) : t :=
  {| assessment_id := self.(assessment_id);
     selected_body_part := self.(selected_body_part);
     body_part_data :=
       <[BodyPartType_value bp.(body_part) := risk_info_of bp]> self.(body_part_data) |}.

Definition _load_body_part_data (self : t) (db : Store) : t :=
  let body_parts := get_assessment_body_parts db self.(assessment_id) in
  foldl set_body_part_data self body_parts.

Definition __init__ (assessment_id : Z) (db : Store) : t :=
  _load_body_part_data
    {| assessment_id := assessment_id;
       selected_body_part := None;
       body_part_data := ∅ |} db.

(** The class [_update_body_map_colors] adds to the element of a body
    part. *)
Definition risk_class (risk_info : BodyPartRiskInfo.t) : string :=
  if bool_decide (risk_info.(BodyPartRiskInfo.gotrak_risk_level) = Some YELLOW)
  then "risk-yellow"
  else if bool_decide (risk_info.(BodyPartRiskInfo.gotrak_risk_level) = Some RED)
  then "risk-red"
  else "risk-green".

Definition _update_body_map_colors (self : t) : gmap string string :=
  risk_class <$> self.(body_part_data).

Definition _show_recommendations (risk_info : BodyPartRiskInfo.t) : list string :=
  if bool_decide (risk_info.(BodyPartRiskInfo.gotrak_risk_level) = Some GREEN) then
    [ "✅ Continue current practices";
      "🔄 Regular monitoring recommended";
      "💪 Maintain good posture habits" ]
  else if bool_decide (risk_info.(BodyPartRiskInfo.gotrak_risk_level) = Some YELLOW) then
    [ "⚠️ Monitor symptoms closely";
      "🔧 Consider ergonomic adjustments";
      "📋 Schedule follow-up assessment";
      "🧘 Practice stretching exercises" ]
  else (* RED *)
    [ "🚨 Immediate intervention recommended";
      "👨‍⚕️ Consult healthcare professional";
      "🔧 Urgent ergonomic modifications needed";
      "📊 Implement risk control measures";
      "📅 Schedule regular reassessments" ].

Definition show_body_part_info (self : t) (body_part : BodyPartType) : t * Panel :=
  let self :=
    {| assessment_id := self.(assessment_id);
       selected_body_part := Some body_part;
       body_part_data := self.(body_part_data) |} in
  match self.(body_part_data) !! BodyPartType_value body_part with
  | Some risk_info =>
      let '(risk_color, risk_bg) :=
        if bool_decide (risk_info.(BodyPartRiskInfo.gotrak_risk_level) = Some YELLOW)
        then ("text-yellow-600", "bg-yellow-100")
        else if bool_decide (risk_info.(BodyPartRiskInfo.gotrak_risk_level) = Some RED)
        then ("text-red-600", "bg-red-100")
        else ("text-green-600", "bg-green-100") in
      let '(label, label_color) :=
        match risk_info.(BodyPartRiskInfo.gotrak_risk_level) with
        | Some level => ("Risk Level: " +:+ RiskLevel_value level, risk_color)
        | None => ("Risk Level: Not Assessed", "text-gray-500")
        end in
      (self,
       PanelInfo risk_info.(BodyPartRiskInfo.body_part_name) risk_bg
                 label label_color (_show_recommendations risk_info))
  | None => (self, PanelNoData (BodyPartType_value body_part))
  end.

End InteractiveBodyMap.

(** [handle_body_map_click]: the posted [bodyPart] string is turned into
    a member and shown; any exception is answered with status error. *)
Definition handle_body_map_click (body_map : InteractiveBodyMap.t)
    (body_part_name : option string)
    : InteractiveBodyMap.t * option Panel * string :=
  match body_part_name with
  | Some name =>
      if negb (String.eqb name "") then
        match BodyPartType_call (PyStr name) with
        | Ok body_part =>
            let '(body_map, panel) :=
              InteractiveBodyMap.show_body_part_info body_map body_part in
            (body_map, Some panel, "success")
        | Raise _ => (body_map, None, "error")
        end
      else (body_map, None, "success")
  | None => (body_map, None, "success")
  end.

(** The [data-part] attributes of the clickable elements of the map. *)
Definition body_map_data_parts : list string :=
  [ "NECK"; "SHOULDER_LEFT"; "SHOULDER_RIGHT"; "ARM_LEFT"; "ARM_RIGHT";
    "UPPER_BACK"; "LOWER_BACK"; "WRIST_LEFT"; "WRIST_RIGHT" ].

(** ** The mock analysis ([PostureAnalysisService]) *)

(** [random.uniform(lo, hi)] returns some float between its bounds. *)
Definition uniform (lo hi : Z) (x : pyfloat) : Prop :=
  exists q, x = Finite q /\ (inject_Z lo <= q)%Q /\ (q <= inject_Z hi)%Q.

(** The dictionaries [_calculate_mock_rula_angles] can return. *)
Definition _calculate_mock_rula_angles (angles : gmap string pyfloat) : Prop :=
  exists neck lua rua lfa rfa trunk lwd rwd,
    uniform 5 35 neck /\ uniform 15 60 lua /\ uniform 15 60 rua
    /\ uniform 80 120 lfa /\ uniform 80 120 rfa /\ uniform 0 25 trunk
    /\ uniform (-15) 15 lwd /\ uniform (-15) 15 rwd
    /\ angles =
       <["right_wrist_deviation" := rwd]> (<["left_wrist_deviation" := lwd]>
       (<["trunk_flexion" := trunk]> (<["right_forearm" := rfa]>
       (<["left_forearm" := lfa]> (<["right_upper_arm" := rua]>
       (<["left_upper_arm" := lua]> (<["neck_flexion" := neck]> ∅))))))).

(** The analyses [analyze_posture] can return: no pose, or the mock
    angles. *)
Definition analyze_posture (analysis : Analysis.t) : Prop :=
  analysis = {| Analysis.pose_detected := false;
                Analysis.angles := None;
                Analysis.error := Some "No pose detected" |}
  \/ exists angles,
       _calculate_mock_rula_angles angles
       /\ analysis = {| Analysis.pose_detected := true;
                        Analysis.angles := Some angles;
                        Analysis.error := None |}.

(** ** Stores reached by the services *)

(** Primary keys as the table assigns them: the [i]-th row inserted has
    key [i + 1]. *)
Definition keyed (tbl : list Assessment.t) : Prop :=
  forall i a, tbl !! i = Some a -> a.(Assessment.id_) = Some (Z.of_nat i + 1).

(** The stores of body-part rows the body-part aggregator can build. *)
Inductive built : Store -> Prop :=
  | built_empty : built []
  | built_create db id b angles s f db' row :
      built db ->
      create_body_part_assessment db id b angles s f = Ok (db', row) ->
      built db'.

(** ** Reference definitions for the questionnaire *)

(** What the user can do on the questionnaire page. *)
Inductive Action : Type :=
  | Next
  | Previous
  | Save (question_key response_type value : string).

Definition run_action (self : GotrakQuestionnaireComponent.t) (a : Action)
    : option GotrakQuestionnaireComponent.t :=
  match a with
  | Next => GotrakQuestionnaireComponent._next_question self
  | Previous => GotrakQuestionnaireComponent._previous_question self
  | Save k t v => GotrakQuestionnaireComponent._save_response self k t v
  end.

Fixpoint run (actions : list Action) (self : GotrakQuestionnaireComponent.t)
    : option GotrakQuestionnaireComponent.t :=
  match actions with
  | [] => Some self
  | a :: rest =>
      match run_action self a with
      | Some self => run rest self
      | None => None
      end
  end.

(** The current index points at a question. *)
Definition in_range (self : GotrakQuestionnaireComponent.t) : Prop :=
  0 <= self.(GotrakQuestionnaireComponent.current_question_index)
    < Z.of_nat (length self.(GotrakQuestionnaireComponent.questions)).

(** The answer stored for a question key and a response type, if any. *)
Definition answer (self : GotrakQuestionnaireComponent.t) (key type : string)
    : option string :=
  default ∅ (self.(GotrakQuestionnaireComponent.responses) !! key) !! type.

(** The answers of a complete survey: for each body part asked about, how
    often and how severe. *)
Definition Answers : Type := BodyPartType -> FrequencyLevel * SeverityLevel.

(** The body parts the default questions ask about, in question order. *)
Definition survey_parts : list BodyPartType :=
  [NECK; SHOULDER_LEFT; UPPER_BACK; LOWER_BACK].

(** Answering the default questions one after the other: answer, next,
    answer, next, ... *)
Definition survey_walk (a : Answers) : list Action :=
  [ Save "q_0" "frequency" (FrequencyLevel_value (a NECK).1); Next;
    Save "q_1" "severity" (SeverityLevel_value (a NECK).2); Next;
    Save "q_2" "frequency" (FrequencyLevel_value (a SHOULDER_LEFT).1); Next;
    Save "q_3" "severity" (SeverityLevel_value (a SHOULDER_LEFT).2); Next;
    Save "q_4" "frequency" (FrequencyLevel_value (a UPPER_BACK).1); Next;
    Save "q_5" "severity" (SeverityLevel_value (a UPPER_BACK).2); Next;
    Save "q_6" "frequency" (FrequencyLevel_value (a LOWER_BACK).1); Next;
    Save "q_7" "severity" (SeverityLevel_value (a LOWER_BACK).2) ].

(** The responses a complete survey leaves in the component. *)
Definition survey_responses (a : Answers) : gmap string (gmap string string) :=
  <["q_7" := {[ "severity" := SeverityLevel_value (a LOWER_BACK).2 ]}]>
  (<["q_6" := {[ "frequency" := FrequencyLevel_value (a LOWER_BACK).1 ]}]>
  (<["q_5" := {[ "severity" := SeverityLevel_value (a UPPER_BACK).2 ]}]>
  (<["q_4" := {[ "frequency" := FrequencyLevel_value (a UPPER_BACK).1 ]}]>
  (<["q_3" := {[ "severity" := SeverityLevel_value (a SHOULDER_LEFT).2 ]}]>
  (<["q_2" := {[ "frequency" := FrequencyLevel_value (a SHOULDER_LEFT).1 ]}]>
  (<["q_1" := {[ "severity" := SeverityLevel_value (a NECK).2 ]}]>
  (<["q_0" := {[ "frequency" := FrequencyLevel_value (a NECK).1 ]}]> ∅))))))).

(** The row the body-part aggregator stores for given inputs. *)
Definition new_row (db : Store) (id : Z) (b : BodyPartType)
    (angles : gmap string pyfloat) (s : SeverityLevel) (f : FrequencyLevel)
    : BodyPartAssessment :=
  {| id_ := Some (Z.of_nat (length db) + 1);
     assessment_id := id;
     body_part := b;
     rula_score := Some (Decimal.of_int (default 2 (score_posture angles b)));
     angle_measurements := angles;
     severity_level := Some s;
     frequency_level := Some f;
     gotrak_risk_level :=
       Some (get_gotrak_risk_level (rank_severity s * rank_frequency f));
     gotrak_score := Some (rank_severity s * rank_frequency f);
     additional_notes := "" |}.

(** The rows a complete survey stores, one per body part asked about. *)
Fixpoint survey_rows (parts : list BodyPartType) (db : Store) (id : Z)
    (angles : gmap string pyfloat) (a : Answers) : list BodyPartAssessment :=
  match parts with
  | [] => []
  | b :: rest =>
      let row := new_row db id b angles (a b).2 (a b).1 in
      row :: survey_rows rest (db ++ [row])%list id angles a
  end.

(** The discomfort levels and the posture scores of those rows. *)
Definition survey_levels (a : Answers) : list RiskLevel :=
  map (fun b => get_gotrak_risk_level
                  (rank_severity (a b).2 * rank_frequency (a b).1))
      survey_parts.

Definition survey_scores (angles : gmap string pyfloat) : list Z :=
  map (fun b => default 2 (score_posture angles b)) survey_parts.

(** The responses of a complete survey grouped by body part, in the order
    and with the values the first loop of [_process_responses] builds. *)
Definition survey_items (a : Answers) : GotrakQuestionnaireComponent.grouped :=
  map (fun b =>
         (b, <["severity" := sev (a b).2]>
               (<["frequency" := freq (a b).1]> (∅ : gmap string pyval))))
      survey_parts.

(** ** Captures ([WebcamService], [WebcamCaptureComponent._capture_posture]) *)

(** A row of the [webcam_captures] table; the metadata (always the empty
    default), the error message (always [None]) and the timestamp are left
    out. *)
Module WebcamCapture.
Record t : Type := {
  id_ : option Z;
  user_id : Z;
  assessment_id : option Z;
  image_path : string;
  posture_analysis : Analysis.t;
  processing_status : string
}.
End WebcamCapture.

Definition save_webcam_capture (captures : list WebcamCapture.t)
    (user_id : Z) (assessment_id : option Z) (image_path : string)
    (posture_analysis : Analysis.t)
    : list WebcamCapture.t * WebcamCapture.t :=
  let webcam_capture :=
    {| WebcamCapture.id_ := Some (Z.of_nat (length captures) + 1);
       WebcamCapture.user_id := user_id;
       WebcamCapture.assessment_id := assessment_id;
       WebcamCapture.image_path := image_path;
       WebcamCapture.posture_analysis := posture_analysis;
       WebcamCapture.processing_status := "completed" |} in
  ((captures ++ [webcam_capture])%list, webcam_capture).

(** What [_capture_posture] shows. *)
Inductive Shown : Type :=
  | NoPoseDetected                          (* the warning, nothing else *)
  | PostureCaptured (risk_items : list string). (* the results with their warnings *)

(** [_capture_posture], given the analysis [analyze_posture] returned and
    the time stamp of the file name. *)
Definition _capture_posture (self : WebcamCaptureComponent.t)
    (analysis : Analysis.t) (timestamp : string)
    (captures : list WebcamCapture.t)
    : WebcamCaptureComponent.t * list WebcamCapture.t * Shown :=
  (* Analyze posture *)
  let self :=
    {| WebcamCaptureComponent.user_id := self.(WebcamCaptureComponent.user_id);
       WebcamCaptureComponent.assessment_id :=
         self.(WebcamCaptureComponent.assessment_id);
       WebcamCaptureComponent.latest_analysis := Some analysis |} in
  if negb analysis.(Analysis.pose_detected) then (self, captures, NoPoseDetected)
  else
    (* Save the capture *)
    let image_path :=
      "captures/user_" +:+ pretty self.(WebcamCaptureComponent.user_id)
        +:+ "_" +:+ timestamp +:+ ".jpg" in
    let '(captures, _) :=
      save_webcam_capture captures self.(WebcamCaptureComponent.user_id)
        self.(WebcamCaptureComponent.assessment_id) image_path analysis in
    (* Update UI *)
    (self, captures, PostureCaptured (risk_items (default ∅ analysis.(Analysis.angles)))).

(** ** Users ([app/models.py], [UserService]) *)

(** A row of the [users] table, timestamps left out. *)
Module User.
Record t : Type := {
  id_ : option Z;
  name : string;
  email : string;
  employee_id : option string;
  department : option string;
  job_title : option string;
  is_active : bool
}.
End User.

Module UserCreate.
Record t : Type := {
  name : string;
  email : string;
  employee_id : option string;
  department : option string;
  job_title : option string
}.
End UserCreate.

(** [len(s)] for a Python string held as its UTF-8 bytes: the number of
    code points, that is of the bytes that are no continuation bytes
    (10xxxxxx). *)
Definition is_continuation_byte (c : Ascii.ascii) : bool :=
  let n := Z.of_N (Ascii.N_of_ascii c) in
  (128 <=? n) && (n <? 192).

Fixpoint py_len (s : string) : Z :=
  match s with
  | EmptyString => 0
  | String c rest => (if is_continuation_byte c then 0 else 1) + py_len rest
  end.

(** [Field(max_length=n)] on a string field and on an optional one. *)
Definition max_length (n : Z) (value : string) : bool := py_len value <=? n.

Definition max_length_opt (n : Z) (value : option string) : bool :=
  match value with
  | Some value => max_length n value
  | None => true
  end.

(** [UserCreate(name=..., email=..., ...)]: a model that is no table
    validates its fields when it is built; [None] stands for the
    validation error. *)
Definition UserCreate_new (name email : string)
    (employee_id department job_title : option string) : option UserCreate.t :=
  if max_length 100 name && max_length 255 email
     && max_length_opt 50 employee_id && max_length_opt 100 department
     && max_length_opt 100 job_title
  then Some {| UserCreate.name := name;
               UserCreate.email := email;
               UserCreate.employee_id := employee_id;
               UserCreate.department := department;
               UserCreate.job_title := job_title |}
  else None.

(** [UserService.create_user].  The [email] column is declared unique:
    committing a row whose email is stored already raises the database's
    integrity error, for which [None] stands. *)
Definition create_user (users : list User.t) (user_data : UserCreate.t)
    : option (list User.t * User.t) :=
  if existsb (fun u => bool_decide (u.(User.email) = user_data.(UserCreate.email))) users
  then None
  else
    let user :=
      {| User.id_ := Some (Z.of_nat (length users) + 1);
         User.name := user_data.(UserCreate.name);
         User.email := user_data.(UserCreate.email);
         User.employee_id := user_data.(UserCreate.employee_id);
         User.department := user_data.(UserCreate.department);
         User.job_title := user_data.(UserCreate.job_title);
         User.is_active := true |} in
    Some ((users ++ [user])%list, user).

Definition get_user (users : list User.t) (user_id : Z) : option User.t :=
  List.find (fun u => bool_decide (u.(User.id_) = Some user_id)) users.

Definition get_users (users : list User.t) : list User.t :=
  List.filter (fun u => u.(User.is_active)) users.

Definition get_user_by_email (users : list User.t) (email : string)
    : option User.t :=
  List.find (fun u => bool_decide (u.(User.email) = email)) users.

(** ** The pages *)

(** The [UserCreate] of the default user; its fields pass the
    validation. *)
Definition demo_user_data : UserCreate.t :=
  {| UserCreate.name := "Demo User";
     UserCreate.email := "demo@example.com";
     UserCreate.employee_id := None;
     UserCreate.department := Some "Demo Department";
     UserCreate.job_title := Some "Demo Position" |}.

(** A page handler either sends the browser elsewhere or renders. *)
Inductive Page (A : Type) : Type :=
  | Redirect (target : string)
  | Render (content : A).
Arguments Redirect {A} target.
Arguments Render {A} content.

(** [webcam_capture_page] ([app/webcam_capture.py]): get or create the
    default user, then build the capture component and keep it in the
    client storage. *)
Definition webcam_capture_page (users : list User.t)
    : option (list User.t * option WebcamCaptureComponent.t) :=
  '(users, user) ←
    match get_user_by_email users "demo@example.com" with
    | None => create_user users demo_user_data
    | Some user => Some (users, user)
    end;
  match user.(User.id_) with
  | Some id =>
      let webcam_component :=
        {| WebcamCaptureComponent.user_id := id;
           WebcamCaptureComponent.assessment_id := None;
           WebcamCaptureComponent.latest_analysis := None |} in
      Some (users, Some webcam_component)
  | None => Some (users, None)
  end.

(** [questionnaire_page] ([app/questionnaire.py]), given the
    [session_timestamp] found in the client storage and the current time
    as formatted for it; it returns the assessments, the
    [session_timestamp] left in the storage and what the browser gets. *)
Definition questionnaire_page (users : list User.t) (tbl : list Assessment.t)
    (session_timestamp : option string) (now : string)
    : option (list Assessment.t * option string
              * Page (option GotrakQuestionnaireComponent.t)) :=
  match get_user_by_email users "demo@example.com" with
  | None => Some (tbl, session_timestamp, Redirect "/webcam_capture")
  | Some user =>
      (* Questionnaire component *)
      '(tbl, questionnaire) ←
        match user.(User.id_) with
        | Some id =>
            '(tbl, questionnaire) ←
              GotrakQuestionnaireComponent.create
                (GotrakQuestionnaireComponent.__init__ id) tbl session_timestamp;
            Some (tbl, Some questionnaire)
        | None => Some (tbl, None)
        end;
      (* Store timestamp for session naming *)
      Some (tbl, Some now, Render questionnaire)
  end.

(** [body_map_page] ([app/body_map.py]), given the
    [completed_assessment_id] found in the client storage: the assessment
    whose summary is shown and the body map. *)
Definition body_map_page (completed_assessment_id : option Z)
    (tbl : list Assessment.t) (db : Store)
    : Page (Assessment.t * InteractiveBodyMap.t) :=
  if not_assessment_id completed_assessment_id then Redirect "/"
  else
    let assessment_id := default 0 completed_assessment_id in
    match get_assessment tbl assessment_id with
    | None => Redirect "/"
    | Some assessment =>
        Render (assessment, InteractiveBodyMap.__init__ assessment_id db)
    end.

(** ** The home page ([HomePage], [app/homepage.py]) *)

(** [value or None] for a string. *)
Definition or_None (value : string) : option string :=
  if String.eqb value "" then None else Some value.

(** What [_create_user] tells the user. *)
Inductive Notice : Type :=
  | Warning (message : string)
  | Positive (message : string)
  | Negative.  (* "Error creating profile: ...", for any exception *)

(** [_create_user], given the stripped values of the four inputs. *)
Definition _create_user (users : list User.t)
    (name email department job_title : string) : list User.t * Notice :=
  if String.eqb name "" || String.eqb email "" then
    (users, Warning "Name and email are required")
  else
    (* Check if user already exists *)
    match get_user_by_email users email with
    | Some _ => (users, Warning "A user with this email already exists")
    | None =>
        match
          UserCreate_new name email None (or_None department) (or_None job_title)
        with
        | None => (users, Negative)
        | Some user_data =>
            match create_user users user_data with
            | Some (users, user) =>
                (users,
                 Positive ("Profile created successfully for "
                             +:+ user.(User.name) +:+ "!"))
            | None => (users, Negative)
            end
        end
    end.

(** A value of the profile form is longer than its field allows. *)
Definition too_long (name email department job_title : string) : Prop :=
  100 < py_len name \/ 255 < py_len email
  \/ 100 < py_len department \/ 100 < py_len job_title.

(** The rows of the demo assessment. *)
Definition demo_data : list (BodyPartType * SeverityLevel * FrequencyLevel) :=
  [ (NECK, UNCOMFORTABLE, OFTEN);
    (UPPER_BACK, PAIN, SOMETIMES);
    (SHOULDER_LEFT, NO_PROBLEM, NEVER);
    (SHOULDER_RIGHT, UNCOMFORTABLE, SOMETIMES) ].

(** [{"mock_angle": 25.0}]. *)
Definition demo_angles : gmap string pyfloat := {[ "mock_angle" := Finite 25 ]}.

(** [Decimal("3.2")]. *)
Definition Decimal_3_2 : Decimal.t := Q2Qc (32 # 10).

(** The loop of [_create_demo_assessment] over the demo rows. *)
Fixpoint create_demo_rows
    (data : list (BodyPartType * SeverityLevel * FrequencyLevel))
    (assessment_id : Z) (db : Store) : Store * result unit :=
  match data with
  | [] => (db, Ok ())
  | (body_part, severity, frequency) :: rest =>
      match create_body_part_assessment db assessment_id body_part demo_angles
              severity frequency with
      | Raise e => (db, Raise e)
      | Ok (db, _) => create_demo_rows rest assessment_id db
      end
  end.

(** How [_create_demo_assessment] ends. *)
Inductive Demo : Type :=
  | DemoCreated (completed_assessment_id : Z) (* stored, then "/body_map" *)
  | DemoNoUser                                (* "Error: Could not create demo user" *)
  | DemoNoAssessment                          (* nothing is said *)
  | DemoError.                                (* "Error creating demo: ..." *)

(** [_create_demo_assessment], given the current time as formatted for
    the session name. *)
Definition _create_demo_assessment (users : list User.t)
    (tbl : list Assessment.t) (db : Store) (now : string)
    : list User.t * list Assessment.t * Store * Demo :=
  (* Ensure demo user exists *)
  match
    match get_user_by_email users "demo@example.com" with
    | None => create_user users demo_user_data
    | Some demo_user => Some (users, demo_user)
    end
  with
  | None => (users, tbl, db, DemoError)
  | Some (users, demo_user) =>
      match demo_user.(User.id_) with
      | None => (users, tbl, db, DemoNoUser)
      | Some user_id =>
          (* Create demo assessment with mock data *)
          let '(tbl, assessment) :=
            create_assessment tbl user_id ("Demo Assessment - " +:+ now) "" in
          match assessment.(Assessment.id_) with
          | None => (users, tbl, db, DemoNoAssessment)
          | Some assessment_id =>
              (* Create demo body part assessments *)
              match create_demo_rows demo_data assessment_id db with
              | (db, Raise _) => (users, tbl, db, DemoError)
              | (db, Ok _) =>
                  (* Complete the assessment *)
                  let '(tbl, _) :=
                    complete_assessment tbl assessment_id Decimal_3_2 YELLOW in
                  (users, tbl, db, DemoCreated assessment_id)
              end
          end
      end
  end.

(** ** Colours of the levels ([InteractiveBodyMap], [app/body_map.py]) *)

Definition _get_severity_color (severity : string) : string :=
  if String.eqb severity "No problem" then "text-green-600"
  else if String.eqb severity "Uncomfortable" then "text-yellow-600"
  else if String.eqb severity "Pain" then "text-orange-600"
  else if String.eqb severity "Severe pain" then "text-red-600"
  else "text-gray-600".

Definition _get_frequency_color (frequency : string) : string :=
  if String.eqb frequency "Never" then "text-green-600"
  else if String.eqb frequency "Sometimes" then "text-yellow-600"
  else if String.eqb frequency "Often" then "text-orange-600"
  else if String.eqb frequency "Always" then "text-red-600"
  else "text-gray-600".

(** The colour of a rank, from 1 to 4. *)
Definition rank_color (rank : Z) : string :=
  if rank =? 1 then "text-green-600"
  else if rank =? 2 then "text-yellow-600"
  else if rank =? 3 then "text-orange-600"
  else "text-red-600".

(** Keys as the [users] table assigns them, and emails as its constraint
    keeps them. *)
Definition users_ok (users : list User.t) : Prop :=
  (forall i u, users !! i = Some u -> u.(User.id_) = Some (Z.of_nat i + 1))
  /\ NoDup (map User.email users).

(** The rows the demo stores. *)
Fixpoint demo_rows (data : list (BodyPartType * SeverityLevel * FrequencyLevel))
    (db : Store) (id : Z) : list BodyPartAssessment :=
  match data with
  | [] => []
  | (b, s, f) :: rest =>
      let row := new_row db id b demo_angles s f in
      row :: demo_rows rest (db ++ [row])%list id
  end.

(** Decides the comparisons of a concrete body part with the members the
    posture scorer dispatches on. *)
Ltac decide_body_part :=
  repeat first
    [ rewrite bool_decide_eq_true_2 by reflexivity
    | rewrite bool_decide_eq_false_2 by discriminate ];
  cbn [orb].

(** ** The discomfort scorer and the two classifiers *)

Lemma severity_scores_member (s : SeverityLevel) :
  dict_get severity_scores (sev s) 1 = Ok (rank_severity s).
Proof. destruct s; reflexivity. Qed.

Lemma frequency_scores_member (f : FrequencyLevel) :
  dict_get frequency_scores (freq f) 1 = Ok (rank_frequency f).
Proof. destruct f; reflexivity. Qed.

Lemma rank_severity_range (s : SeverityLevel) : 1 <= rank_severity s <= 4.
Proof. destruct s; simpl; lia. Qed.

Lemma rank_frequency_range (f : FrequencyLevel) : 1 <= rank_frequency f <= 4.
Proof. destruct f; simpl; lia. Qed.

Lemma gotrak_score_member (s : SeverityLevel) (f : FrequencyLevel) :
  calculate_gotrak_score (sev s) (freq f) = Ok (rank_severity s * rank_frequency f).
Proof.
  unfold calculate_gotrak_score.
  now rewrite severity_scores_member, frequency_scores_member.
Qed.

(** C4. On every severity level and every frequency level the discomfort
    scorer returns normally, its result is the product of the two ranks,
    and that product lies between 1 and 16. *)
Theorem gotrak_score_is_rank_product (s : SeverityLevel) (f : FrequencyLevel) :
  calculate_gotrak_score (sev s) (freq f) = Ok (rank_severity s * rank_frequency f)
  /\ 1 <= rank_severity s * rank_frequency f <= 16.
Proof.
  split.
  - apply gotrak_score_member.
  - pose proof (rank_severity_range s). pose proof (rank_frequency_range f). nia.
Qed.

(** C3. On an integer discomfort score between 1 and 16 the discomfort
    classifier answers green up to 4, yellow at 6 and red everywhere else;
    so 5 is red, 6 is yellow, 4 is green and 16 is red. *)
Theorem gotrak_risk_level_table (score : Z) :
  1 <= score <= 16 ->
  (score <= 4 -> get_gotrak_risk_level score = GREEN)
  /\ (score = 6 -> get_gotrak_risk_level score = YELLOW)
  /\ (4 < score -> score <> 6 -> get_gotrak_risk_level score = RED)
  /\ get_gotrak_risk_level 5 = RED
  /\ get_gotrak_risk_level 6 = YELLOW
  /\ get_gotrak_risk_level 4 = GREEN
  /\ get_gotrak_risk_level 16 = RED.
Proof.
  intros _. unfold get_gotrak_risk_level.
  repeat split; try reflexivity; intros.
  - destruct (Z.leb_spec score 4); [reflexivity | lia].
  - subst score. reflexivity.
  - destruct (Z.leb_spec score 4); [lia |].
    destruct (Z.eqb_spec score 6); [lia | reflexivity].
Qed.

Lemma gotrak_risk_level_table_witness :
  1 <= 7 <= 16 /\ get_gotrak_risk_level 7 = RED.
Proof.
  split; [lia |].
  apply (proj1 (proj2 (proj2 (gotrak_risk_level_table 7 ltac:(lia))))); lia.
Defined.

(** C9. On every integer posture score the posture classifier answers
    green up to 2, yellow for 3 and 4, red above 4; and it is not the
    discomfort classifier: on 3 the two disagree. *)
Theorem rula_risk_level_table (score : Z) :
  (score <= 2 -> get_risk_level_from_rula_score score = GREEN)
  /\ (2 < score <= 4 -> get_risk_level_from_rula_score score = YELLOW)
  /\ (4 < score -> get_risk_level_from_rula_score score = RED)
  /\ (exists n, 1 <= n <= 7 /\
        get_risk_level_from_rula_score n <> get_gotrak_risk_level n).
Proof.
  unfold get_risk_level_from_rula_score.
  repeat split; intros.
  - destruct (Z.leb_spec score 2); [reflexivity | lia].
  - destruct (Z.leb_spec score 2); [lia |].
    destruct (Z.leb_spec score 4); [reflexivity | lia].
  - destruct (Z.leb_spec score 2); [lia |].
    destruct (Z.leb_spec score 4); [lia | reflexivity].
  - exists 3. split; [lia | discriminate].
Qed.

Lemma rula_risk_level_table_witness :
  get_risk_level_from_rula_score 3 = YELLOW.
Proof. apply (proj1 (proj2 (rula_risk_level_table 3))); lia. Defined.

(** C10. The discomfort score of a severity level and a frequency level
    is one of 1, 2, 3, 4, 6, 8, 9, 12, 16, each of which is reached; it is
    never 5; and its classification is red exactly on 8, 9, 12, 16, yellow
    exactly on 6 and green exactly on 1, 2, 3, 4. *)
Theorem gotrak_scores_reachable (s : SeverityLevel) (f : FrequencyLevel) :
  exists score,
    calculate_gotrak_score (sev s) (freq f) = Ok score
    /\ In score [1; 2; 3; 4; 6; 8; 9; 12; 16]
    /\ score <> 5
    /\ (get_gotrak_risk_level score = RED <-> In score [8; 9; 12; 16])
    /\ (get_gotrak_risk_level score = YELLOW <-> score = 6)
    /\ (get_gotrak_risk_level score = GREEN <-> In score [1; 2; 3; 4])
    /\ Forall (fun v => exists s' f', calculate_gotrak_score (sev s') (freq f') = Ok v)
         [1; 2; 3; 4; 6; 8; 9; 12; 16].
Proof.
  exists (rank_severity s * rank_frequency f).
  split; [apply gotrak_score_member |].
  split; [destruct s, f; simpl; tauto |].
  split; [destruct s, f; simpl; lia |].
  split; [destruct s, f; simpl; split; intros; try discriminate; try tauto; lia |].
  split; [destruct s, f; simpl; split; intros; try discriminate; try reflexivity; lia |].
  split; [destruct s, f; simpl; split; intros; try discriminate; try tauto; lia |].
  repeat constructor.
  - exists NO_PROBLEM, NEVER. reflexivity.
  - exists NO_PROBLEM, SOMETIMES. reflexivity.
  - exists NO_PROBLEM, OFTEN. reflexivity.
  - exists NO_PROBLEM, ALWAYS. reflexivity.
  - exists UNCOMFORTABLE, OFTEN. reflexivity.
  - exists UNCOMFORTABLE, ALWAYS. reflexivity.
  - exists PAIN, OFTEN. reflexivity.
  - exists PAIN, ALWAYS. reflexivity.
  - exists SEVERE_PAIN, ALWAYS. reflexivity.
Qed.

(** ** The posture scorer *)

Lemma float_lt_int_finite (q : Q) (n : Z) :
  float_lt_int (Finite q) n = true <-> (q < inject_Z n)%Q.
Proof.
  simpl. rewrite negb_true_iff, <- not_true_iff_false, Qle_bool_iff.
  split; [apply Qnot_le_lt | apply Qlt_not_le].
Qed.

Lemma float_lt_int_finite_false (q : Q) (n : Z) :
  float_lt_int (Finite q) n = false <-> (inject_Z n <= q)%Q.
Proof.
  simpl. now rewrite negb_false_iff, Qle_bool_iff.
Qed.

Lemma rula_score_follows_table (angles : gmap string pyfloat) (b : BodyPartType) :
  exists scores,
    calculate_rula_score angles (bpt b) = Ok scores
    /\ scores !! "final_score" = score_posture angles b
    /\ scores !! "position_score" = score_posture angles b.
Proof.
  unfold calculate_rula_score, score_posture.
  destruct b; decide_body_part; cbn [posture_table];
    try (eexists; split; [reflexivity | split; reflexivity]).
  - destruct (angles !! "neck_flexion") as [a|]; cbn [fmap option_fmap option_map tier_score].
    + destruct (float_lt_int a 10); [| destruct (float_lt_int a 20)];
        eexists; (split; [reflexivity | split; reflexivity]).
    + eexists; split; [reflexivity | split; reflexivity].
  - destruct (angles !! "left_upper_arm") as [a|]; cbn [fmap option_fmap option_map tier_score].
    + destruct (float_lt_int a 20);
        [| destruct (float_lt_int a 45); [| destruct (float_lt_int a 90)]];
        eexists; (split; [reflexivity | split; reflexivity]).
    + eexists; split; [reflexivity | split; reflexivity].
  - destruct (angles !! "right_upper_arm") as [a|]; cbn [fmap option_fmap option_map tier_score].
    + destruct (float_lt_int a 20);
        [| destruct (float_lt_int a 45); [| destruct (float_lt_int a 90)]];
        eexists; (split; [reflexivity | split; reflexivity]).
    + eexists; split; [reflexivity | split; reflexivity].
  - destruct (angles !! "trunk_flexion") as [a|]; cbn [fmap option_fmap option_map tier_score].
    + destruct (float_lt_int a 5);
        [| destruct (float_lt_int a 20); [| destruct (float_lt_int a 60)]];
        eexists; (split; [reflexivity | split; reflexivity]).
    + eexists; split; [reflexivity | split; reflexivity].
Qed.

Lemma final_score_follows_table (angles : gmap string pyfloat) (b : BodyPartType) :
  final_score angles (bpt b) = Ok (score_posture angles b).
Proof.
  unfold final_score.
  destruct (rula_score_follows_table angles b) as (scores & -> & Hf & _).
  cbn. now rewrite Hf.
Qed.

Lemma tier_score_two_bounds (b1 b2 : Z) (q : Q) :
  ((q < inject_Z b1)%Q -> tier_score [b1; b2] (Finite q) = 1)
  /\ ((inject_Z b1 <= q)%Q -> (q < inject_Z b2)%Q -> tier_score [b1; b2] (Finite q) = 2)
  /\ ((inject_Z b1 <= q)%Q -> (inject_Z b2 <= q)%Q -> tier_score [b1; b2] (Finite q) = 3).
Proof.
  cbn [tier_score]. repeat split; intros.
  - now rewrite (proj2 (float_lt_int_finite q b1)).
  - rewrite (proj2 (float_lt_int_finite_false q b1)) by assumption.
    now rewrite (proj2 (float_lt_int_finite q b2)).
  - rewrite (proj2 (float_lt_int_finite_false q b1)) by assumption.
    now rewrite (proj2 (float_lt_int_finite_false q b2)).
Qed.

Lemma tier_score_three_bounds (b1 b2 b3 : Z) (q : Q) :
  ((q < inject_Z b1)%Q -> tier_score [b1; b2; b3] (Finite q) = 1)
  /\ ((inject_Z b1 <= q)%Q -> (q < inject_Z b2)%Q ->
      tier_score [b1; b2; b3] (Finite q) = 2)
  /\ ((inject_Z b1 <= q)%Q -> (inject_Z b2 <= q)%Q -> (q < inject_Z b3)%Q ->
      tier_score [b1; b2; b3] (Finite q) = 3)
  /\ ((inject_Z b1 <= q)%Q -> (inject_Z b2 <= q)%Q -> (inject_Z b3 <= q)%Q ->
      tier_score [b1; b2; b3] (Finite q) = 4).
Proof.
  cbn [tier_score]. repeat split; intros.
  - now rewrite (proj2 (float_lt_int_finite q b1)).
  - rewrite (proj2 (float_lt_int_finite_false q b1)) by assumption.
    now rewrite (proj2 (float_lt_int_finite q b2)).
  - rewrite (proj2 (float_lt_int_finite_false q b1)) by assumption.
    rewrite (proj2 (float_lt_int_finite_false q b2)) by assumption.
    now rewrite (proj2 (float_lt_int_finite q b3)).
  - rewrite (proj2 (float_lt_int_finite_false q b1)) by assumption.
    rewrite (proj2 (float_lt_int_finite_false q b2)) by assumption.
    now rewrite (proj2 (float_lt_int_finite_false q b3)).
Qed.

(** C6. Whatever the angles, a body part with a threshold table whose
    measurement key is present gets the tier of that measurement, the
    lowest tier whose upper bound the angle is strictly below and the last
    tier otherwise: neck <10 gives 1, <20 gives 2, else 3; either arm <20
    gives 1, <45 gives 2, <90 gives 3, else 4; upper back <5 gives 1, <20
    gives 2, <60 gives 3, else 4.  The intervals are half-open: a neck
    angle of exactly 10 scores 2, 9.999 scores 1 and exactly 20 scores 3.
    A body part without a table scores the fixed default 2. *)
Theorem posture_score_thresholds (angles : gmap string pyfloat) :
  (forall b key bounds a,
      posture_table b = Some (key, bounds) ->
      angles !! key = Some a ->
      final_score angles (bpt b) = Ok (Some (tier_score bounds a)))
  /\ (forall b, posture_table b = None -> final_score angles (bpt b) = Ok (Some 2))
  /\ (forall a,
        tier_score [10; 20] a =
          (if float_lt_int a 10 then 1 else if float_lt_int a 20 then 2 else 3)
        /\ tier_score [20; 45; 90] a =
          (if float_lt_int a 20 then 1 else if float_lt_int a 45 then 2
           else if float_lt_int a 90 then 3 else 4)
        /\ tier_score [5; 20; 60] a =
          (if float_lt_int a 5 then 1 else if float_lt_int a 20 then 2
           else if float_lt_int a 60 then 3 else 4))
  /\ (forall q : Q,
        ((q < 10)%Q -> tier_score [10; 20] (Finite q) = 1)
        /\ ((10 <= q)%Q -> (q < 20)%Q -> tier_score [10; 20] (Finite q) = 2)
        /\ ((20 <= q)%Q -> tier_score [10; 20] (Finite q) = 3)
        /\ ((q < 20)%Q -> tier_score [20; 45; 90] (Finite q) = 1)
        /\ ((20 <= q)%Q -> (q < 45)%Q -> tier_score [20; 45; 90] (Finite q) = 2)
        /\ ((45 <= q)%Q -> (q < 90)%Q -> tier_score [20; 45; 90] (Finite q) = 3)
        /\ ((90 <= q)%Q -> tier_score [20; 45; 90] (Finite q) = 4)
        /\ ((q < 5)%Q -> tier_score [5; 20; 60] (Finite q) = 1)
        /\ ((5 <= q)%Q -> (q < 20)%Q -> tier_score [5; 20; 60] (Finite q) = 2)
        /\ ((20 <= q)%Q -> (q < 60)%Q -> tier_score [5; 20; 60] (Finite q) = 3)
        /\ ((60 <= q)%Q -> tier_score [5; 20; 60] (Finite q) = 4))
  /\ final_score {[ "neck_flexion" := Finite 10 ]} (bpt NECK) = Ok (Some 2)
  /\ final_score {[ "neck_flexion" := float_9_999 ]} (bpt NECK) = Ok (Some 1)
  /\ final_score {[ "neck_flexion" := Finite 9.999 ]} (bpt NECK) = Ok (Some 1)
  /\ final_score {[ "neck_flexion" := Finite 20 ]} (bpt NECK) = Ok (Some 3).
Proof.
  split; [| split; [| split; [| split]]].
  - intros b key bounds a Ht Ha.
    rewrite final_score_follows_table. unfold score_posture.
    rewrite Ht, Ha. reflexivity.
  - intros b Ht. rewrite final_score_follows_table. unfold score_posture.
    now rewrite Ht.
  - intros a. cbn [tier_score].
    repeat split; repeat (destruct (float_lt_int a _)); reflexivity.
  - intros q.
    pose proof (tier_score_two_bounds 10 20 q) as (N1 & N2 & N3).
    pose proof (tier_score_three_bounds 20 45 90 q) as (A1 & A2 & A3 & A4).
    pose proof (tier_score_three_bounds 5 20 60 q) as (T1 & T2 & T3 & T4).
    assert (L1 : (10 <= 20)%Q) by (unfold Qle; simpl; lia).
    assert (L2 : (20 <= 45)%Q) by (unfold Qle; simpl; lia).
    assert (L3 : (45 <= 90)%Q) by (unfold Qle; simpl; lia).
    assert (L4 : (5 <= 20)%Q) by (unfold Qle; simpl; lia).
    assert (L5 : (20 <= 60)%Q) by (unfold Qle; simpl; lia).
    repeat split; intros; eauto using Qle_trans.
  - repeat split; reflexivity.
Qed.

Lemma posture_score_thresholds_witness :
  final_score {[ "trunk_flexion" := Finite 5 ]} (bpt UPPER_BACK) = Ok (Some 2).
Proof.
  apply (proj1 (posture_score_thresholds {[ "trunk_flexion" := Finite 5 ]})
           UPPER_BACK "trunk_flexion" [5; 20; 60] (Finite 5));
    reflexivity.
Defined.

Lemma rula_score_absent (angles : gmap string pyfloat) (b : BodyPartType)
    (key : string) (bounds : list Z) :
  posture_table b = Some (key, bounds) ->
  angles !! key = None ->
  calculate_rula_score angles (bpt b) = Ok ∅.
Proof.
  intros Ht Ha. unfold calculate_rula_score.
  destruct b; try discriminate Ht; cbn [posture_table] in Ht;
    injection Ht as <- <-; decide_body_part; now rewrite Ha.
Qed.

(** C7. When the measurement key of a body part's threshold table is
    missing from the angles, the posture scorer returns normally with no
    score at all, and the body-part assessment built from those angles is
    created normally with the default posture score 2. *)
Theorem missing_angle_gives_default (angles : gmap string pyfloat)
    (b : BodyPartType) (key : string) (bounds : list Z) :
  posture_table b = Some (key, bounds) ->
  angles !! key = None ->
  calculate_rula_score angles (bpt b) = Ok ∅
  /\ final_score angles (bpt b) = Ok None
  /\ forall db id s f, exists db' row,
       create_body_part_assessment db id b angles s f = Ok (db', row)
       /\ row.(rula_score) = Some (Decimal.of_int 2)
       /\ In row db'.
Proof.
  intros Ht Ha.
  pose proof (rula_score_absent angles b key bounds Ht Ha) as Hr.
  split; [exact Hr |]. split.
  - unfold final_score. rewrite Hr. reflexivity.
  - intros db id s f. unfold create_body_part_assessment. rewrite Hr.
    cbn [mbind result_bind calculate_gotrak_score].
    eexists _, _. split; [reflexivity |]. split; [reflexivity |].
    apply in_or_app. right. left. reflexivity.
Qed.

Lemma missing_angle_gives_default_witness :
  calculate_rula_score {[ "neck_flexion" := Finite 12 ]} (bpt ARM_LEFT) = Ok ∅.
Proof.
  refine (proj1 (missing_angle_gives_default {[ "neck_flexion" := Finite 12 ]}
                   ARM_LEFT "left_upper_arm" [20; 45; 90] _ _));
    reflexivity.
Defined.

(** ** Values outside the enumerations *)

Lemma severity_scores_unknown (v : pyval) :
  ~ is_severity v -> hashable v = true -> dict_get severity_scores v 1 = Ok 1.
Proof.
  intros Hv Hh. destruct v as [| z | s | items]; try reflexivity; [| discriminate Hh].
  unfold dict_get, severity_scores.
  rewrite (not_elem_of_list_to_map_1 _ s); [reflexivity |].
  cbn [fmap list_fmap fst]. intros Hin.
  apply Hv. unfold is_severity, sev.
  repeat (apply elem_of_cons in Hin as [-> | Hin];
          [eexists; reflexivity |]).
  now apply elem_of_nil in Hin.
Qed.

Lemma frequency_scores_unknown (v : pyval) :
  ~ is_frequency v -> hashable v = true -> dict_get frequency_scores v 1 = Ok 1.
Proof.
  intros Hv Hh. destruct v as [| z | s | items]; try reflexivity; [| discriminate Hh].
  unfold dict_get, frequency_scores.
  rewrite (not_elem_of_list_to_map_1 _ s); [reflexivity |].
  cbn [fmap list_fmap fst]. intros Hin.
  apply Hv. unfold is_frequency, freq.
  repeat (apply elem_of_cons in Hin as [-> | Hin];
          [eexists; reflexivity |]).
  now apply elem_of_nil in Hin.
Qed.

Lemma rula_score_unknown_body_part (angles : gmap string pyfloat) (v : pyval) :
  ~ is_body_part v ->
  calculate_rula_score angles v
  = Ok (<["final_score" := 2]> (<["position_score" := 2]> ∅)).
Proof.
  intros Hv. unfold calculate_rula_score.
  rewrite !bool_decide_eq_false_2; [reflexivity | | | |];
    intros ->; apply Hv; eexists; reflexivity.
Qed.

Lemma gotrak_score_unhashable (v w : pyval) :
  hashable v = false \/ hashable w = false ->
  calculate_gotrak_score v w = Raise (TypeError "hash").
Proof.
  unfold calculate_gotrak_score.
  intros [Hv | Hw].
  - destruct v as [| z | s | items]; try discriminate Hv. reflexivity.
  - destruct w as [| z' | s' | items']; try discriminate Hw.
    destruct v as [| z | s | items]; reflexivity.
Qed.

Lemma gotrak_score_hashable (v w : pyval) :
  hashable v = true -> hashable w = true ->
  exists k, calculate_gotrak_score v w = Ok k.
Proof.
  unfold calculate_gotrak_score.
  intros Hv Hw.
  destruct v as [| z | s | items]; try discriminate Hv;
    destruct w as [| z' | s' | items']; try discriminate Hw;
    cbn [dict_get mbind result_bind]; eexists; reflexivity.
Qed.

Lemma gotrak_score_raises_iff (v w : pyval) :
  raises (calculate_gotrak_score v w) <-> hashable v = false \/ hashable w = false.
Proof.
  split.
  - intros [e He].
    destruct (hashable v) eqn:Hv; [| now left].
    destruct (hashable w) eqn:Hw; [| now right].
    destruct (gotrak_score_hashable v w Hv Hw) as [k Hk].
    rewrite Hk in He. discriminate He.
  - intros H. eexists. now apply gotrak_score_unhashable.
Qed.

Lemma rula_score_never_raises (angles : gmap string pyfloat) (v : pyval) :
  ~ raises (calculate_rula_score angles v).
Proof.
  intros [e He]. unfold calculate_rula_score in He.
  repeat case_bool_decide; cbn [orb] in He;
    repeat match type of He with
      | context [angles !! ?k] => destruct (angles !! k)
      | context [float_lt_int ?a ?n] => destruct (float_lt_int a n)
      end;
    discriminate He.
Qed.

(** The survey flow does reject unknown strings, but where it turns them
    into members, before any scorer runs. *)
Lemma SeverityLevel_call_rejects (v : pyval) :
  ~ is_severity v -> SeverityLevel_call v = Raise (ValueError "SeverityLevel").
Proof.
  intros Hv. destruct v as [| z | s | items]; try reflexivity.
  unfold SeverityLevel_call, enum_call, all_SeverityLevel. cbn [find].
  repeat case_bool_decide; try reflexivity;
    exfalso; apply Hv; subst s; eexists; reflexivity.
Qed.

Lemma SeverityLevel_call_member (s : SeverityLevel) :
  SeverityLevel_call (sev s) = Ok s.
Proof. destruct s; reflexivity. Qed.

Lemma classifiers_on_integers (z : Z) :
  get_gotrak_risk_level_untyped (PyInt z) = Ok (get_gotrak_risk_level z)
  /\ get_risk_level_from_rula_score_untyped (PyInt z)
     = Ok (get_risk_level_from_rula_score z).
Proof.
  unfold get_gotrak_risk_level_untyped, get_risk_level_from_rula_score_untyped,
    get_gotrak_risk_level, get_risk_level_from_rula_score, py_le_int, py_eq_int.
  cbn [mbind result_bind]. split.
  - destruct (z <=? 4); [reflexivity |].
    destruct (Z.eqb_spec z 6) as [-> | Hne].
    + now rewrite bool_decide_eq_true_2.
    + rewrite bool_decide_eq_false_2; [reflexivity | congruence].
  - destruct (z <=? 2); [reflexivity |]. now destruct (z <=? 4).
Qed.

Lemma classifiers_off_integers (v : pyval) :
  (forall z, v <> PyInt z) ->
  get_gotrak_risk_level_untyped v = Raise (TypeError "<=")
  /\ get_risk_level_from_rula_score_untyped v = Raise (TypeError "<=").
Proof.
  intros Hv. destruct v as [| z | s | items]; try (split; reflexivity).
  now destruct (Hv z).
Qed.

Lemma members_are_no_integers (v : pyval) :
  is_severity v \/ is_frequency v \/ is_body_part v -> forall z, v <> PyInt z.
Proof. intros [[s ->] | [[f ->] | [b ->]]] z; discriminate. Qed.

(** C5, as the code has it.  There is no InvalidInput condition, and what
    happens to a value from outside the enumerations depends on the
    operation and on the kind of the value, among [None], integers,
    strings and lists.  The discomfort scorer looks severity and
    frequency up in a dictionary with the default 1: a hashable value
    from outside (None, an integer, a string that is no member value) is
    not rejected but given the rank 1, and the product is returned as
    usual; the scorer raises exactly when one of its two arguments is
    unhashable (a list), and what it raises is the TypeError of hashing.
    The posture scorer gives every body part value from outside,
    hashable or not, the default score 2 and never raises.  The two risk
    classifiers take a score: on an integer they classify; on [None], on
    a string, so on every member of the three enumerations, and on a
    list, their comparison raises TypeError. *)
Theorem unknown_values_are_coerced :
  (forall v f, ~ is_severity v -> hashable v = true ->
      calculate_gotrak_score v (freq f) = Ok (1 * rank_frequency f))
  /\ (forall s w, ~ is_frequency w -> hashable w = true ->
      calculate_gotrak_score (sev s) w = Ok (rank_severity s * 1))
  /\ (forall v w, ~ is_severity v -> ~ is_frequency w ->
      hashable v = true -> hashable w = true ->
      calculate_gotrak_score v w = Ok 1)
  /\ (forall v w, hashable v = false \/ hashable w = false ->
      calculate_gotrak_score v w = Raise (TypeError "hash"))
  /\ (forall v w, raises (calculate_gotrak_score v w)
                  <-> hashable v = false \/ hashable w = false)
  /\ (forall angles v, ~ is_body_part v -> final_score angles v = Ok (Some 2))
  /\ (forall angles v, ~ raises (calculate_rula_score angles v))
  /\ (forall z,
        get_gotrak_risk_level_untyped (PyInt z) = Ok (get_gotrak_risk_level z)
        /\ get_risk_level_from_rula_score_untyped (PyInt z)
           = Ok (get_risk_level_from_rula_score z))
  /\ (forall v, (forall z, v <> PyInt z) ->
        get_gotrak_risk_level_untyped v = Raise (TypeError "<=")
        /\ get_risk_level_from_rula_score_untyped v = Raise (TypeError "<="))
  /\ (forall v, is_severity v \/ is_frequency v \/ is_body_part v ->
        get_gotrak_risk_level_untyped v = Raise (TypeError "<=")
        /\ get_risk_level_from_rula_score_untyped v = Raise (TypeError "<=")).
Proof.
  split; [| split; [| split; [| split; [| split; [| split; [| split;
    [| split; [| split]]]]]]]].
  - intros v f Hv Hh. unfold calculate_gotrak_score.
    now rewrite severity_scores_unknown, frequency_scores_member.
  - intros s w Hw Hh. unfold calculate_gotrak_score.
    now rewrite severity_scores_member, frequency_scores_unknown.
  - intros v w Hv Hw Hhv Hhw. unfold calculate_gotrak_score.
    now rewrite severity_scores_unknown, frequency_scores_unknown.
  - apply gotrak_score_unhashable.
  - apply gotrak_score_raises_iff.
  - intros angles v Hv. unfold final_score.
    now rewrite rula_score_unknown_body_part.
  - apply rula_score_never_raises.
  - apply classifiers_on_integers.
  - apply classifiers_off_integers.
  - intros v Hv. apply classifiers_off_integers.
    now apply members_are_no_integers.
Qed.

Lemma not_is_severity_Agony : ~ is_severity (PyStr "Agony").
Proof. intros [s Hs]. destruct s; discriminate Hs. Qed.

Lemma not_is_frequency_None : ~ is_frequency PyNone.
Proof. intros [f Hf]. discriminate Hf. Qed.

Lemma not_is_body_part_Tail : ~ is_body_part (PyStr "Tail").
Proof. intros [b Hb]. destruct b; discriminate Hb. Qed.

Lemma unknown_values_are_coerced_witness :
  calculate_gotrak_score (PyStr "Agony") (freq OFTEN) = Ok 3
  /\ calculate_gotrak_score (PyList []) (freq OFTEN) = Raise (TypeError "hash")
  /\ final_score ∅ (PyList []) = Ok (Some 2)
  /\ get_gotrak_risk_level_untyped (PyStr "Agony") = Raise (TypeError "<=").
Proof.
  destruct unknown_values_are_coerced
    as (H1 & _ & _ & H4 & _ & H6 & _ & _ & H9 & _).
  split; [| split; [| split]].
  - apply (H1 (PyStr "Agony") OFTEN); [| reflexivity].
    intros [s Hs]. destruct s; discriminate Hs.
  - apply (H4 (PyList []) (freq OFTEN)). left. reflexivity.
  - apply (H6 ∅ (PyList [])). intros [b Hb]. discriminate Hb.
  - apply (H9 (PyStr "Agony")). intros z. discriminate.
Defined.

(** C5 as stated fails: the string "Agony" is no severity level, [None]
    is no frequency level and "Tail" is no body part, yet each is accepted
    and silently given a default instead of being rejected. *)
Lemma unknown_values_not_rejected :
  (~ is_severity (PyStr "Agony")
   /\ calculate_gotrak_score (PyStr "Agony") (freq OFTEN) = Ok 3
   /\ ~ raises (calculate_gotrak_score (PyStr "Agony") (freq OFTEN)))
  /\ (~ is_frequency PyNone
      /\ calculate_gotrak_score (sev PAIN) PyNone = Ok 3
      /\ ~ raises (calculate_gotrak_score (sev PAIN) PyNone))
  /\ (~ is_body_part (PyStr "Tail")
      /\ final_score ∅ (PyStr "Tail") = Ok (Some 2)
      /\ ~ raises (calculate_rula_score ∅ (PyStr "Tail"))).
Proof.
  assert (Hok : forall A (r : result A) (a : A), r = Ok a -> ~ raises r).
  { intros A r a -> [e He]. discriminate He. }
  repeat split;
    auto using not_is_severity_Agony, not_is_frequency_None, not_is_body_part_Tail,
               rula_score_never_raises;
    first [ reflexivity | now apply (Hok _ _ 3) ].
Qed.

(** ** The session aggregator: overall risk *)

Lemma py_sum_ones_from {A} (l : list A) (acc : Z) :
  fold_left Z.add (map (fun _ => 1) l) acc = acc + Z.of_nat (length l).
Proof.
  revert acc. induction l as [| x l IH]; intros acc; cbn [map fold_left length].
  - lia.
  - rewrite IH. lia.
Qed.

Lemma py_sum_ones {A} (l : list A) :
  py_sum (map (fun _ => 1) l) = Z.of_nat (length l).
Proof. unfold py_sum. now rewrite py_sum_ones_from. Qed.

Lemma filter_level_count (r : RiskLevel) (body_parts : list BodyPartAssessment) :
  length (List.filter (fun bp => bool_decide (bp.(gotrak_risk_level) = Some r)) body_parts)
  = count_level r body_parts.
Proof.
  unfold count_level, discomfort_levels.
  induction body_parts as [| bp l IH]; [reflexivity |].
  cbn [List.filter omap list_omap].
  destruct (gotrak_risk_level bp) as [r' |] eqn:Hr.
  - cbn [count_occ]. destruct (RiskLevel_eq_dec r' r) as [-> | Hne].
    + rewrite bool_decide_eq_true_2 by reflexivity. cbn [length]. now rewrite IH.
    + rewrite bool_decide_eq_false_2 by congruence. exact IH.
  - rewrite bool_decide_eq_false_2 by discriminate. exact IH.
Qed.

Lemma overall_risk_by_counts (db : Store) (id : Z) :
  id <> 0 ->
  snd (_calculate_overall_scores (Some id) db)
  = precedence_rule (count_level RED (get_assessment_body_parts db id))
                    (count_level YELLOW (get_assessment_body_parts db id)).
Proof.
  intros Hid. unfold _calculate_overall_scores, not_assessment_id.
  destruct (Z.eqb_spec id 0) as [| _]; [contradiction |].
  change (default 0 (Some id)) with id.
  destruct (get_assessment_body_parts db id) as [| bp l] eqn:Hbps; [reflexivity |].
  cbn [snd]. rewrite !py_sum_ones, !filter_level_count.
  destruct (count_level RED (bp :: l)) as [| h]; cbn [precedence_rule].
  - destruct (count_level YELLOW (bp :: l)) as [| [| m]]; try reflexivity.
    destruct (Z.ltb_spec 1 (Z.of_nat (S (S m)))); [reflexivity | lia].
  - destruct (Z.ltb_spec 0 (Z.of_nat (S h))); [reflexivity | lia].
Qed.

Lemma session_rows_are_fetched (id : Z) (body_parts : list BodyPartAssessment) :
  Forall (fun bp => bp.(assessment_id) = id) body_parts ->
  get_assessment_body_parts body_parts id = body_parts.
Proof.
  unfold get_assessment_body_parts.
  induction 1 as [| bp l Hbp _ IH]; [reflexivity |].
  cbn [List.filter]. rewrite bool_decide_eq_true_2 by assumption. now rewrite IH.
Qed.

(** Any sequence of rows of one session can be what the store hands
    over, and the rule then applies to that very sequence. *)
Lemma overall_risk_of_any_sequence (id : Z) (body_parts : list BodyPartAssessment) :
  id <> 0 ->
  Forall (fun bp => bp.(assessment_id) = id) body_parts ->
  snd (_calculate_overall_scores (Some id) body_parts)
  = precedence_rule (count_level RED body_parts) (count_level YELLOW body_parts).
Proof.
  intros Hid Hrows. rewrite overall_risk_by_counts by assumption.
  now rewrite session_rows_are_fetched.
Qed.

(** C1. Whatever rows the store holds, with [body_parts] the rows it
    hands over for the session: the overall risk is red as soon as one
    body part's discomfort level is red; without a red one it is yellow
    when strictly more than one is yellow; otherwise it is green, in
    particular with exactly one yellow and no red. *)
Theorem overall_risk_precedence (db : Store) (id : Z)
    (body_parts : list BodyPartAssessment) :
  id <> 0 ->
  get_assessment_body_parts db id = body_parts ->
  let high := count_level RED body_parts in
  let moderate := count_level YELLOW body_parts in
  let overall_risk := snd (_calculate_overall_scores (Some id) db) in
  ((0 < high)%nat -> overall_risk = RED)
  /\ (high = 0%nat -> (1 < moderate)%nat -> overall_risk = YELLOW)
  /\ (high = 0%nat -> (moderate <= 1)%nat -> overall_risk = GREEN)
  /\ (high = 0%nat -> moderate = 1%nat -> overall_risk = GREEN)
  /\ (In RED (discomfort_levels body_parts) -> overall_risk = RED).
Proof.
  intros Hid Hbps high moderate overall_risk.
  assert (Hrisk : overall_risk = precedence_rule high moderate).
  { unfold overall_risk. rewrite overall_risk_by_counts by assumption.
    now rewrite Hbps. }
  rewrite Hrisk. repeat split.
  - destruct high; [lia | reflexivity].
  - intros -> Hm. destruct moderate as [| [| m]]; [lia | lia | reflexivity].
  - intros -> Hm. destruct moderate as [| [| m]]; [reflexivity | reflexivity | lia].
  - intros -> ->. reflexivity.
  - intros Hin. apply (count_occ_In RiskLevel_eq_dec) in Hin.
    fold (count_level RED body_parts) in Hin. fold high in Hin.
    destruct high; [lia | reflexivity].
Qed.

Lemma overall_risk_precedence_witness :
  snd (_calculate_overall_scores (Some 1)
         [row_of 1 (Some 2) (Some YELLOW); row_of 1 (Some 2) (Some GREEN)]) = GREEN.
Proof.
  refine (proj1 (proj2 (proj2 (proj2
            (overall_risk_precedence
               [row_of 1 (Some 2) (Some YELLOW); row_of 1 (Some 2) (Some GREEN)] 1
               [row_of 1 (Some 2) (Some YELLOW); row_of 1 (Some 2) (Some GREEN)]
               _ _)))) _ _);
    [lia | reflexivity | reflexivity | reflexivity].
Defined.

Lemma fold_risk_max_by_counts (levels : list RiskLevel) :
  fold_right risk_max GREEN levels
  = match count_occ RiskLevel_eq_dec levels RED,
          count_occ RiskLevel_eq_dec levels YELLOW with
    | S _, _ => RED
    | O, S _ => YELLOW
    | O, O => GREEN
    end.
Proof.
  induction levels as [| r l IH]; [reflexivity |].
  cbn [fold_right]. rewrite IH.
  destruct r; cbn [count_occ];
    repeat match goal with
      | |- context [RiskLevel_eq_dec ?a ?b] => destruct (RiskLevel_eq_dec a b); try congruence
      end;
    destruct (count_occ RiskLevel_eq_dec l RED);
    destruct (count_occ RiskLevel_eq_dec l YELLOW); reflexivity.
Qed.

Lemma max_level_by_counts (body_parts : list BodyPartAssessment) :
  max_level body_parts
  = match count_level RED body_parts, count_level YELLOW body_parts with
    | S _, _ => RED
    | O, S _ => YELLOW
    | O, O => GREEN
    end.
Proof. apply fold_risk_max_by_counts. Qed.

(** C2, as the code has it.  In a session where at least one body part
    supplies a discomfort level, the overall risk is at least the highest
    of those levels, except when exactly one body part is yellow and none
    is red: the highest level is then yellow and the overall risk is
    green. *)
Theorem overall_risk_dominates_unless_single_yellow (db : Store) (id : Z)
    (body_parts : list BodyPartAssessment) :
  id <> 0 ->
  get_assessment_body_parts db id = body_parts ->
  discomfort_levels body_parts <> [] ->
  let high := count_level RED body_parts in
  let moderate := count_level YELLOW body_parts in
  let overall_risk := snd (_calculate_overall_scores (Some id) db) in
  (~ (high = 0%nat /\ moderate = 1%nat) ->
     risk_le (max_level body_parts) overall_risk)
  /\ (high = 0%nat -> moderate = 1%nat ->
       max_level body_parts = YELLOW /\ overall_risk = GREEN).
Proof.
  intros Hid Hbps _ high moderate overall_risk.
  assert (Hrisk : overall_risk = precedence_rule high moderate).
  { unfold overall_risk. rewrite overall_risk_by_counts by assumption.
    now rewrite Hbps. }
  rewrite Hrisk, max_level_by_counts. fold high moderate.
  split.
  - intros Hex. unfold risk_le.
    destruct high as [| h]; [| simpl; lia].
    destruct moderate as [| [| m]]; simpl; try lia.
  - intros -> ->. split; reflexivity.
Qed.

Lemma overall_risk_dominates_unless_single_yellow_witness :
  risk_le
    (max_level [row_of 1 None (Some YELLOW); row_of 1 None (Some YELLOW)])
    (snd (_calculate_overall_scores (Some 1)
            [row_of 1 None (Some YELLOW); row_of 1 None (Some YELLOW)])).
Proof.
  refine (proj1 (overall_risk_dominates_unless_single_yellow
                   [row_of 1 None (Some YELLOW); row_of 1 None (Some YELLOW)] 1
                   [row_of 1 None (Some YELLOW); row_of 1 None (Some YELLOW)]
                   _ _ _) _);
    first [lia | reflexivity | discriminate | (intros [_ H]; discriminate H)].
Defined.

(** C2 as stated fails: a session whose only body part is yellow supplies
    a discomfort level, its highest level is yellow, and its overall risk
    is green, which is lower. *)
Lemma single_yellow_is_not_dominated :
  let db := [row_of 1 (Some 2) (Some YELLOW)] in
  get_assessment_body_parts db 1 = db
  /\ discomfort_levels db = [YELLOW]
  /\ max_level db = YELLOW
  /\ snd (_calculate_overall_scores (Some 1) db) = GREEN
  /\ ~ risk_le (max_level db) (snd (_calculate_overall_scores (Some 1) db)).
Proof.
  repeat split. unfold risk_le. simpl. lia.
Qed.

(** ** Decimal rounding *)

Lemma ndigits_fuel_spec (fuel : nat) (n : Z) :
  0 < n < 2 ^ (Z.of_nat fuel + 1) ->
  1 <= Decimal.ndigits_fuel fuel n
  /\ 10 ^ (Decimal.ndigits_fuel fuel n - 1) <= n < 10 ^ Decimal.ndigits_fuel fuel n.
Proof.
  revert n. induction fuel as [| fuel IH]; intros n Hn.
  - cbn [Decimal.ndigits_fuel]. change (2 ^ (Z.of_nat 0 + 1)) with 2 in Hn.
    change (10 ^ (1 - 1)) with 1. change (10 ^ 1) with 10. lia.
  - cbn [Decimal.ndigits_fuel]. destruct (Z.ltb_spec n 10) as [Hlt | Hge].
    + change (10 ^ (1 - 1)) with 1. change (10 ^ 1) with 10. lia.
    + assert (Hdiv : 0 < n / 10 < 2 ^ (Z.of_nat fuel + 1)).
      { split; [apply Z.div_str_pos; lia |].
        apply Z.div_lt_upper_bound; [lia |].
        replace (Z.of_nat (S fuel) + 1) with (Z.succ (Z.of_nat fuel + 1)) in Hn by lia.
        rewrite Z.pow_succ_r in Hn by lia. lia. }
      destruct (IH _ Hdiv) as (Hr & Hlo & Hhi).
      set (r := Decimal.ndigits_fuel fuel (n / 10)) in *.
      split; [lia |].
      replace (1 + r - 1) with (Z.succ (r - 1)) by lia.
      replace (1 + r) with (Z.succ r) by lia.
      rewrite !Z.pow_succ_r by lia.
      pose proof (Z.div_mod n 10 ltac:(lia)) as Hdm.
      pose proof (Z.mod_pos_bound n 10 ltac:(lia)) as Hmod.
      lia.
Qed.

Lemma ndigits_spec (n : Z) :
  0 < n ->
  1 <= Decimal.ndigits n
  /\ 10 ^ (Decimal.ndigits n - 1) <= n < 10 ^ Decimal.ndigits n.
Proof.
  intros Hn. unfold Decimal.ndigits. apply ndigits_fuel_spec.
  rewrite Z2Nat.id by apply Z.log2_nonneg.
  pose proof (Z.log2_spec n Hn) as Hl.
  replace (Z.log2 n + 1) with (Z.succ (Z.log2 n)) by lia. lia.
Qed.

Lemma pow10_pos (e : Z) : 0 <= e -> 0 < 10 ^ e.
Proof. intros. apply Z.pow_pos_nonneg; lia. Qed.

(** [ge_pow10 n d e] compares [n / d] with [10 ^ e]; scaled by a large
    enough power of ten the comparison is one between integers. *)
Lemma ge_pow10_scaled (n d e K : Z) :
  0 <= K -> 0 <= K + e ->
  Decimal.ge_pow10 n d e = true <-> d * 10 ^ (K + e) <= n * 10 ^ K.
Proof.
  intros HK HKe. unfold Decimal.ge_pow10.
  destruct (Z.leb_spec 0 e) as [He | He]; rewrite Z.leb_le.
  - rewrite Z.pow_add_r by lia.
    pose proof (pow10_pos K HK). nia.
  - replace K with ((K + e) + (- e)) at 2 by lia.
    rewrite (Z.pow_add_r 10 (K + e) (- e)) by lia.
    pose proof (pow10_pos (K + e) HKe). nia.
Qed.

Lemma ge_pow10_mono (n d e e' : Z) :
  0 < d ->
  e' <= e -> Decimal.ge_pow10 n d e = true -> Decimal.ge_pow10 n d e' = true.
Proof.
  intros Hd Hle H.
  set (K := Z.abs e + Z.abs e').
  apply (ge_pow10_scaled n d e K) in H; [| lia | lia].
  apply (ge_pow10_scaled n d e' K); [lia | lia |].
  assert (10 ^ (K + e') <= 10 ^ (K + e)) by (apply Z.pow_le_mono_r; lia).
  nia.
Qed.

Lemma adjusted_spec (n d : Z) :
  0 < n -> 0 < d ->
  Decimal.ge_pow10 n d (Decimal.adjusted n d) = true
  /\ Decimal.ge_pow10 n d (Decimal.adjusted n d + 1) = false.
Proof.
  intros Hn Hd.
  destruct (ndigits_spec n Hn) as (Hn1 & Hnlo & Hnhi).
  destruct (ndigits_spec d Hd) as (Hd1 & Hdlo & Hdhi).
  set (dn := Decimal.ndigits n) in *. set (dd := Decimal.ndigits d) in *.
  assert (Hup : Decimal.ge_pow10 n d (dn - dd + 1) = false).
  { apply not_true_iff_false. rewrite (ge_pow10_scaled n d _ dd) by lia.
    replace (dd + (dn - dd + 1)) with ((dn - 1) + 1 + 1) by lia.
    rewrite !Z.pow_add_r by lia. change (10 ^ 1) with 10.
    replace dd with ((dd - 1) + 1) at 1 by lia.
    rewrite (Z.pow_add_r 10 (dd - 1) 1) by lia. change (10 ^ 1) with 10.
    replace dn with ((dn - 1) + 1) in Hnhi by lia.
    rewrite Z.pow_add_r in Hnhi by lia. change (10 ^ 1) with 10 in Hnhi.
    pose proof (pow10_pos (dd - 1) ltac:(lia)) as HA.
    pose proof (pow10_pos (dn - 1) ltac:(lia)) as HB.
    set (A := 10 ^ (dd - 1)) in *. set (B := 10 ^ (dn - 1)) in *.
    assert (H1 : n * (A * 10) < (B * 10) * (A * 10))
      by (apply Z.mul_lt_mono_pos_r; lia).
    assert (H2 : A * (B * 100) <= d * (B * 100))
      by (apply Z.mul_le_mono_nonneg_r; lia).
    lia. }
  assert (Hdown : Decimal.ge_pow10 n d (dn - dd - 1) = true).
  { rewrite (ge_pow10_scaled n d _ dd) by lia.
    replace (dd + (dn - dd - 1)) with (dn - 1) by lia.
    pose proof (pow10_pos (dn - 1) ltac:(lia)). nia. }
  unfold Decimal.adjusted. fold dn dd.
  destruct (Decimal.ge_pow10 n d (dn - dd)) eqn:Hmid.
  - split; assumption.
  - split; [assumption |]. now replace (dn - dd - 1 + 1) with (dn - dd) by lia.
Qed.

Lemma round_half_even_exact (c d : Z) :
  0 < d -> Decimal.round_half_even (c * d) d = c.
Proof.
  intros Hd. unfold Decimal.round_half_even.
  rewrite Z.div_mul, Z.mod_mul by lia.
  destruct (Z.compare_spec (2 * 0) d); [lia | reflexivity | lia].
Qed.

Lemma Qc_of_Z_nonzero (z : Z) : z <> 0 -> Qc_of_Z z <> 0%Qc.
Proof. intros Hz H. apply Hz. apply Z2Qc_inj. now rewrite Z2Qc_inj_0. Qed.

Lemma Qc_num_den (x : Qc) :
  (x * Qc_of_Z (Z.pos (Qden x)))%Qc = Qc_of_Z (Qnum x).
Proof.
  apply Qc_is_canon. unfold Qcmult, Q2Qc. cbn [this Qc_of_Z].
  rewrite Qred_correct. unfold Qeq, Qmult, inject_Z. cbn [Qnum Qden].
  rewrite !Pos.mul_1_r. lia.
Qed.

Lemma Qc_frac_eq (a b c d : Z) :
  b <> 0 -> d <> 0 -> a * d = c * b ->
  (Qc_of_Z a / Qc_of_Z b)%Qc = (Qc_of_Z c / Qc_of_Z d)%Qc.
Proof.
  intros Hb Hd H.
  pose proof (Qc_of_Z_nonzero b Hb) as Hb'.
  pose proof (Qc_of_Z_nonzero d Hd) as Hd'.
  assert (H' : (Qc_of_Z a * Qc_of_Z d)%Qc = (Qc_of_Z c * Qc_of_Z b)%Qc)
    by now rewrite <- !Z2Qc_inj_mul, H.
  transitivity ((Qc_of_Z a * Qc_of_Z d) / (Qc_of_Z b * Qc_of_Z d))%Qc.
  - field. split; assumption.
  - rewrite H'. field. split; assumption.
Qed.

Lemma Qc_as_fraction (x : Qc) :
  x = (Qc_of_Z (Qnum x) / Qc_of_Z (Z.pos (Qden x)))%Qc.
Proof.
  rewrite <- Qc_num_den. field. apply Qc_of_Z_nonzero. lia.
Qed.

Lemma pow10_nonpos (s : Z) :
  s <= 0 -> Decimal.pow10 s = (/ Qc_of_Z (10 ^ (- s)))%Qc.
Proof.
  intros Hs. unfold Decimal.pow10.
  destruct (Z.leb_spec 0 s) as [H0 | _]; [| reflexivity].
  assert (s = 0) as -> by lia. apply Qc_is_canon. reflexivity.
Qed.

(** Rounding leaves alone a value that already fits the precision: a
    decimal [m / 10 ^ k] whose coefficient has at most [prec] digits. *)
Lemma fix_exact (x : Qc) (m k : Z) :
  0 <= k ->
  Z.abs m < 10 ^ Decimal.prec ->
  Qnum x * 10 ^ k = m * Z.pos (Qden x) ->
  Decimal.fix_ x = x.
Proof.
  intros Hk Hm Heq. unfold Decimal.fix_.
  set (n := Qnum x) in *. set (d := Z.pos (Qden x)) in *.
  destruct (Z.eqb_spec (Z.abs n) 0) as [| Hn0]; [reflexivity |].
  assert (Hd : 0 < d) by (unfold d; lia).
  assert (Hn : 0 < Z.abs n) by lia.
  pose proof (pow10_pos k Hk) as Hpk.
  assert (Habs : Z.abs n * 10 ^ k = Z.abs m * d).
  { rewrite <- (Z.abs_eq (10 ^ k)) at 1 by lia.
    rewrite <- Z.abs_mul, Heq, Z.abs_mul. now rewrite (Z.abs_eq d) by lia. }
  assert (Hsgn : Z.sgn n * Z.abs m = m).
  { assert (Hs : Z.sgn n = Z.sgn m).
    { assert (H : Z.sgn (n * 10 ^ k) = Z.sgn (m * d)) by now rewrite Heq.
      rewrite !Z.sgn_mul in H.
      rewrite (Z.sgn_pos (10 ^ k)), (Z.sgn_pos d) in H by lia. lia. }
    rewrite Hs, Z.mul_comm. apply Z.abs_sgn. }
  destruct (adjusted_spec (Z.abs n) d Hn Hd) as (Ha & _).
  set (a := Decimal.adjusted (Z.abs n) d) in *.
  assert (Hak : a + k < Decimal.prec).
  { destruct (Z.lt_ge_cases (a + k) Decimal.prec) as [| Hge]; [assumption |].
    exfalso.
    apply (ge_pow10_mono _ _ _ (Decimal.prec - k)) in Ha; [| lia | lia].
    apply (ge_pow10_scaled _ _ _ k) in Ha; [| lia | unfold Decimal.prec; lia].
    replace (k + (Decimal.prec - k)) with Decimal.prec in Ha by lia.
    rewrite Habs in Ha. nia. }
  set (s := a - Decimal.prec + 1).
  assert (Hs : s <= - k) by (unfold s; lia).
  set (j := - s - k).
  assert (Hj : 0 <= j) by (unfold j; lia).
  pose proof (pow10_pos j Hj) as Hpj.
  assert (Hpow : 10 ^ (- s) = 10 ^ j * 10 ^ k).
  { rewrite <- Z.pow_add_r by lia. f_equal. unfold j. lia. }
  assert (Hc : (if 0 <=? s
                then Decimal.round_half_even (Z.abs n) (d * 10 ^ s)
                else Decimal.round_half_even (Z.abs n * 10 ^ (- s)) d)
               = Z.abs m * 10 ^ j).
  { destruct (Z.leb_spec 0 s) as [H0 | Hneg].
    - assert (s = 0) as Hs0 by lia. assert (k = 0) as Hk0 by lia.
      assert (j = 0) as Hj0 by (unfold j; lia).
      rewrite Hs0, Hj0. change (10 ^ 0) with 1. rewrite !Z.mul_1_r.
      rewrite Hk0 in Habs. change (10 ^ 0) with 1 in Habs.
      rewrite Z.mul_1_r in Habs. rewrite Habs.
      apply round_half_even_exact. assumption.
    - rewrite Hpow.
      replace (Z.abs n * (10 ^ j * 10 ^ k)) with ((Z.abs m * 10 ^ j) * d)
        by (rewrite <- Z.mul_assoc, (Z.mul_comm (10 ^ j) d), Z.mul_assoc, <- Habs; ring).
      apply round_half_even_exact. assumption. }
  rewrite Hc, pow10_nonpos by lia.
  change ((Qc_of_Z (Z.sgn n * (Z.abs m * 10 ^ j)) / Qc_of_Z (10 ^ (- s)))%Qc = x).
  etransitivity; [| symmetry; apply Qc_as_fraction]. fold n d.
  apply Qc_frac_eq; [lia | lia |].
  rewrite Hpow, Z.mul_assoc, Hsgn.
  replace (n * (10 ^ j * 10 ^ k)) with ((n * 10 ^ k) * 10 ^ j) by ring.
  rewrite Heq. ring.
Qed.

Lemma fix_of_int (z : Z) :
  Z.abs z < 10 ^ Decimal.prec -> Decimal.fix_ (Decimal.of_int z) = Decimal.of_int z.
Proof.
  intros Hz. apply (fix_exact _ z 0); [lia | assumption |].
  unfold Decimal.of_int. cbn [Qc_of_Z this inject_Z Qnum Qden]. reflexivity.
Qed.

Lemma add_of_int (a b : Z) :
  Z.abs (a + b) < 10 ^ Decimal.prec ->
  Decimal.add (Decimal.of_int a) (Decimal.of_int b) = Decimal.of_int (a + b).
Proof.
  intros H. unfold Decimal.add, Decimal.of_int.
  rewrite <- Z2Qc_inj_add. now apply fix_of_int.
Qed.

Lemma total_nonneg (ks : list Z) : Forall (fun k => 0 <= k) ks -> 0 <= total ks.
Proof. induction 1; cbn [total fold_right]; [lia | fold (total l); lia]. Qed.

Lemma sum_of_int_from (ks : list Z) (acc : Z) :
  Forall (fun k => 0 <= k) ks ->
  0 <= acc ->
  acc + total ks < 10 ^ Decimal.prec ->
  fold_left Decimal.add (map Decimal.of_int ks) (Decimal.of_int acc)
  = Decimal.of_int (acc + total ks).
Proof.
  intros Hks. revert acc.
  induction Hks as [| k l Hk Hl IH]; intros acc Hacc Hsum;
    cbn [map fold_left total fold_right].
  - now rewrite Z.add_0_r.
  - cbn [total fold_right] in Hsum. fold (total l) in *.
    pose proof (total_nonneg l Hl).
    rewrite add_of_int by lia. rewrite IH by lia. f_equal. lia.
Qed.

(** Below the precision the decimal sum of integer scores is their sum. *)
Lemma sum_of_int (ks : list Z) :
  Forall (fun k => 0 <= k) ks ->
  total ks < 10 ^ Decimal.prec ->
  Decimal.sum (map Decimal.of_int ks) = Decimal.of_int (total ks).
Proof.
  intros Hks Hsum. unfold Decimal.sum.
  now rewrite sum_of_int_from by (assumption || lia).
Qed.

Lemma Qc_fraction_num_den (x : Qc) (m p : Z) :
  0 < p ->
  x = (Qc_of_Z m / Qc_of_Z p)%Qc ->
  Qnum x * p = m * Z.pos (Qden x).
Proof.
  intros Hp Hx. apply Z2Qc_inj. rewrite !Z2Qc_inj_mul, <- Qc_num_den.
  rewrite Hx at 1.
  assert (Hp' : Qc_of_Z p <> 0%Qc) by (apply Qc_of_Z_nonzero; lia).
  field. assumption.
Qed.

Lemma mean_exact (ks : list Z) (m k : Z) :
  ks <> [] ->
  0 <= k ->
  Z.abs m < 10 ^ Decimal.prec ->
  total ks * 10 ^ k = m * Z.of_nat (length ks) ->
  Decimal.fix_ (mean ks) = mean ks.
Proof.
  intros Hne Hk Hm Heq.
  assert (Hlen : 0 < Z.of_nat (length ks)) by (destruct ks; [congruence | cbn; lia]).
  pose proof (pow10_pos k Hk) as Hpk.
  apply (fix_exact _ m k); [assumption | assumption |].
  apply Qc_fraction_num_den; [assumption |].
  unfold mean. apply Qc_frac_eq; [lia | lia | assumption].
Qed.

Lemma overall_score_some (db : Store) (id : Z) (d : Decimal.t) (ds : list Decimal.t) :
  id <> 0 ->
  omap rula_score (get_assessment_body_parts db id) = d :: ds ->
  fst (_calculate_overall_scores (Some id) db)
  = Decimal.div (Decimal.sum (d :: ds))
                (Decimal.of_int (Z.of_nat (length (d :: ds)))).
Proof.
  intros Hid Hs. unfold _calculate_overall_scores, not_assessment_id.
  destruct (Z.eqb_spec id 0) as [| _]; [contradiction |].
  change (default 0 (Some id)) with id.
  destruct (get_assessment_body_parts db id) as [| bp l]; [discriminate Hs |].
  cbn [fst]. now rewrite Hs.
Qed.

Lemma overall_score_none (db : Store) (id : Z) :
  omap rula_score (get_assessment_body_parts db id) = [] ->
  fst (_calculate_overall_scores (Some id) db) = Decimal.of_int 2.
Proof.
  intros Hs. unfold _calculate_overall_scores, not_assessment_id.
  destruct (Z.eqb_spec id 0) as [| _]; [reflexivity |].
  change (default 0 (Some id)) with id.
  destruct (get_assessment_body_parts db id) as [| bp l]; [reflexivity |].
  cbn [fst]. now rewrite Hs.
Qed.

(** C8, as the code has it.  With [body_parts] the rows handed over for
    the session and their present posture scores non-negative integers
    whose sum has at most 28 digits: the overall score is the arithmetic
    mean of the present posture scores rounded half-even to 28 significant
    digits, and it is that mean exactly whenever the mean is a decimal of
    at most 28 significant digits.  Without any posture score the overall
    score is 2.  For the empty sequence of body parts, and for a session
    without identifier, the result is score 2 and risk green. *)
Theorem overall_score_is_rounded_mean (db : Store) (id : Z)
    (body_parts : list BodyPartAssessment) :
  id <> 0 ->
  get_assessment_body_parts db id = body_parts ->
  let scores := omap rula_score body_parts in
  let overall := _calculate_overall_scores (Some id) db in
  (forall ks,
      scores = map Decimal.of_int ks ->
      ks <> [] ->
      Forall (fun k => 0 <= k) ks ->
      total ks < 10 ^ Decimal.prec ->
      fst overall = Decimal.fix_ (mean ks)
      /\ (forall m k,
            0 <= k -> Z.abs m < 10 ^ Decimal.prec ->
            total ks * 10 ^ k = m * Z.of_nat (length ks) ->
            fst overall = mean ks))
  /\ (scores = [] -> fst overall = Decimal.of_int 2)
  /\ (body_parts = [] -> overall = (Decimal.of_int 2, GREEN))
  /\ _calculate_overall_scores None db = (Decimal.of_int 2, GREEN)
  /\ _calculate_overall_scores (Some 0) db = (Decimal.of_int 2, GREEN).
Proof.
  intros Hid Hbps scores overall.
  split; [| split; [| split; [| split; reflexivity]]].
  - intros ks Hks Hne Hpos Hsum.
    assert (Hround : fst overall = Decimal.fix_ (mean ks)).
    { unfold overall, scores in *. rewrite <- Hbps in Hks.
      destruct ks as [| k ks']; [congruence |].
      cbn [map] in Hks.
      rewrite (overall_score_some db id _ _ Hid Hks).
      change (Decimal.of_int k :: map Decimal.of_int ks')
        with (map Decimal.of_int (k :: ks')).
      rewrite sum_of_int by assumption.
      rewrite length_map. reflexivity. }
    split; [exact Hround |].
    intros m k Hk Hm Heq. rewrite Hround. now apply (mean_exact ks m k).
  - intros Hs. unfold overall. apply overall_score_none.
    rewrite Hbps. exact Hs.
  - intros Hnil. unfold overall, _calculate_overall_scores, not_assessment_id.
    destruct (Z.eqb_spec id 0) as [| _]; [reflexivity |].
    change (default 0 (Some id)) with id. now rewrite Hbps, Hnil.
Qed.

Lemma overall_score_is_rounded_mean_witness :
  fst (_calculate_overall_scores (Some 1)
         [row_of 1 (Some 2) (Some GREEN); row_of 1 (Some 3) (Some GREEN)])
  = mean [2; 3].
Proof.
  refine (proj2 (proj1 (overall_score_is_rounded_mean
                          [row_of 1 (Some 2) (Some GREEN); row_of 1 (Some 3) (Some GREEN)] 1
                          [row_of 1 (Some 2) (Some GREEN); row_of 1 (Some 3) (Some GREEN)]
                          _ _) [2; 3] _ _ _ _) 25 1 _ _ _);
    first [ lia | reflexivity | discriminate | (repeat constructor; lia) ].
Defined.

(** C8 as stated fails twice.  Posture scores 1, 1, 2 have mean 4/3, and
    the overall score is 1.333333333333333333333333333, which is not 4/3.
    And a session whose only body part has no posture score but a red
    discomfort level has no posture score present, yet its overall risk is
    red, not green. *)
Lemma overall_score_not_always_mean_nor_green :
  (let db := [row_of 1 (Some 1) (Some GREEN); row_of 1 (Some 1) (Some GREEN);
              row_of 1 (Some 2) (Some GREEN)] in
   get_assessment_body_parts db 1 = db
   /\ omap rula_score db = map Decimal.of_int [1; 1; 2]
   /\ this (fst (_calculate_overall_scores (Some 1) db))
      = (1333333333333333333333333333 # 1000000000000000000000000000)
   /\ this (mean [1; 1; 2]) = (4 # 3)
   /\ fst (_calculate_overall_scores (Some 1) db) <> mean [1; 1; 2])
  /\ (let db := [row_of 1 None (Some RED)] in
      get_assessment_body_parts db 1 = db
      /\ omap rula_score db = []
      /\ _calculate_overall_scores (Some 1) db = (Decimal.of_int 2, RED)
      /\ snd (_calculate_overall_scores (Some 1) db) <> GREEN).
Proof.
  split.
  - cbv zeta. split; [reflexivity |]. split; [reflexivity |].
    split; [vm_compute; reflexivity |]. split; [vm_compute; reflexivity |].
    intros H. apply (f_equal this) in H. vm_compute in H. discriminate H.
  - cbv zeta. split; [reflexivity |]. split; [reflexivity |].
    split; [reflexivity | discriminate].
Qed.

(** ** Posture scores of created rows *)

Lemma tier_score_range (bounds : list Z) (a : pyfloat) :
  1 <= tier_score bounds a <= Z.of_nat (length bounds) + 1.
Proof.
  induction bounds as [| b l IH]; cbn [tier_score length]; [lia |].
  destruct (float_lt_int a b); lia.
Qed.

Lemma score_posture_range (angles : gmap string pyfloat) (b : BodyPartType) :
  1 <= default 2 (score_posture angles b) <= 4.
Proof.
  unfold score_posture.
  destruct (posture_table b) as [[key bounds] |] eqn:Ht; [| cbn; lia].
  destruct (angles !! key) as [a |]; [| cbn; lia].
  cbn [fmap option_fmap option_map default from_option id].
  pose proof (tier_score_range bounds a) as Hr.
  destruct b; try discriminate Ht; cbn [posture_table] in Ht;
    injection Ht as <- <-; cbn [length] in Hr; lia.
Qed.

(** Every row the body-part aggregator creates carries an integer posture
    score between 1 and 4, and the discomfort level of its own score. *)
Lemma created_row_scores (db : Store) (id : Z) (b : BodyPartType)
    (angles : gmap string pyfloat) (s : SeverityLevel) (f : FrequencyLevel) :
  exists db' row,
    create_body_part_assessment db id b angles s f = Ok (db', row)
    /\ (exists k, 1 <= k <= 4 /\ row.(rula_score) = Some (Decimal.of_int k))
    /\ row.(gotrak_score) = Some (rank_severity s * rank_frequency f)
    /\ row.(gotrak_risk_level)
       = Some (get_gotrak_risk_level (rank_severity s * rank_frequency f))
    /\ row.(assessment_id) = id
    /\ db' = (db ++ [row])%list.
Proof.
  unfold create_body_part_assessment.
  destruct (rula_score_follows_table angles b) as (scores & -> & Hf & _).
  rewrite gotrak_score_member.
  cbn [mbind result_bind].
  eexists _, _. split; [reflexivity |].
  cbn [session_refresh rula_score gotrak_score gotrak_risk_level assessment_id].
  split; [| repeat split].
  exists (default 2 (score_posture angles b)).
  split; [apply score_posture_range | now rewrite Hf].
Qed.

(** * Further properties of the code *)

(** ** Enumeration calls *)

Lemma enum_call_ok {E} (value : E -> string) (members : list E) (cls : string)
    (v : pyval) (m : E) :
  enum_call value members cls v = Ok m -> v = PyStr (value m) /\ In m members.
Proof.
  unfold enum_call. destruct v as [| z | s | items]; try discriminate.
  destruct (find _ members) as [m' |] eqn:Hfind; [| discriminate].
  intros [= <-]. apply find_some in Hfind as [Hin Hval].
  apply bool_decide_eq_true in Hval. now subst s.
Qed.

Lemma enum_call_raises {E} (value : E -> string) (members : list E) (cls : string)
    (v : pyval) :
  (forall m, In m members -> v <> PyStr (value m)) ->
  enum_call value members cls v = Raise (ValueError cls).
Proof.
  intros Hno. unfold enum_call. destruct v as [| z | s | items]; try reflexivity.
  destruct (find _ members) as [m |] eqn:Hfind; [| reflexivity].
  apply find_some in Hfind as [Hin Hval].
  apply bool_decide_eq_true in Hval. exfalso. apply (Hno m Hin). now subst s.
Qed.

Lemma FrequencyLevel_call_member (f : FrequencyLevel) :
  FrequencyLevel_call (freq f) = Ok f.
Proof. destruct f; reflexivity. Qed.

Lemma BodyPartType_call_member (b : BodyPartType) :
  BodyPartType_call (bpt b) = Ok b.
Proof. destruct b; reflexivity. Qed.

(** X1. The enumeration calls invert [.value]: on the value of a member they
    return that member, they return a member for no other argument, and on
    every other argument they raise ValueError. *)
Theorem enum_value_round_trip :
  (forall v s, SeverityLevel_call v = Ok s <-> v = sev s)
  /\ (forall v f, FrequencyLevel_call v = Ok f <-> v = freq f)
  /\ (forall v b, BodyPartType_call v = Ok b <-> v = bpt b)
  /\ (forall v, ~ is_severity v <->
                SeverityLevel_call v = Raise (ValueError "SeverityLevel"))
  /\ (forall v, ~ is_frequency v <->
                FrequencyLevel_call v = Raise (ValueError "FrequencyLevel"))
  /\ (forall v, ~ is_body_part v <->
                BodyPartType_call v = Raise (ValueError "BodyPartType")).
Proof.
  repeat split.
  - intros H. now apply enum_call_ok in H as [-> _].
  - intros ->. apply SeverityLevel_call_member.
  - intros H. now apply enum_call_ok in H as [-> _].
  - intros ->. apply FrequencyLevel_call_member.
  - intros H. now apply enum_call_ok in H as [-> _].
  - intros ->. apply BodyPartType_call_member.
  - intros Hv. apply enum_call_raises. intros m _ ->. apply Hv. now exists m.
  - intros Hr [s ->]. rewrite SeverityLevel_call_member in Hr. discriminate.
  - intros Hv. apply enum_call_raises. intros m _ ->. apply Hv. now exists m.
  - intros Hr [f ->]. rewrite FrequencyLevel_call_member in Hr. discriminate.
  - intros Hv. apply enum_call_raises. intros m _ ->. apply Hv. now exists m.
  - intros Hr [b ->]. rewrite BodyPartType_call_member in Hr. discriminate.
Qed.

(** ** The body map *)

Lemma BodyPartType_name_is_no_value (b : BodyPartType) :
  ~ is_body_part (PyStr (BodyPartType_name b)).
Proof. intros [b' Hb]. destruct b; destruct b'; discriminate Hb. Qed.

(** X2. A click on the map posts the [data-part] attribute of the element,
    which is the name of a member, but the handler looks the member up by
    value: for every member name, and so for every clickable element, the
    lookup raises, the handler answers with status error, no panel is
    shown and the selection is unchanged.  Only a member value is
    accepted. *)
Theorem body_map_click_never_selects (body_map : InteractiveBodyMap.t) :
  (forall b,
      handle_body_map_click body_map (Some (BodyPartType_name b))
      = (body_map, None, "error"))
  /\ Forall (fun name =>
       (exists b, name = BodyPartType_name b)
       /\ handle_body_map_click body_map (Some name) = (body_map, None, "error"))
     body_map_data_parts
  /\ (forall name body_map' panel,
        handle_body_map_click body_map (Some name) = (body_map', Some panel, "success")
        <-> exists b, name = BodyPartType_value b
                      /\ InteractiveBodyMap.show_body_part_info body_map b
                         = (body_map', panel)).
Proof.
  assert (Hname : forall b,
      handle_body_map_click body_map (Some (BodyPartType_name b))
      = (body_map, None, "error")).
  { intros b. unfold handle_body_map_click.
    assert (Hne : negb (String.eqb (BodyPartType_name b) "") = true)
      by (destruct b; reflexivity).
    rewrite Hne.
    unfold BodyPartType_call. rewrite enum_call_raises; [reflexivity |].
    intros m _ Hm. apply (BodyPartType_name_is_no_value b). now exists m. }
  split; [exact Hname |]. split.
  - apply List.Forall_forall. intros name Hin. cbn [body_map_data_parts In] in Hin.
    assert (Hb : exists b, name = BodyPartType_name b).
    { repeat (destruct Hin as [<- | Hin];
              [first [ now exists NECK | now exists SHOULDER_LEFT
                     | now exists SHOULDER_RIGHT | now exists ARM_LEFT
                     | now exists ARM_RIGHT | now exists UPPER_BACK
                     | now exists LOWER_BACK | now exists WRIST_LEFT
                     | now exists WRIST_RIGHT ] |]).
      contradiction. }
    split; [exact Hb |]. destruct Hb as [b ->]. apply Hname.
  - intros name body_map' panel. unfold handle_body_map_click. split.
    + destruct (negb (String.eqb name "")); [| discriminate].
      destruct (BodyPartType_call (PyStr name)) as [b | e] eqn:Hcall; [| discriminate].
      apply enum_call_ok in Hcall as [[= ->] _].
      destruct (InteractiveBodyMap.show_body_part_info body_map b) as [bm p] eqn:Hshow.
      intros [= <- <-]. exists b. split; [reflexivity | exact Hshow].
    + intros (b & -> & Hshow).
      assert (Hne : negb (String.eqb (BodyPartType_value b) "") = true)
        by (destruct b; reflexivity).
      rewrite Hne. fold (bpt b). rewrite BodyPartType_call_member, Hshow.
      reflexivity.
Qed.

Lemma BodyPartType_value_inj (b b' : BodyPartType) :
  BodyPartType_value b = BodyPartType_value b' -> b = b'.
Proof. destruct b; destruct b'; intros H; first [reflexivity | discriminate H]. Qed.

(** X3. A body part whose stored row has no discomfort level is painted
    like a green one on the map (class risk-green) and its risk card has
    the green background; the label of the card reads "Not Assessed" in
    gray, where an assessed body part has its level in the colour of the
    level; yet the panel lists the recommendations of a red body part,
    not those of a green one. *)
Theorem unassessed_level_is_green_with_red_advice
    (self : InteractiveBodyMap.t) (b : BodyPartType) (risk_info : BodyPartRiskInfo.t) :
  self.(InteractiveBodyMap.body_part_data) !! BodyPartType_value b = Some risk_info ->
  risk_info.(BodyPartRiskInfo.gotrak_risk_level) = None ->
  InteractiveBodyMap._update_body_map_colors self !! BodyPartType_value b
  = Some "risk-green"
  /\ (exists recommendations,
        snd (InteractiveBodyMap.show_body_part_info self b)
        = PanelInfo risk_info.(BodyPartRiskInfo.body_part_name)
                    "bg-green-100" "Risk Level: Not Assessed" "text-gray-500"
                    recommendations
        /\ (forall red, red.(BodyPartRiskInfo.gotrak_risk_level) = Some RED ->
              InteractiveBodyMap._show_recommendations red = recommendations)
        /\ (forall green, green.(BodyPartRiskInfo.gotrak_risk_level) = Some GREEN ->
              InteractiveBodyMap.risk_class green = "risk-green"
              /\ InteractiveBodyMap._show_recommendations green <> recommendations))
  /\ (forall self' b' green,
        self'.(InteractiveBodyMap.body_part_data) !! BodyPartType_value b' = Some green ->
        green.(BodyPartRiskInfo.gotrak_risk_level) = Some GREEN ->
        snd (InteractiveBodyMap.show_body_part_info self' b')
        = PanelInfo green.(BodyPartRiskInfo.body_part_name)
                    "bg-green-100" "Risk Level: Green" "text-green-600"
                    (InteractiveBodyMap._show_recommendations green)).
Proof.
  intros Hdata Hnone. split; [| split].
  - unfold InteractiveBodyMap._update_body_map_colors.
    rewrite lookup_fmap, Hdata. cbn [fmap option_fmap option_map].
    unfold InteractiveBodyMap.risk_class. now rewrite Hnone.
  - exists (InteractiveBodyMap._show_recommendations risk_info). split; [| split].
    + unfold InteractiveBodyMap.show_body_part_info.
      cbn [InteractiveBodyMap.body_part_data]. rewrite Hdata, Hnone. reflexivity.
    + intros red Hred. unfold InteractiveBodyMap._show_recommendations.
      now rewrite Hred, Hnone.
    + intros green Hgreen.
      unfold InteractiveBodyMap.risk_class, InteractiveBodyMap._show_recommendations.
      rewrite Hgreen, Hnone. split; [reflexivity | discriminate].
  - intros self' b' green Hdata' Hgreen.
    unfold InteractiveBodyMap.show_body_part_info.
    cbn [InteractiveBodyMap.body_part_data]. rewrite Hdata', Hgreen. reflexivity.
Qed.

Lemma unassessed_level_is_green_with_red_advice_witness :
  let self := InteractiveBodyMap.__init__ 1 [row_of 1 (Some 2) None] in
  InteractiveBodyMap._update_body_map_colors self !! BodyPartType_value NECK
  = Some "risk-green"
  /\ exists recommendations,
       snd (InteractiveBodyMap.show_body_part_info self NECK)
       = PanelInfo "Neck" "bg-green-100" "Risk Level: Not Assessed" "text-gray-500"
                   recommendations.
Proof.
  intros self.
  destruct (unassessed_level_is_green_with_red_advice self NECK
              (risk_info_of (row_of 1 (Some 2) None)) eq_refl eq_refl)
    as (Hmap & (recommendations & Hpanel & _) & _).
  split; [exact Hmap |]. exists recommendations. exact Hpanel.
Defined.

(** ** First row or last row *)

Lemma find_is_head_filter {A} (p : A -> bool) (l : list A) :
  List.find p l = head (List.filter p l).
Proof.
  induction l as [| x l IH]; [reflexivity |].
  cbn [List.find List.filter]. destruct (p x); [reflexivity | exact IH].
Qed.

Lemma filter_filter_andb {A} (p q : A -> bool) (l : list A) :
  List.filter q (List.filter p l) = List.filter (fun x => p x && q x) l.
Proof.
  induction l as [| x l IH]; [reflexivity |].
  cbn [List.filter]. destruct (p x); cbn [andb List.filter]; [| exact IH].
  destruct (q x); now rewrite IH.
Qed.

Lemma body_part_data_is_last (rows : list BodyPartAssessment)
    (self : InteractiveBodyMap.t) (b : BodyPartType) :
  (foldl InteractiveBodyMap.set_body_part_data self rows)
    .(InteractiveBodyMap.body_part_data) !! BodyPartType_value b
  = match last (List.filter (fun bp => bool_decide (bp.(body_part) = b)) rows) with
    | Some bp => Some (risk_info_of bp)
    | None => self.(InteractiveBodyMap.body_part_data) !! BodyPartType_value b
    end.
Proof.
  revert self. induction rows as [| bp rows IH]; intros self; [reflexivity |].
  cbn [foldl List.filter]. rewrite IH.
  cbn [InteractiveBodyMap.set_body_part_data InteractiveBodyMap.body_part_data].
  destruct (decide (bp.(body_part) = b)) as [Heq | Hne].
  - rewrite bool_decide_eq_true_2 by assumption.
    rewrite Heq, lookup_insert_eq.
    destruct (List.filter _ rows) as [| y l] eqn:Hf; [reflexivity |].
    change (last (bp :: y :: l)) with (last (y :: l)).
    destruct (last (y :: l)) eqn:Hl; [reflexivity |].
    now apply last_None in Hl.
  - rewrite bool_decide_eq_false_2 by assumption.
    rewrite lookup_insert_ne; [reflexivity |].
    intros Hv. apply Hne. now apply BodyPartType_value_inj.
Qed.

(** X4. When a body part has several rows in one assessment (it was assessed
    again), [get_body_part_risk_info] reports the first of them and the
    body map shows the last; with at most one row the two agree. *)
Theorem risk_info_first_row_map_last_row (db : Store) (id : Z) (b : BodyPartType) :
  let rows :=
    List.filter (fun bp => bool_decide (bp.(body_part) = b))
                (get_assessment_body_parts db id) in
  get_body_part_risk_info db id b = risk_info_of <$> head rows
  /\ (InteractiveBodyMap.__init__ id db).(InteractiveBodyMap.body_part_data)
       !! BodyPartType_value b
     = risk_info_of <$> last rows
  /\ ((length rows <= 1)%nat ->
      get_body_part_risk_info db id b
      = (InteractiveBodyMap.__init__ id db).(InteractiveBodyMap.body_part_data)
          !! BodyPartType_value b)
  /\ (forall first second,
        rows = [first; second] ->
        get_body_part_risk_info db id b = Some (risk_info_of first)
        /\ (InteractiveBodyMap.__init__ id db).(InteractiveBodyMap.body_part_data)
             !! BodyPartType_value b
           = Some (risk_info_of second)).
Proof.
  intros rows.
  assert (Hfirst : get_body_part_risk_info db id b = risk_info_of <$> head rows).
  { unfold get_body_part_risk_info, rows, get_assessment_body_parts.
    rewrite find_is_head_filter, filter_filter_andb.
    now destruct (head _). }
  assert (Hlast :
    (InteractiveBodyMap.__init__ id db).(InteractiveBodyMap.body_part_data)
      !! BodyPartType_value b = risk_info_of <$> last rows).
  { unfold InteractiveBodyMap.__init__, InteractiveBodyMap._load_body_part_data.
    cbn [InteractiveBodyMap.assessment_id].
    rewrite body_part_data_is_last. fold rows.
    cbn [InteractiveBodyMap.body_part_data]. rewrite lookup_empty.
    now destruct (last rows). }
  split; [exact Hfirst |]. split; [exact Hlast |]. split.
  - intros Hlen. rewrite Hfirst, Hlast.
    destruct rows as [| x [| y l]]; [reflexivity | reflexivity |].
    cbn [length] in Hlen. lia.
  - intros first second Hrows. rewrite Hfirst, Hlast, Hrows. split; reflexivity.
Qed.

Lemma risk_info_first_row_map_last_row_witness :
  get_body_part_risk_info
    [row_of 1 (Some 2) (Some GREEN); row_of 1 (Some 2) (Some RED)] 1 NECK
  = Some (risk_info_of (row_of 1 (Some 2) (Some GREEN)))
  /\ (InteractiveBodyMap.__init__ 1
        [row_of 1 (Some 2) (Some GREEN); row_of 1 (Some 2) (Some RED)])
       .(InteractiveBodyMap.body_part_data) !! BodyPartType_value NECK
     = Some (risk_info_of (row_of 1 (Some 2) (Some RED))).
Proof.
  refine (proj2 (proj2 (proj2 (risk_info_first_row_map_last_row
            [row_of 1 (Some 2) (Some GREEN); row_of 1 (Some 2) (Some RED)] 1 NECK)))
            _ _ _).
  reflexivity.
Defined.

(** ** Capture warnings and posture scores *)

Lemma float_gt_excludes_lt (a : pyfloat) (n m : Z) :
  m <= n -> float_gt_int a n = true -> float_lt_int a m = false.
Proof.
  intros Hmn. destruct a as [q | | |]; cbn [float_gt_int float_lt_int];
    try discriminate; try reflexivity.
  rewrite negb_true_iff, negb_false_iff, Qle_bool_iff.
  intros Hgt. apply not_true_iff_false in Hgt. rewrite Qle_bool_iff in Hgt.
  apply Qnot_le_lt in Hgt. apply Qlt_le_weak.
  eapply Qle_lt_trans; [| exact Hgt].
  rewrite <- Zle_Qle. exact Hmn.
Qed.

Lemma angles_get_gt (angles : gmap string pyfloat) (key : string) (n : Z) :
  0 <= n ->
  float_gt_int (angles_get angles key) n = true ->
  exists a, angles !! key = Some a /\ float_gt_int a n = true.
Proof.
  intros Hn. unfold angles_get. destruct (angles !! key) as [a |]; cbn [default].
  - intros H. now exists a.
  - cbn [from_option float_gt_int]. rewrite negb_true_iff.
    intros H. apply not_true_iff_false in H. exfalso. apply H.
    apply Qle_bool_iff. change 0%Q with (inject_Z 0). now rewrite <- Zle_Qle.
Qed.

Lemma risk_items_spec (angles : gmap string pyfloat) :
  (In "Neck forward posture detected" (risk_items angles)
   <-> float_gt_int (angles_get angles "neck_flexion") 20 = true)
  /\ (In "Forward trunk lean detected" (risk_items angles)
      <-> float_gt_int (angles_get angles "trunk_flexion") 15 = true)
  /\ (In "Elevated arm posture detected" (risk_items angles)
      <-> float_gt_int (angles_get angles "left_upper_arm") 45 = true
          \/ float_gt_int (angles_get angles "right_upper_arm") 45 = true).
Proof.
  unfold risk_items. cbn [existsb].
  change ("left" +:+ "_upper_arm") with "left_upper_arm".
  change ("right" +:+ "_upper_arm") with "right_upper_arm".
  destruct (float_gt_int (angles_get angles "neck_flexion") 20);
    destruct (float_gt_int (angles_get angles "trunk_flexion") 15);
    destruct (float_gt_int (angles_get angles "left_upper_arm") 45);
    destruct (float_gt_int (angles_get angles "right_upper_arm") 45);
    cbn [orb app In];
    (split; [| split]); split; intros H;
    first [ reflexivity | (left; reflexivity) | (right; reflexivity)
          | tauto
          | (repeat destruct H as [H | H]; try discriminate H; contradiction)
          | (destruct H as [H | H]; discriminate H) ].
Qed.

(** X5. The warnings shown after a capture and the posture scores computed
    from the same angles: a neck warning means the neck scores 3, a trunk
    warning means the upper back scores at least 2, an arm warning means
    one arm scores at least 3.  The converse fails at the boundary: a
    neck angle of exactly 20 already scores 3 and raises no warning. *)
Theorem capture_warnings_and_posture_scores (angles : gmap string pyfloat) :
  (In "Neck forward posture detected" (risk_items angles) ->
     final_score angles (bpt NECK) = Ok (Some 3))
  /\ (In "Forward trunk lean detected" (risk_items angles) ->
        exists k, final_score angles (bpt UPPER_BACK) = Ok (Some k) /\ 2 <= k <= 4)
  /\ (In "Elevated arm posture detected" (risk_items angles) ->
        exists k, (final_score angles (bpt ARM_LEFT) = Ok (Some k)
                   \/ final_score angles (bpt ARM_RIGHT) = Ok (Some k))
                  /\ 3 <= k <= 4)
  /\ (angles !! "neck_flexion" = Some (Finite 20) ->
        final_score angles (bpt NECK) = Ok (Some 3)
        /\ ~ In "Neck forward posture detected" (risk_items angles)).
Proof.
  destruct (risk_items_spec angles) as (Hneck & Htrunk & Harm).
  split; [| split; [| split]].
  - intros Hin. apply Hneck in Hin.
    apply angles_get_gt in Hin as (a & Ha & Hgt); [| lia].
    rewrite final_score_follows_table. unfold score_posture. cbn [posture_table].
    rewrite Ha. cbn [fmap option_fmap option_map tier_score].
    rewrite (float_gt_excludes_lt a 20 10), (float_gt_excludes_lt a 20 20)
      by (assumption || lia).
    reflexivity.
  - intros Hin. apply Htrunk in Hin.
    apply angles_get_gt in Hin as (a & Ha & Hgt); [| lia].
    rewrite final_score_follows_table. unfold score_posture. cbn [posture_table].
    rewrite Ha. cbn [fmap option_fmap option_map tier_score].
    rewrite (float_gt_excludes_lt a 15 5) by (assumption || lia).
    eexists. split; [reflexivity |].
    destruct (float_lt_int a 20); [lia |]. destruct (float_lt_int a 60); lia.
  - intros Hin. apply Harm in Hin. destruct Hin as [Hin | Hin];
      apply angles_get_gt in Hin as (a & Ha & Hgt); try lia.
    + exists (tier_score [20; 45; 90] a). split.
      * left. rewrite final_score_follows_table. unfold score_posture.
        cbn [posture_table]. now rewrite Ha.
      * cbn [tier_score].
        rewrite (float_gt_excludes_lt a 45 20), (float_gt_excludes_lt a 45 45)
          by (assumption || lia).
        destruct (float_lt_int a 90); lia.
    + exists (tier_score [20; 45; 90] a). split.
      * right. rewrite final_score_follows_table. unfold score_posture.
        cbn [posture_table]. now rewrite Ha.
      * cbn [tier_score].
        rewrite (float_gt_excludes_lt a 45 20), (float_gt_excludes_lt a 45 45)
          by (assumption || lia).
        destruct (float_lt_int a 90); lia.
  - intros Ha. split.
    + rewrite final_score_follows_table. unfold score_posture. cbn [posture_table].
      now rewrite Ha.
    + rewrite Hneck. unfold angles_get. rewrite Ha. discriminate.
Qed.

Lemma capture_warnings_and_posture_scores_witness :
  final_score {[ "neck_flexion" := Finite 30 ]} (bpt NECK) = Ok (Some 3).
Proof.
  refine (proj1 (capture_warnings_and_posture_scores {[ "neck_flexion" := Finite 30 ]}) _).
  left. reflexivity.
Defined.

(** ** The mock analysis *)

Lemma uniform_lt (lo hi n : Z) (a : pyfloat) :
  hi < n -> uniform lo hi a -> float_lt_int a n = true.
Proof.
  intros Hn (q & -> & _ & Hhi). apply float_lt_int_finite.
  eapply Qle_lt_trans; [exact Hhi |]. now rewrite <- Zlt_Qlt.
Qed.

Lemma mock_angles_scores (angles : gmap string pyfloat) (b : BodyPartType) :
  _calculate_mock_rula_angles angles ->
  1 <= default 2 (score_posture angles b) <= 3.
Proof.
  intros (neck & lua & rua & lfa & rfa & trunk & lwd & rwd
          & Hneck & Hlua & Hrua & _ & _ & Htrunk & _ & _ & ->).
  unfold score_posture.
  destruct b; cbn [posture_table]; try (cbn; lia).
  - replace (_ !! "neck_flexion") with (Some neck) by (vm_compute; reflexivity).
    cbn [fmap option_fmap option_map default from_option id].
    pose proof (tier_score_range [10; 20] neck) as H. cbn [length] in H. lia.
  - replace (_ !! "left_upper_arm") with (Some lua) by (vm_compute; reflexivity).
    cbn [fmap option_fmap option_map default from_option id tier_score].
    rewrite (uniform_lt 15 60 90 lua) by (assumption || lia).
    destruct (float_lt_int lua 20); [lia |]. destruct (float_lt_int lua 45); lia.
  - replace (_ !! "right_upper_arm") with (Some rua) by (vm_compute; reflexivity).
    cbn [fmap option_fmap option_map default from_option id tier_score].
    rewrite (uniform_lt 15 60 90 rua) by (assumption || lia).
    destruct (float_lt_int rua 20); [lia |]. destruct (float_lt_int rua 45); lia.
  - replace (_ !! "trunk_flexion") with (Some trunk) by (vm_compute; reflexivity).
    cbn [fmap option_fmap option_map default from_option id tier_score].
    rewrite (uniform_lt 0 25 60 trunk) by (assumption || lia).
    destruct (float_lt_int trunk 5); [lia |]. destruct (float_lt_int trunk 20); lia.
Qed.

(** X6. Whatever [analyze_posture] returns, the angles the questionnaire
    takes from it never give a posture score of 4: every row created from
    them carries an integer posture score between 1 and 3. *)
Theorem mock_analysis_never_scores_four
    (analysis : Analysis.t) (c : WebcamCaptureComponent.t)
    (db : Store) (id : Z) (b : BodyPartType) (s : SeverityLevel) (f : FrequencyLevel) :
  analyze_posture analysis ->
  c.(WebcamCaptureComponent.latest_analysis) = Some analysis ->
  let angles := GotrakQuestionnaireComponent.latest_angles (Some c) in
  exists db' row k,
    create_body_part_assessment db id b angles s f = Ok (db', row)
    /\ row.(rula_score) = Some (Decimal.of_int k)
    /\ 1 <= k <= 3.
Proof.
  intros Han Hc angles.
  assert (Hrange : 1 <= default 2 (score_posture angles b) <= 3).
  { unfold angles, GotrakQuestionnaireComponent.latest_angles,
      WebcamCaptureComponent.get_latest_analysis. rewrite Hc.
    destruct Han as [-> | (mock & Hmock & ->)]; cbn [Analysis.angles default from_option Datatypes.id].
    - unfold score_posture.
      destruct (posture_table b) as [[key bounds] |]; [rewrite lookup_empty |]; cbn; lia.
    - now apply mock_angles_scores. }
  unfold create_body_part_assessment.
  destruct (rula_score_follows_table angles b) as (scores & -> & Hf & _).
  rewrite gotrak_score_member. cbn [mbind result_bind].
  eexists _, _, (default 2 (score_posture angles b)).
  split; [reflexivity |]. split; [| exact Hrange].
  cbn [session_refresh rula_score]. now rewrite Hf.
Qed.

Lemma mock_analysis_never_scores_four_witness :
  exists db' row k,
    create_body_part_assessment [] 1 NECK ∅ PAIN OFTEN = Ok (db', row)
    /\ row.(rula_score) = Some (Decimal.of_int k)
    /\ 1 <= k <= 3.
Proof.
  refine (mock_analysis_never_scores_four
            {| Analysis.pose_detected := false; Analysis.angles := None;
               Analysis.error := Some "No pose detected" |}
            {| WebcamCaptureComponent.user_id := 1;
               WebcamCaptureComponent.assessment_id := None;
               WebcamCaptureComponent.latest_analysis :=
                 Some {| Analysis.pose_detected := false; Analysis.angles := None;
                         Analysis.error := Some "No pose detected" |} |}
            [] 1 NECK PAIN OFTEN _ _).
  - left. reflexivity.
  - reflexivity.
Defined.

(** ** Assessments: creation, lookup, completion *)

Lemma find_app_ {A} (p : A -> bool) (l l' : list A) :
  List.find p (l ++ l') = match List.find p l with
                          | Some x => Some x
                          | None => List.find p l'
                          end.
Proof.
  induction l as [| x l IH]; [reflexivity |].
  cbn [app List.find]. destruct (p x); [reflexivity | exact IH].
Qed.

Lemma find_none_iff {A} (p : A -> bool) (l : list A) :
  (forall x, In x l -> p x = false) -> List.find p l = None.
Proof.
  induction l as [| x l IH]; intros H; [reflexivity |].
  cbn [List.find]. rewrite (H x) by (left; reflexivity).
  apply IH. intros y Hy. apply H. now right.
Qed.

Lemma keyed_bound (tbl : list Assessment.t) (a : Assessment.t) :
  keyed tbl -> In a tbl ->
  exists k, a.(Assessment.id_) = Some k /\ 1 <= k <= Z.of_nat (length tbl).
Proof.
  intros Hk Hin. apply list_elem_of_In, list_elem_of_lookup in Hin as [i Hi].
  pose proof (lookup_lt_Some _ _ _ Hi) as Hlt.
  exists (Z.of_nat i + 1). split; [now apply Hk | lia].
Qed.

(** X7. Creating an assessment in a table with assigned keys: the keys stay
    assigned, the new assessment is open, without overall score or risk,
    it is found under its key, every assessment found before is still
    found unchanged, and it is the last of its user's assessments. *)
Theorem created_assessment_is_found (tbl : list Assessment.t)
    (user_id : Z) (session_name notes : string) :
  keyed tbl ->
  let tbl' := fst (create_assessment tbl user_id session_name notes) in
  let a := snd (create_assessment tbl user_id session_name notes) in
  keyed tbl'
  /\ a.(Assessment.id_) = Some (Z.of_nat (length tbl) + 1)
  /\ a.(Assessment.is_completed) = false
  /\ a.(Assessment.overall_rula_score) = None
  /\ a.(Assessment.overall_risk_level) = None
  /\ get_assessment tbl (Z.of_nat (length tbl) + 1) = None
  /\ get_assessment tbl' (Z.of_nat (length tbl) + 1) = Some a
  /\ (forall id' a', get_assessment tbl id' = Some a' ->
                     get_assessment tbl' id' = Some a')
  /\ get_user_assessments tbl' user_id
     = (get_user_assessments tbl user_id ++ [a])%list.
Proof.
  intros Hk tbl' a. cbn in tbl', a.
  assert (Hfresh : get_assessment tbl (Z.of_nat (length tbl) + 1) = None).
  { unfold get_assessment. apply find_none_iff. intros x Hx.
    apply bool_decide_eq_false. intros Hid.
    destruct (keyed_bound tbl x Hk Hx) as (k & Hk' & Hrange).
    rewrite Hk' in Hid. injection Hid as ->. lia. }
  repeat split; try reflexivity.
  - intros i x Hi. unfold tbl' in Hi.
    destruct (decide (i < length tbl)%nat) as [Hlt | Hge].
    + rewrite lookup_app_l in Hi by assumption. now apply Hk.
    + rewrite lookup_app_r in Hi by lia.
      destruct (i - length tbl)%nat as [| n] eqn:Hn; [| discriminate Hi].
      injection Hi as <-. cbn [Assessment.id_]. f_equal. lia.
  - exact Hfresh.
  - unfold tbl', get_assessment. rewrite find_app_.
    unfold get_assessment in Hfresh. rewrite Hfresh.
    cbn [List.find Assessment.id_]. now rewrite bool_decide_eq_true_2.
  - intros id' a' Hfind. unfold tbl', get_assessment. rewrite find_app_.
    unfold get_assessment in Hfind. now rewrite Hfind.
  - unfold tbl', get_user_assessments. rewrite List.filter_app.
    cbn [List.filter Assessment.user_id]. now rewrite bool_decide_eq_true_2.
Qed.

Lemma created_assessment_is_found_witness :
  get_assessment (fst (create_assessment [] 7 "first" "")) 1
  = Some (snd (create_assessment [] 7 "first" "")).
Proof.
  refine (proj1 (proj2 (proj2 (proj2 (proj2 (proj2 (proj2
            (created_assessment_is_found [] 7 "first" "" _)))))))).
  intros i a Hi. discriminate Hi.
Defined.

Lemma get_assessment_id (tbl : list Assessment.t) (id : Z) (a : Assessment.t) :
  get_assessment tbl id = Some a -> a.(Assessment.id_) = Some id.
Proof.
  unfold get_assessment. intros H. apply find_some in H as [_ H].
  now apply bool_decide_eq_true in H.
Qed.

Lemma get_assessment_stored (tbl : list Assessment.t) (id : Z) (a row : Assessment.t) :
  get_assessment tbl id = Some a ->
  row.(Assessment.id_) = Some id ->
  get_assessment (store_assessment tbl id row) id = Some row
  /\ (forall id', id' <> id ->
        get_assessment (store_assessment tbl id row) id' = get_assessment tbl id')
  /\ length (store_assessment tbl id row) = length tbl.
Proof.
  intros Hget Hrow. unfold get_assessment in *.
  induction tbl as [| x tbl IH]; [discriminate Hget |].
  cbn [List.find store_assessment] in *.
  destruct (decide (x.(Assessment.id_) = Some id)) as [Hx | Hx].
  - rewrite bool_decide_eq_true_2 by assumption.
    cbn [List.find length]. rewrite bool_decide_eq_true_2 by assumption.
    split; [reflexivity |]. split; [| reflexivity].
    intros id' Hne.
    rewrite !bool_decide_eq_false_2; [reflexivity | |]; congruence.
  - rewrite bool_decide_eq_false_2 in * by assumption.
    destruct (IH Hget) as (H1 & H2 & H3).
    cbn [List.find length]. rewrite bool_decide_eq_false_2 by assumption.
    split; [exact H1 |]. split; [| now rewrite H3].
    intros id' Hne. rewrite (H2 id' Hne). reflexivity.
Qed.

(** X8. Completing an assessment.  An unknown key changes nothing and
    returns nothing.  A known key gets the completion flag, the overall
    score and the overall risk; its other fields, every other assessment
    and the size of the table are unchanged; and nothing guards the flag:
    completing once more replaces score and risk by the new ones. *)
Theorem completion_sets_flag_and_results (tbl : list Assessment.t) (id : Z)
    (score : Decimal.t) (risk : RiskLevel) :
  (get_assessment tbl id = None ->
     complete_assessment tbl id score risk = (tbl, None))
  /\ (forall a, get_assessment tbl id = Some a ->
        exists tbl' a',
          complete_assessment tbl id score risk = (tbl', Some a')
          /\ a'.(Assessment.is_completed) = true
          /\ a'.(Assessment.overall_rula_score) = Some score
          /\ a'.(Assessment.overall_risk_level) = Some risk
          /\ a'.(Assessment.id_) = Some id
          /\ a'.(Assessment.user_id) = a.(Assessment.user_id)
          /\ a'.(Assessment.session_name) = a.(Assessment.session_name)
          /\ a'.(Assessment.notes) = a.(Assessment.notes)
          /\ get_assessment tbl' id = Some a'
          /\ (forall id', id' <> id -> get_assessment tbl' id' = get_assessment tbl id')
          /\ length tbl' = length tbl
          /\ (forall score2 risk2, exists tbl'' a'',
                complete_assessment tbl' id score2 risk2 = (tbl'', Some a'')
                /\ a''.(Assessment.overall_rula_score) = Some score2
                /\ a''.(Assessment.overall_risk_level) = Some risk2
                /\ get_assessment tbl'' id = Some a'')).
Proof.
  split.
  - intros Hnone. unfold complete_assessment. now rewrite Hnone.
  - intros a Hget. unfold complete_assessment at 1. rewrite Hget.
    pose proof (get_assessment_id tbl id a Hget) as Hid.
    eexists _, _. split; [reflexivity |].
    cbn [Assessment.is_completed Assessment.overall_rula_score
         Assessment.overall_risk_level Assessment.id_ Assessment.user_id
         Assessment.session_name Assessment.notes].
    match goal with
    | |- context [store_assessment tbl id ?row] =>
        destruct (get_assessment_stored tbl id a row Hget Hid) as (H1 & H2 & H3)
    end.
    repeat split; try assumption.
    intros score2 risk2. unfold complete_assessment. rewrite H1.
    eexists _, _. split; [reflexivity |].
    cbn [Assessment.overall_rula_score Assessment.overall_risk_level Assessment.id_].
    split; [reflexivity |]. split; [reflexivity |].
    match goal with
    | |- get_assessment (store_assessment ?t id ?row) id = _ =>
        apply (get_assessment_stored t id _ row H1 Hid)
    end.
Qed.

Lemma completion_sets_flag_and_results_witness :
  exists tbl' a',
    complete_assessment (fst (create_assessment [] 7 "first" "")) 1
                        (Decimal.of_int 2) YELLOW
    = (tbl', Some a')
    /\ a'.(Assessment.is_completed) = true.
Proof.
  destruct (proj2 (completion_sets_flag_and_results
                     (fst (create_assessment [] 7 "first" "")) 1
                     (Decimal.of_int 2) YELLOW)
              (snd (create_assessment [] 7 "first" "")) eq_refl)
    as (tbl' & a' & H & Hflag & _).
  exists tbl', a'. split; assumption.
Defined.

(** ** Body-part rows: creation and lookup *)

Lemma create_appends (db : Store) (id : Z) (b : BodyPartType)
    (angles : gmap string pyfloat) (s : SeverityLevel) (f : FrequencyLevel)
    (db' : Store) (row : BodyPartAssessment) :
  create_body_part_assessment db id b angles s f = Ok (db', row) ->
  db' = (db ++ [row])%list
  /\ row.(id_) = Some (Z.of_nat (length db) + 1)
  /\ row.(assessment_id) = id
  /\ row.(body_part) = b
  /\ row.(rula_score) = Some (Decimal.of_int (default 2 (score_posture angles b)))
  /\ row.(angle_measurements) = angles
  /\ row.(severity_level) = Some s
  /\ row.(frequency_level) = Some f
  /\ row.(gotrak_score) = Some (rank_severity s * rank_frequency f)
  /\ row.(gotrak_risk_level)
     = Some (get_gotrak_risk_level (rank_severity s * rank_frequency f)).
Proof.
  unfold create_body_part_assessment.
  destruct (rula_score_follows_table angles b) as (scores & -> & Hf & _).
  rewrite gotrak_score_member. cbn [mbind result_bind].
  intros [= <- <-]. cbn. rewrite Hf. repeat split.
Qed.

(** X9. A created row is stored at the end of its assessment's rows and
    leaves the rows of every other assessment alone.  For the risk
    information of its body part it counts only if it is the first row of
    that body part: assessing a body part again does not change what
    [get_body_part_risk_info] reports. *)
Theorem created_row_is_fetched (db : Store) (id : Z) (b : BodyPartType)
    (angles : gmap string pyfloat) (s : SeverityLevel) (f : FrequencyLevel)
    (db' : Store) (row : BodyPartAssessment) :
  create_body_part_assessment db id b angles s f = Ok (db', row) ->
  get_assessment_body_parts db' id = (get_assessment_body_parts db id ++ [row])%list
  /\ (forall id', id' <> id ->
        get_assessment_body_parts db' id' = get_assessment_body_parts db id')
  /\ get_body_part_risk_info db' id b
     = match get_body_part_risk_info db id b with
       | Some info => Some info
       | None => Some (risk_info_of row)
       end
  /\ (forall id' b', (id', b') <> (id, b) ->
        get_body_part_risk_info db' id' b' = get_body_part_risk_info db id' b').
Proof.
  intros Hc. apply create_appends in Hc as (-> & _ & Hid & Hb & _).
  unfold get_assessment_body_parts, get_body_part_risk_info.
  split; [| split; [| split]].
  - rewrite List.filter_app. cbn [List.filter].
    now rewrite bool_decide_eq_true_2.
  - intros id' Hne. rewrite List.filter_app. cbn [List.filter].
    rewrite bool_decide_eq_false_2 by congruence. now rewrite app_nil_r.
  - rewrite find_app_. destruct (List.find _ db); [reflexivity |].
    cbn [List.find]. now rewrite !bool_decide_eq_true_2.
  - intros id' b' Hne. rewrite find_app_. destruct (List.find _ db); [reflexivity |].
    cbn [List.find].
    destruct (decide (assessment_id row = id')) as [H1 | H1];
      destruct (decide (body_part row = b')) as [H2 | H2].
    + exfalso. apply Hne. congruence.
    + rewrite (bool_decide_eq_false_2 (body_part row = b')) by assumption.
      now rewrite andb_false_r.
    + now rewrite (bool_decide_eq_false_2 (assessment_id row = id')) by assumption.
    + now rewrite (bool_decide_eq_false_2 (assessment_id row = id')) by assumption.
Qed.

Lemma created_row_is_fetched_witness :
  exists db' row,
    create_body_part_assessment [] 1 NECK ∅ PAIN OFTEN = Ok (db', row)
    /\ get_assessment_body_parts db' 1 = [row].
Proof.
  destruct (created_row_scores [] 1 NECK ∅ PAIN OFTEN) as (db' & row & Hc & _).
  exists db', row. split; [exact Hc |].
  exact (proj1 (created_row_is_fetched [] 1 NECK ∅ PAIN OFTEN db' row Hc)).
Defined.

(** X10. In every store the body-part aggregator can build, the rows carry
    the keys 1, 2, 3, ... in order, an integer posture score between 1
    and 4, both survey answers, their rank product as discomfort score
    and the classification of that product as discomfort level. *)
Theorem built_store_rows_are_consistent (db : list BodyPartAssessment) :
  built db ->
  forall i row, db !! i = Some row ->
    row.(id_) = Some (Z.of_nat i + 1)
    /\ (exists k, 1 <= k <= 4 /\ row.(rula_score) = Some (Decimal.of_int k))
    /\ (exists s f,
          row.(severity_level) = Some s
          /\ row.(frequency_level) = Some f
          /\ row.(gotrak_score) = Some (rank_severity s * rank_frequency f)
          /\ row.(gotrak_risk_level)
             = Some (get_gotrak_risk_level (rank_severity s * rank_frequency f))).
Proof.
  induction 1 as [| db id b angles s f db' row Hb IH Hc]; intros i r Hi;
    unfold Store in *.
  - discriminate Hi.
  - apply create_appends in Hc
      as (-> & Hkey & _ & _ & Hrula & _ & Hs & Hf & Hscore & Hlevel).
    destruct (decide (i < length db)%nat) as [Hlt | Hge].
    + rewrite lookup_app_l in Hi by assumption. now apply IH.
    + rewrite lookup_app_r in Hi by lia.
      destruct (i - length db)%nat as [| n] eqn:Hn; [| discriminate Hi].
      injection Hi as <-. split; [rewrite Hkey; f_equal; lia |]. split.
      * exists (default 2 (score_posture angles b)).
        split; [apply score_posture_range | exact Hrula].
      * exists s, f. repeat split; assumption.
Qed.

Lemma built_store_rows_are_consistent_witness :
  exists db' row,
    create_body_part_assessment [] 1 NECK ∅ PAIN OFTEN = Ok (db', row)
    /\ row.(id_) = Some 1
    /\ row.(gotrak_risk_level) = Some RED.
Proof.
  destruct (created_row_scores [] 1 NECK ∅ PAIN OFTEN)
    as (db' & row & Hc & _ & _ & _ & _ & Hdb).
  exists db', row. split; [exact Hc |].
  assert (Hb : built db') by (eapply built_create; [apply built_empty | exact Hc]).
  subst db'.
  destruct (built_store_rows_are_consistent _ Hb 0%nat row eq_refl)
    as (Hkey & _ & (s & f & Hs & Hf & _ & Hlevel)).
  split; [exact Hkey |].
  apply create_appends in Hc as (_ & _ & _ & _ & _ & _ & Hs' & Hf' & _).
  rewrite Hs' in Hs. rewrite Hf' in Hf.
  injection Hs as <-. injection Hf as <-. exact Hlevel.
Defined.

(** ** The session aggregator: order and growth *)

Lemma List_filter_Permutation {A} (p : A -> bool) (l l' : list A) :
  Permutation l l' -> Permutation (List.filter p l) (List.filter p l').
Proof.
  induction 1 as [| x l l' _ IH | x y l | l l' l'' _ IH1 _ IH2].
  - constructor.
  - cbn [List.filter]. destruct (p x); [now constructor | exact IH].
  - cbn [List.filter]. destruct (p x); destruct (p y);
      first [apply perm_swap | reflexivity].
  - now transitivity (List.filter p l').
Qed.

Lemma omap_Permutation_ {A B} (f : A -> option B) (l l' : list A) :
  Permutation l l' -> Permutation (omap f l) (omap f l').
Proof.
  induction 1 as [| x l l' _ IH | x y l | l l' l'' _ IH1 _ IH2].
  - constructor.
  - cbn [omap list_omap]. destruct (f x); [now constructor | exact IH].
  - cbn [omap list_omap]. destruct (f x); destruct (f y);
      first [apply perm_swap | reflexivity].
  - now transitivity (omap f l').
Qed.

Lemma total_Permutation (ks ks' : list Z) :
  Permutation ks ks' -> total ks = total ks'.
Proof.
  induction 1 as [| x l l' _ IH | x y l | l l' l'' _ IH1 _ IH2];
    cbn [total fold_right] in *; try fold (total l) in *; try fold (total l') in *; lia.
Qed.

Lemma count_level_Permutation (r : RiskLevel) (l l' : list BodyPartAssessment) :
  Permutation l l' -> count_level r l = count_level r l'.
Proof.
  intros H. unfold count_level, discomfort_levels.
  apply Permutation_count_occ. now apply omap_Permutation_.
Qed.

Lemma overall_score_of_ints (db : Store) (id : Z) (ks : list Z) :
  id <> 0 ->
  omap rula_score (get_assessment_body_parts db id) = map Decimal.of_int ks ->
  Forall (fun k => 0 <= k) ks ->
  total ks < 10 ^ Decimal.prec ->
  fst (_calculate_overall_scores (Some id) db)
  = match ks with
    | [] => Decimal.of_int 2
    | _ :: _ => Decimal.fix_ (mean ks)
    end.
Proof.
  intros Hid Hks Hpos Hsum. destruct ks as [| k ks'].
  - now apply overall_score_none.
  - cbn [map] in Hks. rewrite (overall_score_some db id _ _ Hid Hks).
    change (Decimal.of_int k :: map Decimal.of_int ks')
      with (map Decimal.of_int (k :: ks')).
    rewrite sum_of_int by assumption. now rewrite length_map.
Qed.

(** X11. The result of the session aggregator does not depend on the order of
    the stored rows: the overall risk never, and the overall score not as
    long as the posture scores are non-negative integers whose sum has at
    most 28 digits (the sum is then exact). *)
Theorem overall_result_is_order_independent (db db' : Store) (id : Z) :
  id <> 0 ->
  Permutation db db' ->
  snd (_calculate_overall_scores (Some id) db)
  = snd (_calculate_overall_scores (Some id) db')
  /\ (forall ks,
        omap rula_score (get_assessment_body_parts db id) = map Decimal.of_int ks ->
        Forall (fun k => 0 <= k) ks ->
        total ks < 10 ^ Decimal.prec ->
        fst (_calculate_overall_scores (Some id) db)
        = fst (_calculate_overall_scores (Some id) db')).
Proof.
  intros Hid Hperm.
  assert (Hrows : Permutation (get_assessment_body_parts db id)
                              (get_assessment_body_parts db' id))
    by now apply List_filter_Permutation.
  split.
  - rewrite !overall_risk_by_counts by assumption.
    now rewrite (count_level_Permutation RED _ _ Hrows),
                (count_level_Permutation YELLOW _ _ Hrows).
  - intros ks Hks Hpos Hsum.
    pose proof (omap_Permutation_ rula_score _ _ Hrows) as Hscores.
    rewrite Hks in Hscores. symmetry in Hscores.
    apply Permutation_map_inv in Hscores as (ks' & Hks' & Hkk).
    assert (Hpos' : Forall (fun k => 0 <= k) ks')
      by (eapply Permutation_Forall; eassumption).
    assert (Htot : total ks' = total ks) by (symmetry; now apply total_Permutation).
    rewrite (overall_score_of_ints db id ks) by assumption.
    rewrite (overall_score_of_ints db' id ks') by (assumption || lia).
    pose proof (Permutation_length Hkk) as Hlen.
    destruct ks as [| k l]; destruct ks' as [| k' l']; try discriminate Hlen;
      [reflexivity |].
    unfold mean. now rewrite Htot, Hlen.
Qed.

Lemma overall_result_is_order_independent_witness :
  snd (_calculate_overall_scores (Some 1)
         [row_of 1 (Some 1) (Some RED); row_of 1 (Some 3) (Some GREEN)])
  = snd (_calculate_overall_scores (Some 1)
           [row_of 1 (Some 3) (Some GREEN); row_of 1 (Some 1) (Some RED)]).
Proof.
  refine (proj1 (overall_result_is_order_independent
                   [row_of 1 (Some 1) (Some RED); row_of 1 (Some 3) (Some GREEN)]
                   [row_of 1 (Some 3) (Some GREEN); row_of 1 (Some 1) (Some RED)]
                   1 _ _)).
  - lia.
  - apply perm_swap.
Defined.

Lemma precedence_rule_mono (h m h' m' : nat) :
  (h <= h')%nat -> (m <= m')%nat ->
  risk_le (precedence_rule h m) (precedence_rule h' m').
Proof.
  intros Hh Hm. unfold risk_le.
  destruct h as [| h]; destruct h' as [| h']; try lia; cbn [precedence_rule].
  - destruct m as [| [| m]]; destruct m' as [| [| m']]; cbn [risk_rank]; lia.
  - destruct m as [| [| m]]; cbn [risk_rank]; lia.
  - cbn [risk_rank]. lia.
Qed.

Lemma count_level_app (r : RiskLevel) (l l' : list BodyPartAssessment) :
  count_level r (l ++ l')%list = (count_level r l + count_level r l')%nat.
Proof.
  unfold count_level, discomfort_levels. rewrite omap_app. apply count_occ_app.
Qed.

(** X12. Storing one more row never lowers the overall risk of a session. *)
Theorem overall_risk_never_drops_with_more_rows (db : Store) (id : Z)
    (row : BodyPartAssessment) :
  id <> 0 ->
  risk_le (snd (_calculate_overall_scores (Some id) db))
          (snd (_calculate_overall_scores (Some id) (db ++ [row])%list)).
Proof.
  intros Hid. rewrite !overall_risk_by_counts by assumption.
  unfold get_assessment_body_parts. rewrite List.filter_app.
  rewrite !count_level_app. apply precedence_rule_mono; lia.
Qed.

Lemma overall_risk_never_drops_with_more_rows_witness :
  risk_le (snd (_calculate_overall_scores (Some 1) [row_of 1 None (Some YELLOW)]))
          (snd (_calculate_overall_scores (Some 1)
                  ([row_of 1 None (Some YELLOW)] ++ [row_of 1 None (Some YELLOW)])%list)).
Proof.
  apply (overall_risk_never_drops_with_more_rows [row_of 1 None (Some YELLOW)] 1
           (row_of 1 None (Some YELLOW))).
  lia.
Defined.

(** ** The questionnaire: navigation and responses *)

Module QuestionnaireFacts.
Import GotrakQuestionnaireComponent.

Lemma list_getitem_in_range {A} (l : list A) (i : Z) :
  0 <= i < Z.of_nat (length l) ->
  exists x, list_getitem l i = Some x /\ l !! Z.to_nat i = Some x.
Proof.
  intros Hi. unfold list_getitem.
  destruct (Z.ltb_spec i 0) as [| _]; [lia |].
  destruct (Z.leb_spec 0 i) as [_ |]; [| lia].
  destruct (Z.ltb_spec i (Z.of_nat (length l))) as [_ |]; [| lia].
  cbn [andb]. destruct (l !! Z.to_nat i) as [x |] eqn:Hx; [now exists x |].
  apply lookup_ge_None in Hx. lia.
Qed.

Lemma update_navigation_in_range (self : t) :
  in_range self ->
  exists prev next,
    _update_navigation self
    = Some (set_buttons self prev next (_are_all_questions_answered self))
    /\ prev = (0 <? self.(current_question_index)).
Proof.
  intros Hr. unfold _update_navigation, _is_current_question_answered.
  destruct (list_getitem_in_range _ _ Hr) as (q & -> & _).
  cbn [mbind option_bind].
  destruct (String.eqb _ "frequency"); [| destruct (String.eqb _ "severity")];
    cbn [mbind option_bind]; eexists _, _; split; reflexivity.
Qed.

Lemma show_current_question_in_range (self : t) :
  in_range self ->
  exists q,
    _show_current_question self = Some (set_question_container self (Some q))
    /\ self.(questions) !! Z.to_nat self.(current_question_index) = Some q.
Proof.
  intros Hr. unfold _show_current_question.
  destruct (Z.leb_spec (Z.of_nat (length self.(questions))) self.(current_question_index))
    as [Hle | _]; [unfold in_range in Hr; lia |].
  destruct (list_getitem_in_range _ _ Hr) as (q & -> & Hq).
  cbn [mbind option_bind]. now exists q.
Qed.

(** X13. Moving through the questions.  With the index on a question, Next
    moves one question forward, except on the last question where it does
    nothing; Previous moves one back, except on the first; saving a
    response leaves the index alone; none of them fails, and after a move
    the question shown is the one at the new index.  So whatever the user
    does, in whatever order, the index stays on a question. *)
Theorem navigation_stays_on_a_question (self : t) :
  in_range self ->
  (exists self',
      _next_question self = Some self'
      /\ self'.(current_question_index)
         = Z.min (self.(current_question_index) + 1)
                 (Z.of_nat (length self.(questions)) - 1)
      /\ self'.(questions) = self.(questions)
      /\ self'.(responses) = self.(responses)
      /\ (self'.(current_question_index) <> self.(current_question_index) ->
          self'.(question_container)
          = self.(questions) !! Z.to_nat self'.(current_question_index)))
  /\ (exists self',
        _previous_question self = Some self'
        /\ self'.(current_question_index)
           = Z.max (self.(current_question_index) - 1) 0
        /\ self'.(questions) = self.(questions)
        /\ self'.(responses) = self.(responses)
        /\ (self'.(current_question_index) <> self.(current_question_index) ->
            self'.(question_container)
            = self.(questions) !! Z.to_nat self'.(current_question_index)))
  /\ (forall k t v, exists self',
        _save_response self k t v = Some self'
        /\ self'.(current_question_index) = self.(current_question_index)
        /\ self'.(questions) = self.(questions))
  /\ (forall actions, exists self',
        run actions self = Some self'
        /\ in_range self'
        /\ self'.(questions) = self.(questions)
        /\ self'.(assessment_id) = self.(assessment_id)).
Proof.
  intros Hr.
  assert (Hnext : forall self0, in_range self0 ->
    exists self',
      _next_question self0 = Some self'
      /\ self'.(current_question_index)
         = Z.min (self0.(current_question_index) + 1)
                 (Z.of_nat (length self0.(questions)) - 1)
      /\ self'.(questions) = self0.(questions)
      /\ self'.(responses) = self0.(responses)
      /\ self'.(assessment_id) = self0.(assessment_id)
      /\ (self'.(current_question_index) <> self0.(current_question_index) ->
          self'.(question_container)
          = self0.(questions) !! Z.to_nat self'.(current_question_index))).
  { intros self0 Hr0. unfold _next_question.
    destruct (Z.ltb_spec self0.(current_question_index)
                         (Z.of_nat (length self0.(questions)) - 1)) as [Hlt | Hge].
    - set (moved := set_current_question_index self0 (self0.(current_question_index) + 1)).
      assert (Hm : in_range moved)
        by (unfold in_range, moved in *;
            cbn [set_current_question_index current_question_index questions]; lia).
      destruct (show_current_question_in_range moved Hm) as (q & -> & Hq).
      cbn [mbind option_bind].
      destruct (update_navigation_in_range (set_question_container moved (Some q)))
        as (prev & next & -> & _); [exact Hm |].
      eexists. split; [reflexivity |].
      cbn [set_buttons set_question_container moved set_current_question_index
           current_question_index questions responses assessment_id question_container].
      repeat split; try lia. intros _. now rewrite <- Hq.
    - exists self0. unfold in_range in Hr0.
      repeat split; lia. }
  assert (Hprev : forall self0, in_range self0 ->
    exists self',
      _previous_question self0 = Some self'
      /\ self'.(current_question_index)
         = Z.max (self0.(current_question_index) - 1) 0
      /\ self'.(questions) = self0.(questions)
      /\ self'.(responses) = self0.(responses)
      /\ self'.(assessment_id) = self0.(assessment_id)
      /\ (self'.(current_question_index) <> self0.(current_question_index) ->
          self'.(question_container)
          = self0.(questions) !! Z.to_nat self'.(current_question_index))).
  { intros self0 Hr0. unfold _previous_question.
    destruct (Z.ltb_spec 0 self0.(current_question_index)) as [Hlt | Hge].
    - set (moved := set_current_question_index self0 (self0.(current_question_index) - 1)).
      assert (Hm : in_range moved)
        by (unfold in_range, moved in *;
            cbn [set_current_question_index current_question_index questions]; lia).
      destruct (show_current_question_in_range moved Hm) as (q & -> & Hq).
      cbn [mbind option_bind].
      destruct (update_navigation_in_range (set_question_container moved (Some q)))
        as (prev & next & -> & _); [exact Hm |].
      eexists. split; [reflexivity |].
      cbn [set_buttons set_question_container moved set_current_question_index
           current_question_index questions responses assessment_id question_container].
      repeat split; try lia. intros _. now rewrite <- Hq.
    - exists self0. unfold in_range in Hr0.
      repeat split; lia. }
  assert (Hsave : forall self0 k t v, in_range self0 ->
    exists self',
      _save_response self0 k t v = Some self'
      /\ self'.(current_question_index) = self0.(current_question_index)
      /\ self'.(questions) = self0.(questions)
      /\ self'.(assessment_id) = self0.(assessment_id)).
  { intros self0 k t v Hr0. unfold _save_response.
    match goal with
    | |- context [_update_navigation ?s] =>
        destruct (update_navigation_in_range s) as (prev & next & -> & _);
          [exact Hr0 |]
    end.
    eexists. split; [reflexivity |]. repeat split. }
  split; [| split; [| split]].
  - destruct (Hnext self Hr) as (self' & H1 & H2 & H3 & H4 & _ & H6).
    exists self'. repeat split; assumption.
  - destruct (Hprev self Hr) as (self' & H1 & H2 & H3 & H4 & _ & H6).
    exists self'. repeat split; assumption.
  - intros k t v. destruct (Hsave self k t v Hr) as (self' & H1 & H2 & H3 & _).
    exists self'. repeat split; assumption.
  - intros actions. revert self Hr.
    induction actions as [| a rest IH]; intros self Hr.
    + exists self. repeat split; assumption || apply Hr.
    + cbn [run].
      assert (Hstep : exists self1, run_action self a = Some self1
                                    /\ in_range self1
                                    /\ self1.(questions) = self.(questions)
                                    /\ self1.(assessment_id) = self.(assessment_id)).
      { destruct a as [| | k t v]; cbn [run_action].
        - destruct (Hnext self Hr) as (s1 & H1 & H2 & H3 & _ & H5 & _).
          exists s1. repeat split; try assumption; unfold in_range in *;
            rewrite ?H2, ?H3; lia.
        - destruct (Hprev self Hr) as (s1 & H1 & H2 & H3 & _ & H5 & _).
          exists s1. repeat split; try assumption; unfold in_range in *;
            rewrite ?H2, ?H3; lia.
        - destruct (Hsave self k t v Hr) as (s1 & H1 & H2 & H3 & H4).
          exists s1. repeat split; try assumption; unfold in_range in *;
            rewrite ?H2, ?H3; lia. }
      destruct Hstep as (self1 & -> & Hr1 & Hq1 & Ha1).
      destruct (IH self1 Hr1) as (self' & Hrun & Hr' & Hq' & Ha').
      exists self'. split; [exact Hrun |]. split; [exact Hr' |]. split; congruence.
Qed.

Lemma navigation_stays_on_a_question_witness :
  exists self',
    run [Next; Next; Previous; Save "q_1" "severity" "Pain"] (__init__ 1) = Some self'
    /\ in_range self'.
Proof.
  assert (Hr : in_range (__init__ 1)) by (unfold in_range; cbn; lia).
  destruct (proj2 (proj2 (proj2 (navigation_stays_on_a_question (__init__ 1) Hr)))
              [Next; Next; Previous; Save "q_1" "severity" "Pain"])
    as (self' & Hrun & Hr' & _).
  exists self'. split; assumption.
Defined.

Lemma saved_responses (self : t) (k t_ v : string) (prev next : bool) :
  _update_navigation
    (set_responses self
       (<[k := <[t_ := v]> (default ∅ (self.(responses) !! k))]> self.(responses)))
  = Some (set_buttons
            (set_responses self
               (<[k := <[t_ := v]> (default ∅ (self.(responses) !! k))]> self.(responses)))
            prev next
            (_are_all_questions_answered
               (set_responses self
                  (<[k := <[t_ := v]> (default ∅ (self.(responses) !! k))]>
                     self.(responses))))) ->
  exists self',
    _save_response self k t_ v = Some self'
    /\ self'.(responses)
       = <[k := <[t_ := v]> (default ∅ (self.(responses) !! k))]> self.(responses)
    /\ self'.(finish_btn) = _are_all_questions_answered self'.
Proof.
  intros Hnav. unfold _save_response.
  assert (Hresp :
    (<[k := <[t_ := v]>
              (default ∅ (match self.(responses) !! k with
                          | Some _ => self.(responses)
                          | None => <[k := ∅]> self.(responses)
                          end !! k))]>
       match self.(responses) !! k with
       | Some _ => self.(responses)
       | None => <[k := ∅]> self.(responses)
       end)
    = <[k := <[t_ := v]> (default ∅ (self.(responses) !! k))]> self.(responses)).
  { destruct (self.(responses) !! k) as [m |] eqn:Hk.
    - now rewrite Hk.
    - rewrite lookup_insert_eq. cbn [default from_option].
      now rewrite insert_insert_eq. }
  rewrite Hresp, Hnav. eexists. split; [reflexivity |]. split; reflexivity.
Qed.

Lemma save_response_spec (self : t) (k t_ v : string) :
  in_range self ->
  exists self',
    _save_response self k t_ v = Some self'
    /\ answer self' k t_ = Some v
    /\ (forall k' t', (k', t') <> (k, t_) -> answer self' k' t' = answer self k' t')
    /\ self'.(finish_btn) = _are_all_questions_answered self'
    /\ self'.(prev_btn) = (0 <? self.(current_question_index))
    /\ self'.(questions) = self.(questions).
Proof.
  intros Hr.
  set (resp' := <[k := <[t_ := v]> (default ∅ (self.(responses) !! k))]> self.(responses)).
  destruct (update_navigation_in_range (set_responses self resp'))
    as (prev & next & Hnav & Hprev); [exact Hr |].
  destruct (saved_responses self k t_ v prev next Hnav) as (self' & Hsave & Hresp & Hfin).
  exists self'. split; [exact Hsave |].
  fold resp' in Hresp. unfold answer. rewrite Hresp.
  split; [| split; [| split; [| split]]].
  - unfold resp'. rewrite lookup_insert_eq. cbn [default from_option].
    apply lookup_insert_eq.
  - intros k' t' Hne. unfold resp'.
    destruct (decide (k' = k)) as [-> | Hk].
    + rewrite lookup_insert_eq. cbn [from_option Datatypes.id].
      rewrite lookup_insert_ne; [reflexivity | congruence].
    + now rewrite lookup_insert_ne by congruence.
  - exact Hfin.
  - revert Hsave. unfold _save_response.
    match goal with
    | |- context [_update_navigation ?s] =>
        destruct (update_navigation_in_range s) as (p & n & -> & Hp); [exact Hr |]
    end.
    intros [= <-]. exact Hp.
  - revert Hsave. unfold _save_response.
    match goal with
    | |- context [_update_navigation ?s] =>
        destruct (update_navigation_in_range s) as (p & n & -> & Hp); [exact Hr |]
    end.
    intros [= <-]. reflexivity.
Qed.

(** X14. Saving a response and reading it back.  With the index on a
    question, saving never fails; the value saved is the answer then
    stored for that question key and response type, replacing an earlier
    one; every other answer is as before, so answers are changed but never
    removed; and the finish button shows whether all questions are
    answered. *)
Theorem saved_response_is_read_back (self : t) (k t_ v : string) :
  in_range self ->
  exists self',
    _save_response self k t_ v = Some self'
    /\ answer self' k t_ = Some v
    /\ (forall k' t', (k', t') <> (k, t_) -> answer self' k' t' = answer self k' t')
    /\ self'.(finish_btn) = _are_all_questions_answered self'
    /\ self'.(prev_btn) = (0 <? self.(current_question_index)).
Proof.
  intros Hr.
  destruct (save_response_spec self k t_ v Hr) as (self' & H1 & H2 & H3 & H4 & H5 & _).
  exists self'. repeat split; assumption.
Qed.

Lemma saved_response_is_read_back_witness :
  exists self',
    _save_response (__init__ 1) "q_0" "frequency" "Often" = Some self'
    /\ answer self' "q_0" "frequency" = Some "Often".
Proof.
  assert (Hr : in_range (__init__ 1)) by (unfold in_range; cbn; lia).
  destruct (saved_response_is_read_back (__init__ 1) "q_0" "frequency" "Often" Hr)
    as (self' & Hsave & Hans & _).
  exists self'. split; assumption.
Defined.

Lemma In_enumerate {A} (l : list A) (i : Z) (x : A) :
  In (i, x) (enumerate l) <-> exists n, i = Z.of_nat n /\ l !! n = Some x.
Proof.
  unfold enumerate. rewrite <- list_elem_of_In, elem_of_lookup_imap. split.
  - intros (n & y & [= -> ->] & Hl). now exists n.
  - intros (n & -> & Hl). now exists n, x.
Qed.

(** X15. The finish button.  All questions count as answered exactly when
    every frequency question has a frequency answer under its own key and
    every severity question a severity answer; and since saving only adds
    or replaces answers, once all questions are answered they stay
    answered whatever is saved afterwards. *)
Theorem all_answered_means_each_answered (self : t) :
  (_are_all_questions_answered self = true <->
   forall n q, self.(questions) !! n = Some q ->
     (q.(Question.question_category) = "frequency" ->
        is_Some (answer self (question_key (Z.of_nat n)) "frequency"))
     /\ (q.(Question.question_category) = "severity" ->
          is_Some (answer self (question_key (Z.of_nat n)) "severity")))
  /\ (in_range self ->
      _are_all_questions_answered self = true ->
      forall k t_ v, exists self',
        _save_response self k t_ v = Some self'
        /\ self'.(finish_btn) = true).
Proof.
  assert (Hchar : forall self0 : t,
    _are_all_questions_answered self0 = true <->
    forall n q, self0.(questions) !! n = Some q ->
      (q.(Question.question_category) = "frequency" ->
         is_Some (answer self0 (question_key (Z.of_nat n)) "frequency"))
      /\ (q.(Question.question_category) = "severity" ->
           is_Some (answer self0 (question_key (Z.of_nat n)) "severity"))).
  { intros self0. unfold _are_all_questions_answered. rewrite forallb_forall. split.
    - intros H n q Hq.
      specialize (H (Z.of_nat n, q) (proj2 (In_enumerate _ _ _) (ex_intro _ n (conj eq_refl Hq)))).
      cbn beta iota in H. unfold answer. split; intros Hcat; rewrite Hcat in H.
      + cbn in H. case_bool_decide; [assumption | discriminate H].
      + cbn in H. case_bool_decide; [assumption | discriminate H].
    - intros H [i q] Hin. apply In_enumerate in Hin as (n & -> & Hq).
      destruct (H n q Hq) as [Hf Hs]. unfold answer in Hf, Hs.
      destruct (String.eqb_spec q.(Question.question_category) "frequency") as [Hc | Hc].
      + rewrite (bool_decide_eq_true_2 _ (Hf Hc)). cbn.
        destruct (String.eqb_spec q.(Question.question_category) "severity") as [Hc' | _];
          [| reflexivity].
        now rewrite (bool_decide_eq_true_2 _ (Hs Hc')).
      + cbn [andb].
        destruct (String.eqb_spec q.(Question.question_category) "severity") as [Hc' | _];
          [| reflexivity].
        now rewrite (bool_decide_eq_true_2 _ (Hs Hc')). }
  split; [apply Hchar |].
  intros Hr Hall k t_ v.
  destruct (save_response_spec self k t_ v Hr)
    as (self' & Hsave & Hans & Hframe & Hfin & _ & Hq).
  exists self'. split; [exact Hsave |]. rewrite Hfin.
  apply Hchar. intros n q Hn. rewrite Hq in Hn.
  destruct (proj1 (Hchar self) Hall n q Hn) as [Hf Hs].
  assert (Hkeep : forall k' t', is_Some (answer self k' t') -> is_Some (answer self' k' t')).
  { intros k' t' Hsome. destruct (decide ((k', t') = (k, t_))) as [[= -> ->] | Hne].
    - rewrite Hans. eauto.
    - now rewrite Hframe. }
  split; intros Hc; apply Hkeep; auto.
Qed.

Lemma all_answered_means_each_answered_witness :
  let self := set_responses (__init__ 1) (survey_responses (fun _ => (OFTEN, PAIN))) in
  exists self',
    _save_response self "q_0" "frequency" "Never" = Some self'
    /\ self'.(finish_btn) = true.
Proof.
  intros self.
  assert (Hr : in_range self) by (unfold in_range; cbn; lia).
  assert (Hall : _are_all_questions_answered self = true) by (vm_compute; reflexivity).
  exact (proj2 (all_answered_means_each_answered self) Hr Hall
           "q_0" "frequency" "Never").
Defined.

(** ** The questionnaire: a complete survey *)


End QuestionnaireFacts.

(** ** The questionnaire: processing the responses *)

Lemma create_is_new_row (db : Store) (id : Z) (b : BodyPartType)
    (angles : gmap string pyfloat) (s : SeverityLevel) (f : FrequencyLevel) :
  create_body_part_assessment db id b angles s f
  = Ok ((db ++ [new_row db id b angles s f])%list, new_row db id b angles s f).
Proof.
  unfold create_body_part_assessment.
  destruct (rula_score_follows_table angles b) as (scores & -> & Hf & _).
  rewrite gotrak_score_member. cbn [mbind result_bind].
  cbn. rewrite Hf. reflexivity.
Qed.

Lemma group_survey_responses (self : GotrakQuestionnaireComponent.t) (a : Answers) :
  self.(GotrakQuestionnaireComponent.questions) = get_default_questions ->
  self.(GotrakQuestionnaireComponent.responses) = survey_responses a ->
  GotrakQuestionnaireComponent.group_responses self = survey_items a.
Proof.
  intros Hq Hr. unfold GotrakQuestionnaireComponent.group_responses. rewrite Hq, Hr.
  unfold survey_responses, survey_items, survey_parts, sev, freq. cbn [map].
  generalize (FrequencyLevel_value (a NECK).1) (SeverityLevel_value (a NECK).2)
    (FrequencyLevel_value (a SHOULDER_LEFT).1) (SeverityLevel_value (a SHOULDER_LEFT).2)
    (FrequencyLevel_value (a UPPER_BACK).1) (SeverityLevel_value (a UPPER_BACK).2)
    (FrequencyLevel_value (a LOWER_BACK).1) (SeverityLevel_value (a LOWER_BACK).2).
  intros f0 s0 f1 s1 f2 s2 f3 s3.
  vm_compute. reflexivity.
Qed.

Lemma create_survey_items (parts : list BodyPartType) (a : Answers) (id : Z)
    (angles : gmap string pyfloat) (db : Store) :
  GotrakQuestionnaireComponent.create_assessments
    (map (fun b =>
         (b, <["severity" := sev (a b).2]>
               (<["frequency" := freq (a b).1]> (∅ : gmap string pyval)))) parts)
    id angles db
  = ((db ++ survey_rows parts db id angles a)%list, Ok ()).
Proof.
  revert db. induction parts as [| b parts IH]; intros db.
  - cbn. now rewrite app_nil_r.
  - cbn [map GotrakQuestionnaireComponent.create_assessments survey_rows].
    rewrite lookup_insert_eq. rewrite lookup_insert_ne by done. rewrite lookup_insert_eq.
    rewrite SeverityLevel_call_member, FrequencyLevel_call_member.
    rewrite create_is_new_row. rewrite IH. now rewrite <- app_assoc.
Qed.

(** The keys of the grouped responses. *)
Lemma grouped_set_keys (d : GotrakQuestionnaireComponent.grouped) k field v :
  map fst (GotrakQuestionnaireComponent.grouped_set d k field v) = map fst d.
Proof.
  induction d as [| [k' m] d IH]; [done |].
  cbn. destruct (bool_decide (k' = k)); cbn; [done | now rewrite IH].
Qed.

Lemma grouped_set_length (d : GotrakQuestionnaireComponent.grouped) k field v :
  length (GotrakQuestionnaireComponent.grouped_set d k field v) = length d.
Proof.
  rewrite <- (length_map fst), grouped_set_keys. apply length_map.
Qed.

Lemma grouped_mem_false (d : GotrakQuestionnaireComponent.grouped) k :
  GotrakQuestionnaireComponent.grouped_mem d k = false -> k ∉ map fst d.
Proof.
  unfold GotrakQuestionnaireComponent.grouped_mem. induction d as [| [k' m] d IH]; cbn; intros H.
  - apply not_elem_of_nil.
  - apply orb_false_iff in H as [H1 H2].
    apply bool_decide_eq_false in H1.
    apply not_elem_of_cons. split; [congruence | auto].
Qed.

Lemma group_responses_keys (self : GotrakQuestionnaireComponent.t) :
  NoDup (map fst (GotrakQuestionnaireComponent.group_responses self))
  /\ (length (GotrakQuestionnaireComponent.group_responses self) <= length self.(GotrakQuestionnaireComponent.questions))%nat.
Proof.
  unfold GotrakQuestionnaireComponent.group_responses.
  assert (Hlen : length (enumerate self.(GotrakQuestionnaireComponent.questions)) = length self.(GotrakQuestionnaireComponent.questions)).
  { unfold enumerate. now rewrite length_imap. }
  rewrite <- Hlen. clear Hlen.
  set (step := fun _ _ => _).
  assert (G : forall l acc, NoDup (map fst acc) ->
             NoDup (map fst (foldl step acc l))
             /\ (length (foldl step acc l) <= length acc + length l)%nat).
  { induction l as [| [i q] l IH]; intros acc Hacc.
    - cbn. split; [done | lia].
    - cbn [foldl].
      assert (Hs : NoDup (map fst (step acc (i, q)))
                   /\ (length (step acc (i, q)) <= S (length acc))%nat).
      { unfold step. destruct (Question.body_part q) as [b |]; [| split; [done | lia]].
        destruct (negb _); [| split; [done | lia]].
        assert (Hadd : NoDup (map fst (if GotrakQuestionnaireComponent.grouped_mem acc b then acc
                                        else (acc ++ [(b, ∅)])%list))
                /\ (length (if GotrakQuestionnaireComponent.grouped_mem acc b then acc
                                        else (acc ++ [(b, ∅)])%list) <= S (length acc))%nat).
        { destruct (GotrakQuestionnaireComponent.grouped_mem acc b) eqn:Hm; [split; [done | lia] |].
          rewrite map_app, length_app. cbn. split; [| lia].
          apply NoDup_app. split; [done |]. split; [| apply NoDup_singleton].
          intros x Hx Hx'. apply list_elem_of_singleton in Hx'. subst.
          now apply grouped_mem_false in Hm. }
        destruct Hadd as [Hn Hl].
        repeat match goal with
          | |- context [if ?c then _ else _] =>
              match c with String.eqb _ _ => destruct c end
          end; rewrite ?grouped_set_keys; (split; [done |]);
          rewrite ?grouped_set_length; exact Hl. }
      destruct Hs as [Hn Hl].
      destruct (IH _ Hn) as [IH1 IH2]. split; [done |]. cbn [length]. lia. }
  destruct (G (enumerate (GotrakQuestionnaireComponent.questions self)) [] (NoDup_nil_2)) as [G1 G2].
  split; [done |]. cbn in G2. lia.
Qed.

Lemma enum_call_error {E} (value : E -> string) (members : list E) (cls : string)
    (v : pyval) (e : pyexn) :
  enum_call value members cls v = Raise e -> e = ValueError cls.
Proof.
  unfold enum_call. destruct v; try (now intros [= <-]).
  destruct (List.find _ _); [discriminate | now intros [= <-]].
Qed.

(** The second loop only appends: one row per grouped body part with both
    answers, until an answer is no member value. *)
Lemma create_assessments_appends (items : GotrakQuestionnaireComponent.grouped) (id : Z)
    (angles : gmap string pyfloat) (db : Store) :
  exists rows,
    fst (GotrakQuestionnaireComponent.create_assessments items id angles db) = (db ++ rows)%list
    /\ Forall (fun row => row.(assessment_id) = id
                          /\ row.(angle_measurements) = angles) rows
    /\ map body_part rows `sublist_of` map fst items
    /\ (forall e, snd (GotrakQuestionnaireComponent.create_assessments items id angles db) = Raise e ->
          e = ValueError "SeverityLevel" \/ e = ValueError "FrequencyLevel").
Proof.
  revert db. induction items as [| [b resp] items IH]; intros db.
  - exists []. cbn. rewrite app_nil_r. repeat split; [constructor | constructor | discriminate].
  - cbn [GotrakQuestionnaireComponent.create_assessments map fst].
    destruct (resp !! "severity") as [sv |];
      [destruct (resp !! "frequency") as [fv |] |].
    + destruct (SeverityLevel_call sv) as [s | e] eqn:Hs.
      * destruct (FrequencyLevel_call fv) as [f | e] eqn:Hf.
        -- rewrite create_is_new_row.
           destruct (IH (db ++ [new_row db id b angles s f])%list)
             as (rows & H1 & H2 & H3 & H4).
           exists (new_row db id b angles s f :: rows).
           rewrite H1, <- app_assoc. split; [reflexivity |].
           split; [constructor; [split; reflexivity | assumption] |].
           split; [cbn [map body_part new_row]; now constructor | assumption].
        -- exists []. cbn [fst snd]. rewrite app_nil_r.
           split; [reflexivity |]. split; [constructor |].
           split; [apply sublist_nil_l |].
           intros e' [= <-]. right. now apply enum_call_error in Hf.
      * exists []. cbn [fst snd]. rewrite app_nil_r.
        split; [reflexivity |]. split; [constructor |].
        split; [apply sublist_nil_l |].
        intros e' [= <-]. left. now apply enum_call_error in Hs.
    + destruct (IH db) as (rows & H1 & H2 & H3 & H4).
      exists rows. repeat split; try assumption. now constructor.
    + destruct (IH db) as (rows & H1 & H2 & H3 & H4).
      exists rows. repeat split; try assumption. now constructor.
Qed.

Lemma process_responses_appends (self : GotrakQuestionnaireComponent.t)
    (webcam_component : option WebcamCaptureComponent.t) (db : Store) :
  exists rows,
    fst (GotrakQuestionnaireComponent._process_responses self webcam_component db) = (db ++ rows)%list
    /\ Forall (fun row =>
                 row.(assessment_id) = default 0 self.(GotrakQuestionnaireComponent.assessment_id)
                 /\ row.(angle_measurements) = GotrakQuestionnaireComponent.latest_angles webcam_component) rows
    /\ NoDup (map body_part rows)
    /\ (length rows <= length self.(GotrakQuestionnaireComponent.questions))%nat
    /\ (not_assessment_id self.(GotrakQuestionnaireComponent.assessment_id) = true -> rows = [])
    /\ (forall e, snd (GotrakQuestionnaireComponent._process_responses self webcam_component db) = Raise e ->
          e = ValueError "SeverityLevel" \/ e = ValueError "FrequencyLevel").
Proof.
  unfold GotrakQuestionnaireComponent._process_responses.
  destruct (not_assessment_id (GotrakQuestionnaireComponent.assessment_id self)) eqn:Hn.
  - exists []. cbn. rewrite app_nil_r.
    repeat split; try constructor; try discriminate. lia.
  - destruct (create_assessments_appends (GotrakQuestionnaireComponent.group_responses self)
                (default 0 (GotrakQuestionnaireComponent.assessment_id self)) (GotrakQuestionnaireComponent.latest_angles webcam_component) db)
      as (rows & H1 & H2 & H3 & H4).
    destruct (group_responses_keys self) as [Hk Hl].
    exists rows. split; [assumption |]. split; [assumption |].
    split; [eapply sublist_NoDup; eassumption |].
    split; [| split; [discriminate | assumption]].
    apply sublist_length in H3. rewrite !length_map in H3. lia.
Qed.

(** ** The questionnaire: completing the assessment *)

(** The rows of a complete survey: their session, body parts, discomfort
    levels and posture scores. *)
Lemma survey_rows_spec (parts : list BodyPartType) (db : Store) (id : Z)
    (angles : gmap string pyfloat) (a : Answers) :
  Forall (fun row => row.(assessment_id) = id) (survey_rows parts db id angles a)
  /\ map body_part (survey_rows parts db id angles a) = parts
  /\ discomfort_levels (survey_rows parts db id angles a)
     = map (fun b => get_gotrak_risk_level
                       (rank_severity (a b).2 * rank_frequency (a b).1)) parts
  /\ omap rula_score (survey_rows parts db id angles a)
     = map Decimal.of_int (map (fun b => default 2 (score_posture angles b)) parts).
Proof.
  revert db. induction parts as [| b parts IH]; intros db.
  - cbn. repeat split. constructor.
  - destruct (IH (db ++ [new_row db id b angles (a b).2 (a b).1])%list)
      as (H1 & H2 & H3 & H4).
    cbn [survey_rows]. unfold discomfort_levels in *.
    cbn [map omap list_omap new_row body_part rula_score gotrak_risk_level].
    rewrite H2, H3, H4. repeat split. constructor; [reflexivity | assumption].
Qed.

Lemma process_survey (self : GotrakQuestionnaireComponent.t)
    (webcam_component : option WebcamCaptureComponent.t) (db : Store)
    (a : Answers) (id : Z) :
  self.(GotrakQuestionnaireComponent.questions) = get_default_questions ->
  self.(GotrakQuestionnaireComponent.responses) = survey_responses a ->
  self.(GotrakQuestionnaireComponent.assessment_id) = Some id ->
  id <> 0 ->
  GotrakQuestionnaireComponent._process_responses self webcam_component db
  = ((db ++ survey_rows survey_parts db id
             (GotrakQuestionnaireComponent.latest_angles webcam_component) a)%list,
     Ok ()).
Proof.
  intros Hq Hr Hid Hnz. unfold GotrakQuestionnaireComponent._process_responses.
  rewrite Hid. cbn [not_assessment_id].
  destruct (Z.eqb_spec id 0) as [| _]; [contradiction |].
  rewrite (group_survey_responses self a Hq Hr).
  change (default 0 (Some id)) with id.
  apply create_survey_items.
Qed.

Lemma count_level_levels (r : RiskLevel) (rows : list BodyPartAssessment) :
  count_level r rows = count_occ RiskLevel_eq_dec (discomfort_levels rows) r.
Proof. reflexivity. Qed.

Lemma rows_after_survey (db : Store) (id : Z) (angles : gmap string pyfloat)
    (a : Answers) :
  get_assessment_body_parts (db ++ survey_rows survey_parts db id angles a)%list id
  = (get_assessment_body_parts db id ++ survey_rows survey_parts db id angles a)%list.
Proof.
  unfold get_assessment_body_parts at 1. rewrite List.filter_app.
  f_equal. apply session_rows_are_fetched. apply survey_rows_spec.
Qed.

Lemma complete_assessment_some (tbl : list Assessment.t) (id : Z)
    (score : Decimal.t) (risk : RiskLevel) (a : Assessment.t) :
  get_assessment tbl id = Some a ->
  exists tbl' a',
    complete_assessment tbl id score risk = (tbl', Some a')
    /\ get_assessment tbl' id = Some a'
    /\ a'.(Assessment.is_completed) = true
    /\ a'.(Assessment.overall_rula_score) = Some score
    /\ a'.(Assessment.overall_risk_level) = Some risk
    /\ a'.(Assessment.user_id) = a.(Assessment.user_id)
    /\ a'.(Assessment.session_name) = a.(Assessment.session_name)
    /\ (forall id', id' <> id -> get_assessment tbl' id' = get_assessment tbl id')
    /\ length tbl' = length tbl.
Proof.
  intros Hget. unfold complete_assessment. rewrite Hget.
  pose proof (get_assessment_id tbl id a Hget) as Hid.
  eexists _, _. split; [reflexivity |].
  match goal with
  | |- context [store_assessment tbl id ?row] =>
      destruct (get_assessment_stored tbl id a row Hget Hid) as (H1 & H2 & H3)
  end.
  repeat split; assumption.
Qed.

(** Four or eight posture scores between 1 and 4: their mean has at most
    three decimals, so that the division of the aggregator is exact. *)
Lemma mean_of_scores_exact (ks : list Z) :
  ks <> [] ->
  Forall (fun k => 1 <= k <= 4) ks ->
  (length ks = 4 \/ length ks = 8)%nat ->
  Decimal.fix_ (mean ks) = mean ks.
Proof.
  intros Hne Hks Hlen.
  assert (Hb : 0 <= total ks <= 4 * Z.of_nat (length ks)).
  { clear Hne Hlen. induction Hks as [| k ks Hk _ IH]; cbn [total fold_right length].
    - lia.
    - fold (total ks). lia. }
  destruct Hlen as [Hlen | Hlen].
  - apply (mean_exact ks (total ks * 25) 2); [assumption | lia | | rewrite Hlen; lia].
    rewrite Hlen in Hb. apply Z.abs_lt. unfold Decimal.prec. lia.
  - apply (mean_exact ks (total ks * 125) 3); [assumption | lia | | rewrite Hlen; lia].
    rewrite Hlen in Hb. apply Z.abs_lt. unfold Decimal.prec. lia.
Qed.

Lemma survey_scores_range (angles : gmap string pyfloat) :
  Forall (fun k => 1 <= k <= 4) (survey_scores angles).
Proof.
  unfold survey_scores. apply Forall_map, Forall_forall. intros b _.
  apply score_posture_range.
Qed.

(** X17. Processing the responses only appends to the stored rows: it
    never changes or removes one.  Every row it appends belongs to the
    assessment of the component and carries the angles of the latest
    capture; no body part gets two rows in one call, and there are at most
    as many rows as questions.  Without an assessment nothing is appended.
    The only exceptions are the ValueError of the two enumeration calls,
    raised for a stored answer that is no value of a member. *)
Theorem responses_processing_only_appends (self : GotrakQuestionnaireComponent.t)
    (webcam_component : option WebcamCaptureComponent.t) (db : Store) :
  exists rows,
    fst (GotrakQuestionnaireComponent._process_responses self webcam_component db)
    = (db ++ rows)%list
    /\ Forall (fun row =>
                 row.(assessment_id)
                 = default 0 self.(GotrakQuestionnaireComponent.assessment_id)
                 /\ row.(angle_measurements)
                    = GotrakQuestionnaireComponent.latest_angles webcam_component) rows
    /\ NoDup (map body_part rows)
    /\ (length rows <= length self.(GotrakQuestionnaireComponent.questions))%nat
    /\ (not_assessment_id self.(GotrakQuestionnaireComponent.assessment_id) = true ->
        rows = [])
    /\ (forall e,
          snd (GotrakQuestionnaireComponent._process_responses self webcam_component db)
          = Raise e ->
          e = ValueError "SeverityLevel" \/ e = ValueError "FrequencyLevel").
Proof. apply process_responses_appends. Qed.

(** X18. The three ways [_complete_assessment] ends.  In each the stored
    rows are only extended and the assessments keep their number.
    Without an assessment nothing changes.  On failure, which is a
    ValueError of an enumeration call, no assessment is touched, while the
    rows appended before the failing body part remain stored.  On success
    the component has a non-zero assessment key and every other
    assessment is left alone; if no assessment has that key the table is
    unchanged although success is reported, otherwise the assessment is
    marked completed with the risk the precedence rule gives on the rows
    now stored for it and the score of the aggregator on them. *)
Theorem completion_outcomes (self : GotrakQuestionnaireComponent.t)
    (webcam_component : option WebcamCaptureComponent.t)
    (tbl tbl' : list Assessment.t) (db db' : Store) (o : Outcome) :
  GotrakQuestionnaireComponent._complete_assessment self webcam_component tbl db
  = (tbl', db', o) ->
  (exists rows, db' = (db ++ rows)%list)
  /\ length tbl' = length tbl
  /\ match o with
     | NoAssessment =>
         not_assessment_id self.(GotrakQuestionnaireComponent.assessment_id) = true
         /\ tbl' = tbl /\ db' = db
     | Failed e =>
         tbl' = tbl
         /\ (e = ValueError "SeverityLevel" \/ e = ValueError "FrequencyLevel")
     | Completed id =>
         self.(GotrakQuestionnaireComponent.assessment_id) = Some id
         /\ id <> 0
         /\ (forall id', id' <> id -> get_assessment tbl' id' = get_assessment tbl id')
         /\ match get_assessment tbl id with
            | None => tbl' = tbl
            | Some a =>
                exists a',
                  get_assessment tbl' id = Some a'
                  /\ a'.(Assessment.is_completed) = true
                  /\ a'.(Assessment.overall_risk_level)
                     = Some (precedence_rule
                               (count_level RED (get_assessment_body_parts db' id))
                               (count_level YELLOW (get_assessment_body_parts db' id)))
                  /\ a'.(Assessment.overall_rula_score)
                     = Some (fst (_calculate_overall_scores (Some id) db'))
            end
     end.
Proof.
  unfold GotrakQuestionnaireComponent._complete_assessment.
  destruct (not_assessment_id _) eqn:Hn.
  - intros [= <- <- <-]. split; [exists []; now rewrite app_nil_r |].
    split; [reflexivity |]. now repeat split.
  - destruct (process_responses_appends self webcam_component db)
      as (rows & H1 & _ & _ & _ & _ & H6).
    destruct (GotrakQuestionnaireComponent._process_responses self webcam_component db)
      as [db1 [[] | e]]; cbn [fst snd] in H1, H6; subst db1.
    + destruct (GotrakQuestionnaireComponent.assessment_id self) as [id |] eqn:Hid;
        [| discriminate Hn].
      cbn [not_assessment_id] in Hn. apply Z.eqb_neq in Hn.
      change (default 0 (Some id)) with id.
      destruct (_calculate_overall_scores (Some id) (db ++ rows)%list)
        as [score risk] eqn:Hs.
      assert (Hrisk : risk = precedence_rule
                (count_level RED (get_assessment_body_parts (db ++ rows)%list id))
                (count_level YELLOW (get_assessment_body_parts (db ++ rows)%list id))).
      { rewrite <- overall_risk_by_counts by assumption. now rewrite Hs. }
      destruct (get_assessment tbl id) as [a |] eqn:Hget.
      * destruct (complete_assessment_some tbl id score risk a Hget)
          as (tbl1 & a' & Hc & G1 & G2 & G3 & G4 & _ & _ & G7 & G8).
        rewrite Hc. intros [= <- <- <-].
        split; [now exists rows |]. split; [assumption |].
        split; [reflexivity |]. split; [assumption |]. split; [assumption |].
        rewrite Hget. exists a'. rewrite Hs. cbn [fst]. rewrite <- Hrisk.
        now repeat split.
      * unfold complete_assessment. rewrite Hget. intros [= <- <- <-].
        split; [now exists rows |]. split; [reflexivity |].
        split; [reflexivity |]. split; [assumption |]. split; [reflexivity |].
        now rewrite Hget.
    + intros [= <- <- <-]. split; [now exists rows |]. split; [reflexivity |].
      split; [reflexivity |]. now apply H6.
Qed.

Lemma completion_outcomes_witness :
  let self :=
    GotrakQuestionnaireComponent.set_responses
      (GotrakQuestionnaireComponent.set_assessment_id
         (GotrakQuestionnaireComponent.__init__ 7) (Some 1))
      (<["q_3" := {[ "severity" := "Agony" ]}]>
       (<["q_2" := {[ "frequency" := "Often" ]}]>
       (<["q_1" := {[ "severity" := "Pain" ]}]>
       (<["q_0" := {[ "frequency" := "Often" ]}]> ∅)))) in
  let tbl := fst (create_assessment [] 7 "first" "") in
  GotrakQuestionnaireComponent._complete_assessment self None tbl []
  = (tbl, [new_row [] 1 NECK ∅ PAIN OFTEN], Failed (ValueError "SeverityLevel"))
  /\ length tbl = length tbl.
Proof.
  intros self tbl.
  assert (H : GotrakQuestionnaireComponent._complete_assessment self None tbl []
              = (tbl, [new_row [] 1 NECK ∅ PAIN OFTEN],
                 Failed (ValueError "SeverityLevel")))
    by (vm_compute; reflexivity).
  split; [exact H |].
  exact (proj1 (proj2 (completion_outcomes self None tbl tbl [] _ _ H))).
Defined.

(** Completing a complete survey, whatever is stored already. *)
Lemma complete_survey (self : GotrakQuestionnaireComponent.t)
    (webcam_component : option WebcamCaptureComponent.t)
    (tbl : list Assessment.t) (db : Store) (a : Answers) (id : Z)
    (row : Assessment.t) :
  self.(GotrakQuestionnaireComponent.questions) = get_default_questions ->
  self.(GotrakQuestionnaireComponent.responses) = survey_responses a ->
  self.(GotrakQuestionnaireComponent.assessment_id) = Some id ->
  id <> 0 ->
  get_assessment tbl id = Some row ->
  let angles := GotrakQuestionnaireComponent.latest_angles webcam_component in
  let rows := survey_rows survey_parts db id angles a in
  exists tbl' row',
    GotrakQuestionnaireComponent._complete_assessment self webcam_component tbl db
    = (tbl', (db ++ rows)%list, Completed id)
    /\ get_assessment_body_parts (db ++ rows)%list id
       = (get_assessment_body_parts db id ++ rows)%list
    /\ get_assessment tbl' id = Some row'
    /\ row'.(Assessment.is_completed) = true
    /\ row'.(Assessment.overall_risk_level)
       = Some (precedence_rule
                 (count_level RED (get_assessment_body_parts db id)
                  + count_occ RiskLevel_eq_dec (survey_levels a) RED)
                 (count_level YELLOW (get_assessment_body_parts db id)
                  + count_occ RiskLevel_eq_dec (survey_levels a) YELLOW))
    /\ row'.(Assessment.overall_rula_score)
       = Some (fst (_calculate_overall_scores (Some id) (db ++ rows)%list))
    /\ row'.(Assessment.user_id) = row.(Assessment.user_id)
    /\ row'.(Assessment.session_name) = row.(Assessment.session_name)
    /\ (forall id', id' <> id -> get_assessment tbl' id' = get_assessment tbl id').
Proof.
  intros Hq Hr Hid Hnz Hget angles rows.
  unfold GotrakQuestionnaireComponent._complete_assessment.
  rewrite (process_survey self webcam_component db a id Hq Hr Hid Hnz).
  rewrite Hid. cbn [not_assessment_id].
  destruct (Z.eqb_spec id 0) as [| _]; [contradiction |].
  change (default 0 (Some id)) with id. fold angles. fold rows.
  destruct (_calculate_overall_scores (Some id) (db ++ rows)%list)
    as [score risk] eqn:Hs.
  destruct (complete_assessment_some tbl id score risk row Hget)
    as (tbl1 & a' & Hc & G1 & G2 & G3 & G4 & G5 & G6 & G7 & _).
  rewrite Hc. exists tbl1, a'.
  split; [reflexivity |].
  split; [apply rows_after_survey |].
  split; [assumption |]. split; [assumption |].
  split; [| now repeat split].
  rewrite G4. f_equal.
  change risk with (snd (score, risk)). rewrite <- Hs.
  rewrite overall_risk_by_counts by assumption.
  unfold rows. rewrite rows_after_survey, !count_level_app.
  rewrite !count_level_levels.
  now rewrite (proj1 (proj2 (proj2 (survey_rows_spec survey_parts db id angles a)))).
Qed.

Lemma total_app (ks ks' : list Z) : total (ks ++ ks') = total ks + total ks'.
Proof.
  unfold total. induction ks as [| k ks IH]; cbn [app fold_right]; [lia |].
  rewrite IH. lia.
Qed.

Lemma total_range (ks : list Z) :
  Forall (fun k => 1 <= k <= 4) ks ->
  Z.of_nat (length ks) <= total ks <= 4 * Z.of_nat (length ks).
Proof.
  induction 1 as [| k ks Hk _ IH]; cbn [total fold_right length]; [lia |].
  fold (total ks). lia.
Qed.

(** The score the aggregator returns once the rows of the session are
    one or two copies of the rows of a survey. *)
Lemma survey_score (db : Store) (id : Z) (ks : list Z) :
  id <> 0 ->
  omap rula_score (get_assessment_body_parts db id) = map Decimal.of_int ks ->
  Forall (fun k => 1 <= k <= 4) ks ->
  (length ks = 4 \/ length ks = 8)%nat ->
  fst (_calculate_overall_scores (Some id) db) = mean ks.
Proof.
  intros Hid Hks Hr Hlen.
  pose proof (total_range ks Hr) as Ht.
  rewrite (overall_score_of_ints db id ks Hid Hks).
  - destruct ks as [| k ks']; [cbn in Hlen; lia |].
    apply mean_of_scores_exact; [discriminate | assumption | assumption].
  - eapply Forall_impl; [exact Hr |]. cbn. intros; lia.
  - unfold Decimal.prec. destruct Hlen as [Hl | Hl]; rewrite Hl in Ht; lia.
Qed.

Lemma mean_twice (ks : list Z) : ks <> [] -> mean (ks ++ ks) = mean ks.
Proof.
  intros Hne. unfold mean. rewrite total_app, length_app.
  assert (0 < Z.of_nat (length ks)) by (destruct ks; [contradiction | cbn; lia]).
  apply Qc_frac_eq; lia.
Qed.

(** X19. Completing a complete survey of the default questions, for an
    existing assessment without earlier rows.  Exactly four rows are
    appended, for neck, left shoulder, upper back and lower back in this
    order, and they are the rows of the assessment.  The assessment is
    marked completed, keeps its user and name, gets as overall risk the
    precedence rule on the four discomfort levels of the answers and as
    overall score the exact mean of the four posture scores; every other
    assessment is left alone. *)
Theorem complete_survey_is_stored_and_scored
    (self : GotrakQuestionnaireComponent.t)
    (webcam_component : option WebcamCaptureComponent.t)
    (tbl : list Assessment.t) (db : Store) (a : Answers) (id : Z)
    (row : Assessment.t) :
  self.(GotrakQuestionnaireComponent.questions) = get_default_questions ->
  self.(GotrakQuestionnaireComponent.responses) = survey_responses a ->
  self.(GotrakQuestionnaireComponent.assessment_id) = Some id ->
  id <> 0 ->
  get_assessment tbl id = Some row ->
  get_assessment_body_parts db id = [] ->
  let angles := GotrakQuestionnaireComponent.latest_angles webcam_component in
  let rows := survey_rows survey_parts db id angles a in
  exists tbl' row',
    GotrakQuestionnaireComponent._complete_assessment self webcam_component tbl db
    = (tbl', (db ++ rows)%list, Completed id)
    /\ get_assessment_body_parts (db ++ rows)%list id = rows
    /\ map body_part rows = survey_parts
    /\ get_assessment tbl' id = Some row'
    /\ row'.(Assessment.is_completed) = true
    /\ row'.(Assessment.overall_risk_level)
       = Some (precedence_rule
                 (count_occ RiskLevel_eq_dec (survey_levels a) RED)
                 (count_occ RiskLevel_eq_dec (survey_levels a) YELLOW))
    /\ row'.(Assessment.overall_rula_score) = Some (mean (survey_scores angles))
    /\ row'.(Assessment.user_id) = row.(Assessment.user_id)
    /\ row'.(Assessment.session_name) = row.(Assessment.session_name)
    /\ (forall id', id' <> id -> get_assessment tbl' id' = get_assessment tbl id').
Proof.
  intros Hq Hr Hid Hnz Hget Hfresh angles rows.
  destruct (complete_survey self webcam_component tbl db a id row Hq Hr Hid Hnz Hget)
    as (tbl' & row' & H1 & H2 & H3 & H4 & H5 & H6 & H7 & H8 & H9).
  fold angles in H1, H2, H5, H6. fold rows in H1, H2, H5, H6.
  rewrite Hfresh in H2, H5. cbn [app] in H2.
  destruct (survey_rows_spec survey_parts db id angles a) as (S1 & S2 & S3 & S4).
  exists tbl', row'.
  split; [exact H1 |]. split; [exact H2 |]. split; [exact S2 |].
  split; [exact H3 |]. split; [exact H4 |]. split; [exact H5 |].
  split; [| now repeat split].
  rewrite H6. f_equal. apply survey_score; [assumption | | apply survey_scores_range | now left].
  fold rows in S4. now rewrite H2.
Qed.

Lemma complete_survey_is_stored_and_scored_witness :
  let a : Answers :=
    fun b => if bool_decide (b = NECK) then (OFTEN, UNCOMFORTABLE)
             else (ALWAYS, SEVERE_PAIN) in
  let self :=
    GotrakQuestionnaireComponent.set_responses
      (GotrakQuestionnaireComponent.set_assessment_id
         (GotrakQuestionnaireComponent.__init__ 7) (Some 1))
      (survey_responses a) in
  let tbl := fst (create_assessment [] 7 "first" "") in
  exists tbl' row',
    GotrakQuestionnaireComponent._complete_assessment self None tbl []
    = (tbl', survey_rows survey_parts [] 1 ∅ a, Completed 1)
    /\ get_assessment tbl' 1 = Some row'
    /\ row'.(Assessment.overall_risk_level) = Some RED
    /\ row'.(Assessment.overall_rula_score) = Some (Decimal.of_int 2).
Proof.
  intros a self tbl.
  destruct (complete_survey_is_stored_and_scored self None tbl [] a 1
              (snd (create_assessment [] 7 "first" ""))
              eq_refl eq_refl eq_refl ltac:(lia) eq_refl eq_refl)
    as (tbl' & row' & H1 & _ & _ & H3 & _ & H5 & H6 & _).
  exists tbl', row'. split; [exact H1 |]. split; [exact H3 |].
  split; [exact H5 |]. rewrite H6. f_equal. now apply Qc_is_canon.
Defined.

(** X20. Completing is not idempotent.  Completing the same survey a
    second time succeeds again and stores the four rows a second time, so
    that the assessment has eight.  The overall score stays the same, but
    the overall risk is now taken from doubled counts: answers with no red
    and exactly one yellow level give Green the first time and Yellow the
    second. *)
Theorem completing_twice_counts_rows_twice
    (self : GotrakQuestionnaireComponent.t)
    (webcam_component : option WebcamCaptureComponent.t)
    (tbl : list Assessment.t) (db : Store) (a : Answers) (id : Z)
    (row : Assessment.t) :
  self.(GotrakQuestionnaireComponent.questions) = get_default_questions ->
  self.(GotrakQuestionnaireComponent.responses) = survey_responses a ->
  self.(GotrakQuestionnaireComponent.assessment_id) = Some id ->
  id <> 0 ->
  get_assessment tbl id = Some row ->
  get_assessment_body_parts db id = [] ->
  let high := count_occ RiskLevel_eq_dec (survey_levels a) RED in
  let moderate := count_occ RiskLevel_eq_dec (survey_levels a) YELLOW in
  exists tbl1 db1 row1 tbl2 db2 row2,
    GotrakQuestionnaireComponent._complete_assessment self webcam_component tbl db
    = (tbl1, db1, Completed id)
    /\ GotrakQuestionnaireComponent._complete_assessment self webcam_component tbl1 db1
       = (tbl2, db2, Completed id)
    /\ map body_part (get_assessment_body_parts db1 id) = survey_parts
    /\ map body_part (get_assessment_body_parts db2 id)
       = (survey_parts ++ survey_parts)%list
    /\ get_assessment tbl1 id = Some row1
    /\ get_assessment tbl2 id = Some row2
    /\ row1.(Assessment.overall_risk_level) = Some (precedence_rule high moderate)
    /\ row2.(Assessment.overall_risk_level)
       = Some (precedence_rule (high + high) (moderate + moderate))
    /\ row2.(Assessment.overall_rula_score) = row1.(Assessment.overall_rula_score)
    /\ (high = 0%nat -> moderate = 1%nat ->
        row1.(Assessment.overall_risk_level) = Some GREEN
        /\ row2.(Assessment.overall_risk_level) = Some YELLOW).
Proof.
  intros Hq Hr Hid Hnz Hget Hfresh high moderate.
  set (angles := GotrakQuestionnaireComponent.latest_angles webcam_component).
  destruct (complete_survey self webcam_component tbl db a id row Hq Hr Hid Hnz Hget)
    as (tbl1 & row1 & H1 & H2 & H3 & _ & H5 & H6 & _).
  fold angles in H1, H2, H5, H6.
  set (rows1 := survey_rows survey_parts db id angles a) in *.
  set (db1 := (db ++ rows1)%list) in *.
  rewrite Hfresh in H2, H5. cbn [app] in H2. cbn [count_level] in H5.
  destruct (complete_survey self webcam_component tbl1 db1 a id row1 Hq Hr Hid Hnz H3)
    as (tbl2 & row2 & K1 & K2 & K3 & _ & K5 & K6 & _).
  fold angles in K1, K2, K5, K6.
  set (rows2 := survey_rows survey_parts db1 id angles a) in *.
  rewrite H2 in K2, K5.
  destruct (survey_rows_spec survey_parts db id angles a) as (_ & S2 & S3 & S4).
  destruct (survey_rows_spec survey_parts db1 id angles a) as (_ & T2 & T3 & T4).
  fold rows1 in S2, S3, S4. fold rows2 in T2, T3, T4.
  assert (Hc : forall r, count_level r rows1
                         = count_occ RiskLevel_eq_dec (survey_levels a) r).
  { intros r. rewrite count_level_levels. now rewrite S3. }
  rewrite !Hc in K5. change (count_level RED []) with 0%nat in H5.
  change (count_level YELLOW []) with 0%nat in H5. cbn [Nat.add] in H5.
  fold high in H5, K5. fold moderate in H5, K5.
  assert (Hscore1 : fst (_calculate_overall_scores (Some id) db1)
                    = mean (survey_scores angles)).
  { apply survey_score; [assumption | | apply survey_scores_range | now left].
    now rewrite H2. }
  assert (Hscore2 : fst (_calculate_overall_scores (Some id) (db1 ++ rows2)%list)
                    = mean (survey_scores angles ++ survey_scores angles)).
  { apply survey_score; [assumption | | | now right].
    - rewrite K2, omap_app, S4, T4. now rewrite map_app.
    - apply Forall_app. split; apply survey_scores_range. }
  exists tbl1, db1, row1, tbl2, (db1 ++ rows2)%list, row2.
  split; [exact H1 |]. split; [exact K1 |].
  split; [now rewrite H2 |].
  split; [rewrite K2, map_app; now rewrite S2, T2 |].
  split; [exact H3 |]. split; [exact K3 |].
  split; [exact H5 |]. split; [exact K5 |].
  split.
  - rewrite H6, K6, Hscore1, Hscore2. f_equal. now apply mean_twice.
  - intros Hh Hm. rewrite H5, K5, Hh, Hm. now split.
Qed.

Lemma completing_twice_counts_rows_twice_witness :
  let a : Answers :=
    fun b => if bool_decide (b = NECK) then (OFTEN, UNCOMFORTABLE)
             else (NEVER, NO_PROBLEM) in
  let self :=
    GotrakQuestionnaireComponent.set_responses
      (GotrakQuestionnaireComponent.set_assessment_id
         (GotrakQuestionnaireComponent.__init__ 7) (Some 1))
      (survey_responses a) in
  let tbl := fst (create_assessment [] 7 "first" "") in
  exists tbl1 db1 row1 tbl2 db2 row2,
    GotrakQuestionnaireComponent._complete_assessment self None tbl []
    = (tbl1, db1, Completed 1)
    /\ GotrakQuestionnaireComponent._complete_assessment self None tbl1 db1
       = (tbl2, db2, Completed 1)
    /\ get_assessment tbl1 1 = Some row1
    /\ get_assessment tbl2 1 = Some row2
    /\ row1.(Assessment.overall_risk_level) = Some GREEN
    /\ row2.(Assessment.overall_risk_level) = Some YELLOW.
Proof.
  intros a self tbl.
  destruct (completing_twice_counts_rows_twice self None tbl [] a 1
              (snd (create_assessment [] 7 "first" ""))
              eq_refl eq_refl eq_refl ltac:(lia) eq_refl eq_refl)
    as (tbl1 & db1 & row1 & tbl2 & db2 & row2
        & H1 & H2 & _ & _ & H5 & H6 & _ & _ & _ & H10).
  destruct (H10 eq_refl eq_refl) as [G1 G2].
  exists tbl1, db1, row1, tbl2, db2, row2. now repeat split.
Defined.

(** ** Capturing a posture *)

Lemma empty_angles_score_two (b : BodyPartType) :
  default 2 (score_posture ∅ b) = 2.
Proof.
  unfold score_posture.
  destruct (posture_table b) as [[key bounds] |]; [now rewrite lookup_empty | reflexivity].
Qed.

(** X21. A capture replaces the latest analysis whether a pose was
    detected or not.  Without a pose nothing is stored, and the angles the
    questionnaire reads afterwards are empty, whatever an earlier capture
    had measured: every row it then creates carries the posture score 2.
    With a pose one capture row is stored, with status completed and the
    analysis, and the angles the questionnaire reads are the measured
    ones, whose warnings are shown. *)
Theorem capture_replaces_latest_analysis (self : WebcamCaptureComponent.t)
    (analysis : Analysis.t) (timestamp : string)
    (captures : list WebcamCapture.t) :
  analyze_posture analysis ->
  exists self' captures' shown,
    _capture_posture self analysis timestamp captures = (self', captures', shown)
    /\ WebcamCaptureComponent.get_latest_analysis self' = Some analysis
    /\ self'.(WebcamCaptureComponent.user_id) = self.(WebcamCaptureComponent.user_id)
    /\ (analysis.(Analysis.pose_detected) = false ->
        captures' = captures
        /\ shown = NoPoseDetected
        /\ GotrakQuestionnaireComponent.latest_angles (Some self') = ∅
        /\ forall db id b s f,
             exists db' row,
               create_body_part_assessment db id b
                 (GotrakQuestionnaireComponent.latest_angles (Some self')) s f
               = Ok (db', row)
               /\ row.(rula_score) = Some (Decimal.of_int 2))
    /\ (analysis.(Analysis.pose_detected) = true ->
        exists c,
          captures' = (captures ++ [c])%list
          /\ c.(WebcamCapture.id_) = Some (Z.of_nat (length captures) + 1)
          /\ c.(WebcamCapture.user_id) = self.(WebcamCaptureComponent.user_id)
          /\ c.(WebcamCapture.assessment_id)
             = self.(WebcamCaptureComponent.assessment_id)
          /\ c.(WebcamCapture.posture_analysis) = analysis
          /\ c.(WebcamCapture.processing_status) = "completed"
          /\ _calculate_mock_rula_angles
               (GotrakQuestionnaireComponent.latest_angles (Some self'))
          /\ shown = PostureCaptured
                       (risk_items
                          (GotrakQuestionnaireComponent.latest_angles (Some self')))).
Proof.
  intros Han. unfold _capture_posture.
  destruct Han as [-> | (angles & Hmock & ->)]; cbn [Analysis.pose_detected negb].
  - eexists _, _, _. split; [reflexivity |]. split; [reflexivity |].
    split; [reflexivity |]. split; [| discriminate].
    intros _. split; [reflexivity |]. split; [reflexivity |].
    split; [reflexivity |].
    intros db id b s f. rewrite create_is_new_row. eexists _, _.
    split; [reflexivity |].
    cbn [new_row rula_score]. do 2 f_equal. apply empty_angles_score_two.
  - eexists _, _, _. split; [reflexivity |]. split; [reflexivity |].
    split; [reflexivity |]. split; [discriminate |].
    intros _. eexists. split; [reflexivity |]. now repeat split.
Qed.

Lemma capture_replaces_latest_analysis_witness :
  let good :=
    {| Analysis.pose_detected := true;
       Analysis.angles := Some {[ "neck_flexion" := Finite 30 ]};
       Analysis.error := None |} in
  let lost :=
    {| Analysis.pose_detected := false;
       Analysis.angles := None;
       Analysis.error := Some "No pose detected" |} in
  let self :=
    {| WebcamCaptureComponent.user_id := 1;
       WebcamCaptureComponent.assessment_id := None;
       WebcamCaptureComponent.latest_analysis := Some good |} in
  score_posture (GotrakQuestionnaireComponent.latest_angles (Some self)) NECK = Some 3
  /\ exists self' captures' shown,
       _capture_posture self lost "20240101_120000" [] = (self', captures', shown)
       /\ score_posture (GotrakQuestionnaireComponent.latest_angles (Some self')) NECK
          = None.
Proof.
  intros good lost self. split; [reflexivity |].
  destruct (capture_replaces_latest_analysis self lost "20240101_120000" []
              (or_introl eq_refl))
    as (self' & captures' & shown & H & _ & _ & Hlost & _).
  destruct (Hlost eq_refl) as (_ & _ & Hangles & _).
  exists self', captures', shown. split; [exact H |]. now rewrite Hangles.
Defined.

(** ** Users and the pages *)

Lemma get_user_by_email_none (users : list User.t) (email : string) :
  get_user_by_email users email = None
  <-> existsb (fun u => bool_decide (u.(User.email) = email)) users = false.
Proof.
  unfold get_user_by_email. induction users as [| u users IH]; [done |].
  cbn [List.find existsb]. destruct (bool_decide (User.email u = email)); [done |].
  exact IH.
Qed.

Lemma get_user_by_email_some (users : list User.t) (email : string) (u : User.t) :
  get_user_by_email users email = Some u -> In u users /\ u.(User.email) = email.
Proof.
  unfold get_user_by_email. intros H. apply find_some in H as [Hin H].
  split; [assumption | now apply bool_decide_eq_true in H].
Qed.

Lemma users_ok_id (users : list User.t) (u : User.t) :
  users_ok users -> In u users ->
  exists k, u.(User.id_) = Some k /\ 1 <= k <= Z.of_nat (length users).
Proof.
  intros [Hk _] Hin. apply list_elem_of_In, list_elem_of_lookup in Hin as [i Hi].
  pose proof (lookup_lt_Some _ _ _ Hi) as Hlt.
  exists (Z.of_nat i + 1). split; [now apply Hk | lia].
Qed.

(** Creating a user whose email is not stored. *)
Lemma create_user_spec (users : list User.t) (user_data : UserCreate.t) :
  users_ok users ->
  get_user_by_email users user_data.(UserCreate.email) = None ->
  exists user,
    create_user users user_data = Some ((users ++ [user])%list, user)
    /\ user.(User.id_) = Some (Z.of_nat (length users) + 1)
    /\ user.(User.name) = user_data.(UserCreate.name)
    /\ user.(User.email) = user_data.(UserCreate.email)
    /\ user.(User.is_active) = true
    /\ users_ok (users ++ [user])%list
    /\ get_user_by_email (users ++ [user])%list user_data.(UserCreate.email)
       = Some user
    /\ get_user (users ++ [user])%list (Z.of_nat (length users) + 1) = Some user
    /\ (forall email u, get_user_by_email users email = Some u ->
          get_user_by_email (users ++ [user])%list email = Some u).
Proof.
  intros Hok Hnone. pose proof Hnone as Hex.
  apply get_user_by_email_none in Hex.
  unfold create_user. rewrite Hex. eexists. split; [reflexivity |].
  cbn [User.id_ User.name User.email User.is_active].
  split; [reflexivity |]. split; [reflexivity |]. split; [reflexivity |].
  split; [reflexivity |]. split; [| split; [| split]].
  - destruct Hok as [Hk Hnd]. split.
    + intros i u Hi.
      destruct (decide (i < length users)%nat) as [Hlt | Hge].
      * rewrite lookup_app_l in Hi by assumption. now apply Hk.
      * rewrite lookup_app_r in Hi by lia.
        destruct (i - length users)%nat as [| n] eqn:Hn; [| discriminate Hi].
        injection Hi as <-. cbn [User.id_]. f_equal. lia.
    + rewrite map_app. cbn [map User.email]. apply NoDup_app.
      split; [assumption |]. split; [| apply NoDup_singleton].
      intros e He He'. apply list_elem_of_singleton in He'. subst e.
      apply list_elem_of_In, in_map_iff in He as (u & Hu & Hin).
      assert (Hf : existsb (fun u => bool_decide (User.email u = UserCreate.email user_data))
                     users = true).
      { apply existsb_exists. exists u. split; [assumption |].
        now apply bool_decide_eq_true. }
      congruence.
  - unfold get_user_by_email in *. rewrite find_app_, Hnone.
    cbn [List.find User.email]. now rewrite bool_decide_eq_true_2.
  - unfold get_user. rewrite find_app_.
    rewrite find_none_iff.
    + cbn [List.find User.id_]. now rewrite bool_decide_eq_true_2.
    + intros u Hu. apply bool_decide_eq_false. intros Hid.
      destruct (users_ok_id users u Hok Hu) as (k & Hk & Hr).
      rewrite Hk in Hid. injection Hid as ->. lia.
  - intros email u Hu. unfold get_user_by_email in *. now rewrite find_app_, Hu.
Qed.

Lemma capture_page_spec (users : list User.t) :
  users_ok users ->
  exists users' user id,
    webcam_capture_page users
    = Some (users',
            Some {| WebcamCaptureComponent.user_id := id;
                    WebcamCaptureComponent.assessment_id := None;
                    WebcamCaptureComponent.latest_analysis := None |})
    /\ users_ok users'
    /\ get_user_by_email users' "demo@example.com" = Some user
    /\ user.(User.id_) = Some id
    /\ get_user users' id = Some user
    /\ (get_user_by_email users "demo@example.com" = None ->
        users' = (users ++ [user])%list
        /\ user.(User.name) = "Demo User"
        /\ id = Z.of_nat (length users) + 1)
    /\ (forall u, get_user_by_email users "demo@example.com" = Some u ->
        users' = users /\ user = u)
    /\ (forall email u, get_user_by_email users email = Some u ->
          get_user_by_email users' email = Some u)
    /\ webcam_capture_page users' = webcam_capture_page users.
Proof.
  intros Hok. unfold webcam_capture_page at 1 3.
  destruct (get_user_by_email users "demo@example.com") as [u |] eqn:Hget.
  - destruct (get_user_by_email_some _ _ _ Hget) as [Hin Hemail].
    destruct (users_ok_id users u Hok Hin) as (k & Hk & Hr).
    cbn [mbind option_bind]. rewrite Hk.
    exists users, u, k. split; [reflexivity |]. split; [assumption |].
    split; [assumption |]. split; [assumption |].
    split.
    { unfold get_user. destruct Hok as [Hkeys _].
      apply list_elem_of_In, list_elem_of_lookup in Hin as [i Hi].
      pose proof (Hkeys i u Hi) as Hid. rewrite Hk in Hid. injection Hid as ->.
      clear Hr Hget. revert i Hi Hkeys Hk.
      intros i Hi Hkeys Hk.
      assert (G : forall (l : list User.t) (off : nat) (j : nat),
                 (forall i' u', l !! i' = Some u' ->
                    u'.(User.id_) = Some (Z.of_nat (off + i') + 1)) ->
                 l !! j = Some u ->
                 List.find (fun u0 => bool_decide (User.id_ u0 = Some (Z.of_nat (off + j) + 1))) l
                 = Some u).
      { induction l as [| x l IH]; intros off j Hl Hj; [discriminate Hj |].
        destruct j as [| j].
        - injection Hj as ->. cbn [List.find].
          rewrite bool_decide_eq_true_2; [reflexivity |]. now apply (Hl 0%nat).
        - cbn [List.find]. rewrite bool_decide_eq_false_2.
          + replace (off + S j)%nat with (S off + j)%nat by lia.
            apply IH; [| exact Hj].
            intros i' u' Hi'. replace (S off + i')%nat with (off + S i')%nat by lia.
            now apply (Hl (S i')).
          + rewrite (Hl 0%nat x eq_refl). intros [= Heq]. lia. }
      apply (G users 0%nat i); [| exact Hi]. intros i' u' Hi'. now apply Hkeys. }
    split; [discriminate |].
    split; [intros u' [= <-]; now split |].
    split; [auto |]. unfold webcam_capture_page. rewrite Hget.
    cbn [mbind option_bind]. now rewrite Hk.
  - destruct (create_user_spec users demo_user_data Hok Hget)
      as (user & Hc & Hid & Hname & Hemail & _ & Hok' & Hfind & Hget' & Hkeep).
    rewrite Hc. cbn [mbind option_bind]. rewrite Hid.
    exists (users ++ [user])%list, user, (Z.of_nat (length users) + 1).
    split; [reflexivity |]. split; [assumption |].
    split; [exact Hfind |]. split; [assumption |]. split; [exact Hget' |].
    split; [intros _; now repeat split |].
    split; [discriminate |]. split; [exact Hkeep |].
    change (UserCreate.email demo_user_data) with "demo@example.com" in Hfind.
    unfold webcam_capture_page. rewrite Hfind. cbn [mbind option_bind].
    now rewrite Hid.
Qed.

(** X22. With keys and emails as the table keeps them, the capture page
    never fails: it finds the default user or creates it, and builds a
    capture component for that user, without assessment and without
    analysis.  Afterwards the default user is found by its email, every
    user found before is still found, and the page visited again changes
    nothing and builds the same component. *)
Theorem capture_page_gets_or_creates_user (users : list User.t) :
  users_ok users ->
  exists users' user id,
    webcam_capture_page users
    = Some (users',
            Some {| WebcamCaptureComponent.user_id := id;
                    WebcamCaptureComponent.assessment_id := None;
                    WebcamCaptureComponent.latest_analysis := None |})
    /\ users_ok users'
    /\ get_user_by_email users' "demo@example.com" = Some user
    /\ user.(User.id_) = Some id
    /\ get_user users' id = Some user
    /\ (get_user_by_email users "demo@example.com" = None ->
        users' = (users ++ [user])%list
        /\ user.(User.name) = "Demo User"
        /\ id = Z.of_nat (length users) + 1)
    /\ (forall u, get_user_by_email users "demo@example.com" = Some u ->
        users' = users /\ user = u)
    /\ (forall email u, get_user_by_email users email = Some u ->
          get_user_by_email users' email = Some u)
    /\ webcam_capture_page users' = webcam_capture_page users.
Proof. apply capture_page_spec. Qed.

Lemma capture_page_gets_or_creates_user_witness :
  exists users' user id,
    webcam_capture_page []
    = Some (users',
            Some {| WebcamCaptureComponent.user_id := id;
                    WebcamCaptureComponent.assessment_id := None;
                    WebcamCaptureComponent.latest_analysis := None |})
    /\ get_user_by_email users' "demo@example.com" = Some user
    /\ webcam_capture_page users' = webcam_capture_page [].
Proof.
  assert (Hok : users_ok []).
  { split; [intros i u Hi; discriminate Hi | constructor]. }
  destruct (capture_page_gets_or_creates_user [] Hok)
    as (users' & user & id & H1 & _ & H3 & _ & _ & _ & _ & _ & H9).
  exists users', user, id. now repeat split.
Defined.

Lemma demo_user_data_is_valid :
  UserCreate_new "Demo User" "demo@example.com" None
                 (Some "Demo Department") (Some "Demo Position")
  = Some demo_user_data.
Proof. reflexivity. Qed.

Lemma max_length_opt_or_None (n : Z) (value : string) :
  0 <= n -> max_length_opt n (or_None value) = max_length n value.
Proof.
  intros Hn. unfold or_None.
  destruct (String.eqb_spec value "") as [-> | _]; [| reflexivity].
  unfold max_length. cbn. symmetry. now apply Z.leb_le.
Qed.

Lemma UserCreate_new_form (name email department job_title : string) :
  (too_long name email department job_title ->
   UserCreate_new name email None (or_None department) (or_None job_title) = None)
  /\ (~ too_long name email department job_title ->
      UserCreate_new name email None (or_None department) (or_None job_title)
      = Some {| UserCreate.name := name;
                UserCreate.email := email;
                UserCreate.employee_id := None;
                UserCreate.department := or_None department;
                UserCreate.job_title := or_None job_title |}).
Proof.
  unfold UserCreate_new, too_long.
  rewrite !max_length_opt_or_None by lia. unfold max_length. cbn [max_length_opt].
  destruct (Z.leb_spec (py_len name) 100);
    destruct (Z.leb_spec (py_len email) 255);
    destruct (Z.leb_spec (py_len department) 100);
    destruct (Z.leb_spec (py_len job_title) 100);
    cbn [andb]; split; intros Hlong;
    first [reflexivity | exfalso; lia | exfalso; apply Hlong; lia].
Qed.

(** X23. The profile form, on a table with keys and emails as the table
    keeps them, leaves them so.  Without a name or without an email it
    only warns; with an email that is stored already it only warns.
    Otherwise the input is validated: when the name has more than 100
    characters, the email more than 255, or the department or the job
    title more than 100, nothing is stored and the error notice is shown;
    when not, one active user is appended with the name and the email
    given, an empty department or job title stored as [None], it is found
    by its email afterwards and success is reported.  The error notice
    appears in no other case: the form never runs into the email
    constraint of the table. *)
Theorem profile_form_respects_unique_email (users : list User.t)
    (name email department job_title : string) :
  users_ok users ->
  exists users' notice,
    _create_user users name email department job_title = (users', notice)
    /\ users_ok users'
    /\ (name = "" \/ email = "" ->
        users' = users /\ notice = Warning "Name and email are required")
    /\ (name <> "" -> email <> "" ->
        match get_user_by_email users email with
        | Some _ =>
            users' = users
            /\ notice = Warning "A user with this email already exists"
        | None =>
            (too_long name email department job_title ->
             users' = users /\ notice = Negative)
            /\ (~ too_long name email department job_title ->
                exists user,
                  users' = (users ++ [user])%list
                  /\ get_user_by_email users' email = Some user
                  /\ user.(User.id_) = Some (Z.of_nat (length users) + 1)
                  /\ user.(User.name) = name
                  /\ user.(User.department) = or_None department
                  /\ user.(User.job_title) = or_None job_title
                  /\ user.(User.is_active) = true
                  /\ notice = Positive ("Profile created successfully for "
                                          +:+ name +:+ "!"))
        end)
    /\ (notice = Negative <->
        name <> "" /\ email <> "" /\ get_user_by_email users email = None
        /\ too_long name email department job_title).
Proof.
  intros Hok. unfold _create_user.
  destruct (String.eqb_spec name "") as [-> | Hname].
  { cbn [orb]. exists users, (Warning "Name and email are required").
    split; [reflexivity |]. split; [assumption |].
    split; [now intros _ |]. split; [now intros [] |].
    split; [discriminate | now intros [[] _]]. }
  destruct (String.eqb_spec email "") as [-> | Hemail].
  { cbn [orb]. exists users, (Warning "Name and email are required").
    split; [reflexivity |]. split; [assumption |].
    split; [now intros _ |]. split; [now intros _ [] |].
    split; [discriminate | now intros (_ & [] & _)]. }
  cbn [orb].
  destruct (get_user_by_email users email) as [u |] eqn:Hget.
  { exists users, (Warning "A user with this email already exists").
    split; [reflexivity |]. split; [assumption |].
    split; [intros [-> | ->]; contradiction |].
    split; [intros _ _; now split |].
    split; [discriminate | now intros (_ & _ & [=] & _)]. }
  destruct (UserCreate_new_form name email department job_title) as [Hlong Hshort].
  destruct (UserCreate_new name email None (or_None department) (or_None job_title))
    as [user_data |] eqn:Hnew.
  - assert (Hnot : ~ too_long name email department job_title).
    { intros Hl. discriminate (Hlong Hl). }
    pose proof (Hshort Hnot) as Hdata. injection Hdata as ->.
    match goal with
    | |- context [create_user users ?d] =>
        destruct (create_user_spec users d Hok Hget)
          as (user & Hc & Hid & Hn & He & Hact & Hok' & Hfind & _ & _);
        rewrite Hc
    end.
    cbn [UserCreate.name UserCreate.email] in *.
    eexists _, _. split; [reflexivity |]. split; [assumption |].
    split; [intros [-> | ->]; contradiction |].
    split.
    + intros _ _. split; [intros Hl; contradiction |]. intros _.
      exists user. rewrite Hn. split; [reflexivity |]. split; [assumption |].
      split; [assumption |]. split; [reflexivity |].
      unfold create_user in Hc.
      destruct (existsb _ users); [discriminate Hc |].
      injection Hc as _ <-. now repeat split.
    + split; [discriminate |]. intros (_ & _ & _ & Hl). contradiction.
  - assert (Hl : too_long name email department job_title).
    { unfold too_long in *.
      destruct (Z.ltb_spec 100 (py_len name)); [now left |].
      destruct (Z.ltb_spec 255 (py_len email)); [now right; left |].
      destruct (Z.ltb_spec 100 (py_len department)); [now right; right; left |].
      destruct (Z.ltb_spec 100 (py_len job_title)); [now right; right; right |].
      exfalso. assert (Hs : None = Some _) by (apply Hshort; lia).
      discriminate Hs. }
    exists users, Negative. split; [reflexivity |]. split; [assumption |].
    split; [intros [-> | ->]; contradiction |].
    split.
    + intros _ _. split; [now intros _ |]. intros Hn. contradiction.
    + split; [now intros _ | reflexivity].
Qed.

Lemma py_len_counts_code_points :
  py_len "Zoë" = 3 /\ Z.of_nat (String.length "Zoë") = 4.
Proof. split; reflexivity. Qed.

Lemma profile_form_respects_unique_email_witness :
  exists users' users'' notice,
    _create_user [] "Ada" "ada@example.com" "" "Engineer"
    = (users', Positive "Profile created successfully for Ada!")
    /\ _create_user users' "Ada again" "ada@example.com" "" "" = (users'', notice)
    /\ notice <> Negative
    /\ _create_user users'
         "Aaaaaaaaaaaaaaaaaaaaaaaaaaaaaaaaaaaaaaaaaaaaaaaaaaaaaaaaaaaaaaaaaaaaaaaaaaaaaaaaaaaaaaaaaaaaaaaaaaaaa"
         "long@example.com" "" ""
       = (users', Negative).
Proof.
  assert (Hok : users_ok []).
  { split; [intros i u Hi; discriminate Hi | constructor]. }
  destruct (profile_form_respects_unique_email [] "Ada" "ada@example.com" "" "Engineer" Hok)
    as (users' & notice & H1 & Hok' & _ & H4 & _).
  assert (Hshort : ~ too_long "Ada" "ada@example.com" "" "Engineer").
  { intros Hl. vm_compute in Hl.
    destruct Hl as [Hl | [Hl | [Hl | Hl]]]; discriminate Hl. }
  destruct (proj2 (H4 ltac:(discriminate) ltac:(discriminate)) Hshort)
    as (user & _ & _ & _ & _ & _ & _ & _ & ->).
  destruct (profile_form_respects_unique_email users' "Ada again" "ada@example.com" "" "" Hok')
    as (users'' & notice' & K1 & _ & _ & _ & K5).
  exists users', users'', notice'. split; [exact H1 |]. split; [exact K1 |].
  split.
  { intros Hneg. apply K5 in Hneg as (_ & _ & _ & Hl).
    vm_compute in Hl. destruct Hl as [Hl | [Hl | [Hl | Hl]]]; discriminate Hl. }
  match goal with
  | |- _create_user _ ?long ?email _ _ = _ =>
      destruct (profile_form_respects_unique_email users' long email "" "" Hok')
        as (users3 & notice3 & L1 & _ & _ & L4 & _);
      specialize (L4 ltac:(discriminate) ltac:(discriminate));
      assert (Hfresh : get_user_by_email users' email = None)
  end.
  { injection H1 as <-. reflexivity. }
  rewrite Hfresh in L4.
  destruct (proj1 L4) as [-> ->]; [left; vm_compute; reflexivity | exact L1].
Defined.

Lemma questionnaire_create (user_id : Z) (tbl : list Assessment.t)
    (session_timestamp : option string) :
  GotrakQuestionnaireComponent.create
    (GotrakQuestionnaireComponent.__init__ user_id) tbl session_timestamp
  = Some
      ((tbl ++ [ {| Assessment.id_ := Some (Z.of_nat (length tbl) + 1);
                    Assessment.user_id := user_id;
                    Assessment.session_name :=
                      "GOTRAK Assessment - " +:+ default "Unknown" session_timestamp;
                    Assessment.overall_rula_score := None;
                    Assessment.overall_risk_level := None;
                    Assessment.notes := "";
                    Assessment.is_completed := false |} ])%list,
       {| GotrakQuestionnaireComponent.user_id := user_id;
          GotrakQuestionnaireComponent.assessment_id :=
            Some (Z.of_nat (length tbl) + 1);
          GotrakQuestionnaireComponent.responses := ∅;
          GotrakQuestionnaireComponent.current_question_index := 0;
          GotrakQuestionnaireComponent.questions := get_default_questions;
          GotrakQuestionnaireComponent.question_container :=
            get_default_questions !! 0%nat;
          GotrakQuestionnaireComponent.prev_btn := false;
          GotrakQuestionnaireComponent.next_btn := false;
          GotrakQuestionnaireComponent.finish_btn := false |}).
Proof. reflexivity. Qed.



(** ** The demo assessment *)

Lemma get_assessment_fresh (tbl : list Assessment.t) :
  keyed tbl -> get_assessment tbl (Z.of_nat (length tbl) + 1) = None.
Proof.
  intros Hk. unfold get_assessment. apply find_none_iff. intros x Hx.
  apply bool_decide_eq_false. intros Hid.
  destruct (keyed_bound tbl x Hk Hx) as (k & Hk' & Hrange).
  rewrite Hk' in Hid. injection Hid as ->. lia.
Qed.

Lemma get_assessment_created (tbl : list Assessment.t) (a : Assessment.t) :
  keyed tbl ->
  a.(Assessment.id_) = Some (Z.of_nat (length tbl) + 1) ->
  get_assessment (tbl ++ [a])%list (Z.of_nat (length tbl) + 1) = Some a.
Proof.
  intros Hk Ha. pose proof (get_assessment_fresh tbl Hk) as Hfresh.
  unfold get_assessment in *. rewrite find_app_, Hfresh.
  cbn [List.find]. now rewrite bool_decide_eq_true_2.
Qed.

Lemma create_demo_rows_spec
    (data : list (BodyPartType * SeverityLevel * FrequencyLevel))
    (id : Z) (db : Store) :
  create_demo_rows data id db = ((db ++ demo_rows data db id)%list, Ok ())
  /\ Forall (fun row => row.(assessment_id) = id) (demo_rows data db id)
  /\ map (fun row => (row.(body_part), row.(severity_level), row.(frequency_level)))
         (demo_rows data db id)
     = map (fun '(b, s, f) => (b, Some s, Some f)) data
  /\ discomfort_levels (demo_rows data db id)
     = map (fun '(b, s, f) =>
              get_gotrak_risk_level (rank_severity s * rank_frequency f)) data
  /\ omap rula_score (demo_rows data db id)
     = map Decimal.of_int
           (map (fun '(b, s, f) => default 2 (score_posture demo_angles b)) data).
Proof.
  revert db. induction data as [| [[b s] f] data IH]; intros db.
  - cbn. rewrite app_nil_r. repeat split. constructor.
  - destruct (IH (db ++ [new_row db id b demo_angles s f])%list)
      as (H1 & H2 & H3 & H4 & H5).
    cbn [create_demo_rows demo_rows]. rewrite create_is_new_row, H1, <- app_assoc.
    unfold discomfort_levels in *.
    cbn [map omap list_omap new_row body_part severity_level frequency_level
         rula_score gotrak_risk_level].
    rewrite H3, H4, H5. repeat split. constructor; [reflexivity | assumption].
Qed.



(** ** Colours of the levels *)

(** X26. The colour of a stored severity or frequency level is the colour
    of its rank: green, yellow, orange, red for the ranks 1 to 4, so that
    a severity and a frequency of equal rank are shown in the same colour
    and of different rank in different colours.  The gray fallback is
    returned exactly for the strings that are no value of a member, hence
    never for a stored level. *)
Theorem level_colors_follow_rank :
  (forall s, _get_severity_color (SeverityLevel_value s) = rank_color (rank_severity s))
  /\ (forall f,
        _get_frequency_color (FrequencyLevel_value f) = rank_color (rank_frequency f))
  /\ (forall s f,
        _get_severity_color (SeverityLevel_value s)
        = _get_frequency_color (FrequencyLevel_value f)
        <-> rank_severity s = rank_frequency f)
  /\ (forall v,
        _get_severity_color v = "text-gray-600"
        <-> forall s, v <> SeverityLevel_value s)
  /\ (forall v,
        _get_frequency_color v = "text-gray-600"
        <-> forall f, v <> FrequencyLevel_value f).
Proof.
  split; [intros []; reflexivity |].
  split; [intros []; reflexivity |].
  split; [intros [] []; cbn; split; intros H; (reflexivity || discriminate H) |].
  split.
  - intros v. unfold _get_severity_color. split.
    + intros H s Hs. subst v. destruct s; discriminate H.
    + intros H.
      destruct (String.eqb_spec v "No problem") as [-> | _];
        [now destruct (H NO_PROBLEM) |].
      destruct (String.eqb_spec v "Uncomfortable") as [-> | _];
        [now destruct (H UNCOMFORTABLE) |].
      destruct (String.eqb_spec v "Pain") as [-> | _];
        [now destruct (H PAIN) |].
      destruct (String.eqb_spec v "Severe pain") as [-> | _];
        [now destruct (H SEVERE_PAIN) |].
      reflexivity.
  - intros v. unfold _get_frequency_color. split.
    + intros H f Hf. subst v. destruct f; discriminate H.
    + intros H.
      destruct (String.eqb_spec v "Never") as [-> | _];
        [now destruct (H NEVER) |].
      destruct (String.eqb_spec v "Sometimes") as [-> | _];
        [now destruct (H SOMETIMES) |].
      destruct (String.eqb_spec v "Often") as [-> | _];
        [now destruct (H OFTEN) |].
      destruct (String.eqb_spec v "Always") as [-> | _];
        [now destruct (H ALWAYS) |].
      reflexivity.
Qed.
